(** * Reorder planning engine of [run.py]: a shallow embedding

    The script [run.py] is a straight-line batch pipeline over pandas
    tables.  It is embedded here stage by stage:

    - tables are lists of records (one record type per table, the fields
      carrying the column names of the script);
    - Python dictionaries are [gmap]s, the ingredient set is a [gset];
    - calendar days ([pd.Timestamp] normalised to midnight) are day numbers
      in [Z], so that adding [pd.to_timedelta(n, unit="D")] is [+ n];
    - quantities (Python [float]) are exact rationals [Q], and [round] is
      the exact rounding to the nearest, ties to even; every cell of an
      input table is present (no NaN in the inputs), a missing value
      produced by a left merge is [None]; where the rounding of the doubles
      of the script decides, the planner is written once more over a
      rounding function ([binary64] for the doubles);
    - the loop of the reorder planner threads the mutated [daily] table and
      the list [reorder_rows] explicitly. *)

From Stdlib Require Import ZArith QArith Qround Lqa String Ascii List.
From Stdlib Require PrimFloat FloatOps SpecFloat.
From stdpp Require Import gmap strings list sorting.
Import ListNotations.

Local Open Scope string_scope.
Local Open Scope Z_scope.

(** ** Configuration constants (lines 6-7) *)

Definition LEAD_TIME_DAYS : Z := 3.
Definition RECURRENCE_DAYS : Z := 7.

(** ** Numbers *)

(** [x < y] on floats, as a boolean test. *)
Definition Qltb (x y : Q) : bool :=
  match (x ?= y)%Q with Lt => true | _ => false end.

(** Python's [max(a, b)]: the first argument is kept unless the second one
    is strictly greater. *)
Definition py_max (a b : Q) : Q := if Qltb a b then b else a.

(** Python's [round(x, 2)]: nearest multiple of 1/100, ties to the even
    one. *)
Definition py_round2 (x : Q) : Q :=
  let s := (x * (100 # 1))%Q in
  let n := Qfloor s in
  let k := match (s - inject_Z n ?= 1 # 2)%Q with
           | Lt => n
           | Gt => n + 1
           | Eq => if Z.even n then n else n + 1
           end in
  Qred (k # 100).

(** [pd.date_range(a, b, freq="D")]: the days [a], [a+1], ..., [b]; empty
    when [b < a]. *)
Definition date_range (a b : Z) : list Z :=
  map (fun i => a + Z.of_nat i) (seq 0 (Z.to_nat (b - a + 1))).

(** [series.sum()] *)
Definition Qsum (l : list Q) : Q := fold_left Qplus l (0 # 1)%Q.

(** ** Sorting

    [sort_values] is stable; it is modelled by a stable insertion sort,
    parameterised by the "not after" test of the sort key. *)

Section Sorting.
Context {A : Type} (before : A -> A -> bool).

Fixpoint insert_sorted (x : A) (l : list A) : list A :=
  match l with
  | [] => [x]
  | y :: l' => if before x y then x :: l else y :: insert_sorted x l'
  end.

Definition sort_values (l : list A) : list A := foldr insert_sorted [] l.
End Sorting.

(** Lexicographic "not after" on a (string, day) key. *)
Definition key_leb (k1 k2 : string * Z) : bool :=
  match String.compare k1.1 k2.1 with
  | Lt => true
  | Gt => false
  | Eq => k1.2 <=? k2.2
  end.

(** [sorted(set_of_strings)] *)
Definition sorted (l : list string) : list string := sort_values String.leb l.

(** [median()] of a pandas series: middle value of the sorted values, the
    mean of the two middle values when their number is even. *)
Definition median (l : list Q) : Q :=
  let s := sort_values Qle_bool l in
  let n := length s in
  if Nat.even n
  then ((nth (n / 2 - 1) s (0 # 1) + nth (n / 2) s (0 # 1)) / (2 # 1))%Q
  else nth (n / 2) s (0 # 1)%Q.

(** ** Tables *)

(** A purchase transaction of a bank file (weekNbank.csv). *)
Module Bank.
Record row := mk {
  ingredient : string;
  qty : Q;
  unit : string;
  unit_cost_gbp : Q;
  merchant : string;
  txn_date : Z
}.
End Bank.

(** A row of [actual] (usage from the point of sale, per day, ingredient
    and recipe unit; the unit column is not read after line 75) or of
    [forecast]. *)
Module Usage.
Record row := mk {
  date : Z;
  ingredient : string;
  usage : Q
}.
End Usage.

(** A row of the [daily] grid. *)
Module Daily.
Record row := mk {
  date : Z;
  ingredient : string;
  forecast_usage : option Q;
  actual_usage : option Q;
  daily_usage : Q;
  delivery_qty : Q;
  planned_delivery_qty : Q
}.
End Daily.

(** A row of [reorder_rows]. *)
Module Reorder.
Record row := mk {
  ingredient : string;
  supplier : string;
  order_date : Z;
  delivery_date : Z;
  order_qty : Q;
  unit : string;
  unit_cost_gbp : Q;
  estimated_cost_gbp : Q;
  stockout_date_if_no_order : Z
}.
End Reorder.

(** ** Units (lines 112-130) *)

(** [bank.groupby("ingredient")["unit"].first().to_dict()]: the unit of the
    first row of each ingredient, in file order. *)
Definition ingredient_units (bank : list Bank.row) : gmap string string :=
  fold_left
    (fun m r =>
       match m !! Bank.ingredient r with
       | Some _ => m
       | None => <[Bank.ingredient r := Bank.unit r]> m
       end)
    bank ∅.

(** [x in s] on Python strings: [x] occurs in [s]. *)
Fixpoint str_contains (x s : string) : bool :=
  String.prefix x s
  || match s with
     | EmptyString => false
     | String _ s' => str_contains x s'
     end.

(** The branches of [infer_unit] below the dictionary lookup. *)
Definition heuristic_unit (ingredient : string) : string :=
  if existsb (fun x => str_contains x ingredient) ["Patty"; "Filling"]
     || bool_decide (ingredient ∈ ["Lettuce"; "Pickles"; "Onion"; "Potatoes";
                                    "Chicken Nugget"; "Fish Fillet"])
  then "g"
  else if bool_decide (ingredient ∈ ["Milk"; "Ketchup"; "Mustard"; "Mayonnaise"])
  then "ml"
  else "unit".

Definition infer_unit (units : gmap string string) (ingredient : string) : string :=
  match units !! ingredient with
  | Some u => u
  | None => heuristic_unit ingredient
  end.

(** [ingredient_units.get(ing) or infer_unit(ing)]: an empty unit is falsy. *)
Definition unit_of (units : gmap string string) (ing : string) : string :=
  match units !! ing with
  | Some u => if String.eqb u EmptyString then infer_unit units ing else u
  | None => infer_unit units ing
  end.

(** ** Latest buy (lines 137-147) *)

Definition bank_leb (r1 r2 : Bank.row) : bool :=
  key_leb (Bank.ingredient r1, Bank.txn_date r1) (Bank.ingredient r2, Bank.txn_date r2).

Definition bank_sorted (bank : list Bank.row) : list Bank.row :=
  sort_values bank_leb bank.

(** [groupby("ingredient").tail(1)] indexed by ingredient: the last row of
    each ingredient in [bank_sorted]. *)
Definition latest_buy (bank : list Bank.row) : gmap string Bank.row :=
  fold_left (fun m r => <[Bank.ingredient r := r]> m) (bank_sorted bank) ∅.

(** ** Daily usage grid (lines 149-197) *)

(** [forecast["date"].min()]; there is no horizon without a forecast row. *)
Definition start_date (forecast : list Usage.row) : option Z :=
  match forecast with
  | [] => None
  | r :: rest => Some (fold_left Z.min (Usage.date <$> rest) (Usage.date r))
  end.

Definition end_date (start : Z) : Z := start + (RECURRENCE_DAYS - 1).

Definition dates (start : Z) : list Z := date_range start (end_date start).

Definition ingredients (forecast actual : list Usage.row) (all_banks : list Bank.row)
  : list string :=
  sorted (elements
            ((list_to_set (Usage.ingredient <$> forecast)
              ∪ list_to_set (Usage.ingredient <$> actual)
              ∪ list_to_set (Bank.ingredient <$> all_banks)) : gset string)).

(** [actual.groupby("ingredient")["usage"]]: the usage values of each
    ingredient, in row order. *)
Definition usage_groups (actual : list Usage.row) : gmap string (list Q) :=
  fold_left
    (fun m r =>
       <[Usage.ingredient r :=
           (default [] (m !! Usage.ingredient r) ++ [Usage.usage r])%list]> m)
    actual ∅.

Definition typical_daily (actual : list Usage.row) : gmap string Q :=
  median <$> usage_groups actual.

(** [pd.MultiIndex.from_product([dates, ingredients])] *)
Definition grid_index (ds : list Z) (ings : list string) : list (Z * string) :=
  d ← ds; ing ← ings; [(d, ing)].

(** The usage values of the rows of [t] with key [(d, ing)]. *)
Definition matching (t : list Usage.row) (d : Z) (ing : string) : list Q :=
  Usage.usage <$>
    filter (fun r => Usage.date r = d /\ Usage.ingredient r = ing) t.

(** [left.merge(t, on=["date", "ingredient"], how="left")]: every left row
    once per matching row of [t], once with a missing value when there is
    none. *)
Definition merge_left {L : Type} (key : L -> Z * string) (t : list Usage.row)
    (left : list L) : list (L * option Q) :=
  x ← left;
  match matching t (key x).1 (key x).2 with
  | [] => [(x, None)]
  | us => (fun u => (x, Some u)) <$> us
  end.

Definition fallback_usage (typical : gmap string Q) (ingredient : string)
    (forecast_usage actual_usage : option Q) : Q :=
  match forecast_usage with
  | Some f => f
  | None =>
      match actual_usage with
      | Some a => a
      | None => default (0 # 1)%Q (typical !! ingredient)
      end
  end.

(** ** Delivery ledger (lines 186-197) *)

(** [all_banks.groupby(["delivery_date", "ingredient"])["qty"].sum()] *)
Definition deliveries (all_banks : list Bank.row) : gmap (Z * string) Q :=
  fold_left
    (fun m r =>
       let k := (Bank.txn_date r + LEAD_TIME_DAYS, Bank.ingredient r) in
       <[k := match m !! k with
              | Some s => (s + Bank.qty r)%Q
              | None => Bank.qty r
              end]> m)
    all_banks ∅.

(** The grid before it is sorted: index, the two left merges, the resolved
    usage, the ledger delivery of the day and no planned delivery. *)
Definition daily_grid (ds : list Z) (ings : list string)
    (forecast actual : list Usage.row) (deliv : gmap (Z * string) Q)
  : list Daily.row :=
  let with_forecast := merge_left id forecast (grid_index ds ings) in
  let with_actual :=
    match actual with
    | [] => (fun x => (x, None)) <$> with_forecast
    | _ => merge_left fst actual with_forecast
    end in
  (fun x =>
     let '(d, ing, fu, au) := x in
     Daily.mk d ing fu au
       (fallback_usage (typical_daily actual) ing fu au)
       (default (0 # 1)%Q (deliv !! (d, ing)))
       (0 # 1)%Q)
    <$> with_actual.

Definition daily_leb (r1 r2 : Daily.row) : bool :=
  key_leb (Daily.ingredient r1, Daily.date r1) (Daily.ingredient r2, Daily.date r2).

(** ** Current inventory as of the morning of the start date (lines 199-255) *)

(** [actual.set_index(["date", "ingredient"])["usage"].to_dict()] *)
Definition actual_lookup (actual : list Usage.row) : gmap (Z * string) Q :=
  fold_left
    (fun m r => <[(Usage.date r, Usage.ingredient r) := Usage.usage r]> m)
    actual ∅.

(** One day of the replay of the estimator: the delivery lands, then the
    recorded usage is consumed. *)
Definition replay_day (deliv_lookup act_lookup : gmap (Z * string) Q)
    (ing : string) (inv : Q) (d : Z) : Q :=
  (inv + default (0 # 1) (deliv_lookup !! (d, ing))
       - default (0 # 1) (act_lookup !! (d, ing)))%Q.

(** The body of the loop over [ingredients] in [compute_current_inventory]. *)
Definition inventory_of (latest : gmap string Bank.row)
    (deliv_lookup act_lookup : gmap (Z * string) Q) (asof_date : Z)
    (ing : string) : Q :=
  match latest !! ing with
  | None => (0 # 1)%Q
  | Some lb =>
      let last_order_date := Bank.txn_date lb in
      let last_delivery_date := last_order_date + LEAD_TIME_DAYS in
      let last_order_qty := Bank.qty lb in
      if asof_date <? last_delivery_date then (0 # 1)%Q
      else
        let sim_dates := date_range last_delivery_date (asof_date - 1) in
        fold_left (replay_day deliv_lookup act_lookup ing) sim_dates last_order_qty
  end.

Definition compute_current_inventory (latest : gmap string Bank.row)
    (deliv_lookup act_lookup : gmap (Z * string) Q) (ings : list string)
    (asof_date : Z) : gmap string Q :=
  fold_left
    (fun current_inv ing =>
       <[ing := inventory_of latest deliv_lookup act_lookup asof_date ing]> current_inv)
    ings ∅.

(** [0.3 + (i % 10) * 0.12] *)
Definition variation_factor (i : nat) : Q :=
  ((3 # 10) + inject_Z (Z.of_nat i mod 10) * (12 # 100))%Q.

(** [enumerate(l)] *)
Definition enumerate {A : Type} (l : list A) : list (nat * A) :=
  zip (seq 0 (length l)) l.

(** Lines 252-255, the body of the loop over [enumerate(sorted(keys))]: the
    balance of [ing] is scaled by the factor of its rank [i] and clamped at
    zero.  ([base_inventory[ing]] never misses: [ing] ranges over the
    keys.) *)
Definition stagger_step (base_inventory : gmap string Q)
    (cur : gmap string Q) (x : nat * string) : gmap string Q :=
  <[x.2 := py_max (0 # 1)
             (default (0 # 1) (base_inventory !! x.2) * variation_factor x.1)%Q]> cur.

(** The starting inventory of the planner. *)
Definition current_inventory (base_inventory : gmap string Q) : gmap string Q :=
  fold_left (stagger_step base_inventory)
    (enumerate (sorted (elements (dom base_inventory)))) ∅.

(** ** Reorder planner (lines 257-326) *)

(** Lines 270-276: the do-nothing replay; the state of the loop is the
    running inventory and the first date on which it was negative. *)
Definition stockout_step (st : Q * option Z) (r : Daily.row) : Q * option Z :=
  let inv := (st.1 + Daily.delivery_qty r - Daily.daily_usage r)%Q in
  (inv, if Qltb inv (0 # 1) && bool_decide (st.2 = None)
        then Some (Daily.date r) else st.2).

Definition find_stockout (start_inv : Q) (df : list Daily.row) : option Z :=
  (fold_left stockout_step df (start_inv, None)).2.

(** Lines 286-292: the replay through the days strictly before the
    delivery date, leaving the loop at the first other row. *)
Fixpoint inv_at_delivery_morning (delivery_date : Z) (inv : Q)
    (df : list Daily.row) : Q :=
  match df with
  | [] => inv
  | r :: rest =>
      if Daily.date r <? delivery_date
      then inv_at_delivery_morning delivery_date
             (inv + Daily.delivery_qty r - Daily.daily_usage r)%Q rest
      else inv
  end.

(** Line 294 *)
Definition remaining_need (delivery_date : Z) (df : list Daily.row) : Q :=
  Qsum (Daily.daily_usage <$>
          filter (fun r => delivery_date <= Daily.date r) df).

(** Line 295 *)
Definition order_qty_of (need inv_morning : Q) : Q :=
  py_max (0 # 1) (need - py_max (0 # 1) inv_morning)%Q.

(** Line 298: the planned delivery is recorded on the rows of the
    ingredient at the delivery date. *)
Definition record_planned (ing : string) (delivery_date : Z) (q : Q)
    (daily : list Daily.row) : list Daily.row :=
  (fun r =>
     if bool_decide (Daily.ingredient r = ing /\ Daily.date r = delivery_date)
     then Daily.mk (Daily.date r) (Daily.ingredient r) (Daily.forecast_usage r)
            (Daily.actual_usage r) (Daily.daily_usage r) (Daily.delivery_qty r)
            (Daily.planned_delivery_qty r + q)%Q
     else r) <$> daily.

(** The rows of the grid of one ingredient, [daily[daily["ingredient"] == ing]]. *)
Definition rows_of (ing : string) (daily : list Daily.row) : list Daily.row :=
  filter (fun r => Daily.ingredient r = ing) daily.

Section Planner.
Variable latest : gmap string Bank.row.
Variable units : gmap string string.
Variable cur_inv : gmap string Q.

(** Lines 300-314: the row appended to [reorder_rows]. *)
Definition reorder_row (ing : string) (order_date delivery_date : Z)
    (order_qty : Q) (stockout_date : Z) : Reorder.row :=
  let unit := match latest !! ing with
              | Some lb => Bank.unit lb
              | None => unit_of units ing
              end in
  let unit_cost := match latest !! ing with
                   | Some lb => Bank.unit_cost_gbp lb
                   | None => (0 # 1)%Q
                   end in
  let supplier := match latest !! ing with
                  | Some lb => Bank.merchant lb
                  | None => "Unknown"
                  end in
  Reorder.mk ing supplier order_date delivery_date (py_round2 order_qty)
    unit unit_cost (py_round2 (order_qty * unit_cost)) stockout_date.

(** The body of the loop over [ingredients]; the state is the [daily]
    table and [reorder_rows]. *)
Definition plan_step (st : list Daily.row * list Reorder.row) (ing : string)
  : list Daily.row * list Reorder.row :=
  let df := rows_of ing st.1 in
  let start_inv := default (0 # 1)%Q (cur_inv !! ing) in
  match find_stockout start_inv df with
  | None => st
  | Some stockout_date =>
      let order_date := stockout_date - LEAD_TIME_DAYS in
      let delivery_date := order_date + LEAD_TIME_DAYS in
      let inv_morning := inv_at_delivery_morning delivery_date start_inv df in
      let need := remaining_need delivery_date df in
      let order_qty := order_qty_of need inv_morning in
      (record_planned ing delivery_date order_qty st.1,
       (st.2 ++ [reorder_row ing order_date delivery_date order_qty stockout_date])%list)
  end.

Definition plan_loop (ings : list string) (daily : list Daily.row)
  : list Daily.row * list Reorder.row :=
  fold_left plan_step ings (daily, []).
End Planner.

(** [sort_values(["order_date", "estimated_cost_gbp"], ascending=[True, False])] *)
Definition reorder_leb (r1 r2 : Reorder.row) : bool :=
  if Reorder.order_date r1 <? Reorder.order_date r2 then true
  else if Reorder.order_date r2 <? Reorder.order_date r1 then false
  else Qle_bool (Reorder.estimated_cost_gbp r2) (Reorder.estimated_cost_gbp r1).

(** ** The run

    The inputs of a run are the three bank files, the actual usage of the
    previous week and the forecast of the next one. *)

Record Inputs := {
  bank_week1 : list Bank.row;
  bank_week2 : list Bank.row;
  bank_week3 : list Bank.row;
  actual : list Usage.row;
  forecast : list Usage.row
}.

Section Run.
Variable inp : Inputs.
(** The first day of the horizon. *)
Variable start : Z.

Definition all_banks : list Bank.row :=
  (bank_week1 inp ++ bank_week2 inp ++ bank_week3 inp)%list.

(** Line 40: the last week only. *)
Definition bank : list Bank.row := bank_week3 inp.

Definition run_ingredients : list string :=
  ingredients (forecast inp) (actual inp) all_banks.

(** Line 260: the grid, sorted by ingredient and date. *)
Definition run_daily : list Daily.row :=
  sort_values daily_leb
    (daily_grid (dates start) run_ingredients (forecast inp) (actual inp)
       (deliveries all_banks)).

Definition base_inventory : gmap string Q :=
  compute_current_inventory (latest_buy bank) (deliveries all_banks)
    (actual_lookup (actual inp)) run_ingredients start.

Definition run_current_inventory : gmap string Q :=
  current_inventory base_inventory.

(** The starting inventory of the planner, line 267. *)
Definition start_inv (ing : string) : Q :=
  default (0 # 1)%Q (run_current_inventory !! ing).

Definition reorder_rows : list Reorder.row :=
  (plan_loop (latest_buy bank) (ingredient_units bank) run_current_inventory
     run_ingredients run_daily).2.

Definition reorder_plan : list Reorder.row :=
  sort_values reorder_leb reorder_rows.
End Run.

(** The whole script: the horizon starts on the first forecast date. *)
Definition run (inp : Inputs) : option (list Reorder.row) :=
  s ← start_date (forecast inp); Some (reorder_plan inp s).

(** ** The planner, one ingredient at a time

    What one pass of the loop of the planner appends for [ing], as a
    function of the grid the loop started from. *)

Definition recommendation_of (latest : gmap string Bank.row)
    (units : gmap string string) (cur_inv : gmap string Q)
    (daily : list Daily.row) (ing : string) : option Reorder.row :=
  let df := rows_of ing daily in
  let start_inv := default (0 # 1)%Q (cur_inv !! ing) in
  match find_stockout start_inv df with
  | None => None
  | Some stockout_date =>
      let order_date := stockout_date - LEAD_TIME_DAYS in
      let delivery_date := order_date + LEAD_TIME_DAYS in
      Some (reorder_row latest units ing order_date delivery_date
              (order_qty_of (remaining_need delivery_date df)
                 (inv_at_delivery_morning delivery_date start_inv df))
              stockout_date)
  end.

(** Two rows that agree on the columns the planner reads. *)
Definition same_reads (r r' : Daily.row) : Prop :=
  Daily.date r = Daily.date r'
  /\ Daily.ingredient r = Daily.ingredient r'
  /\ Daily.daily_usage r = Daily.daily_usage r'
  /\ Daily.delivery_qty r = Daily.delivery_qty r'.

(** Lines 388-399: the second stockout detection of the script (for the
    inventory table), which leaves the loop at the first negative day. *)
Fixpoint stockout_of (inv : Q) (df : list Daily.row) : option Z :=
  match df with
  | [] => None
  | r :: rest =>
      let inv' := (inv + Daily.delivery_qty r - Daily.daily_usage r)%Q in
      if Qltb inv' (0 # 1) then Some (Daily.date r) else stockout_of inv' rest
  end.

(** The do-nothing replay as the specification words it: the running
    inventory after each row, [inventory += delivery_qty - daily_usage]. *)
Fixpoint running_inventory (inv : Q) (df : list Daily.row) : list Q :=
  match df with
  | [] => []
  | r :: rest =>
      let inv' := (inv + Daily.delivery_qty r - Daily.daily_usage r)%Q in
      inv' :: running_inventory inv' rest
  end.

(** ** The replay of the estimator, in the words of the specification

    [n] days from day [d] on: each day the ledger delivery of the day is
    added and the usage recorded for the day is subtracted. *)

Fixpoint replay_days (ledger usage : Z -> Q) (d : Z) (n : nat) (balance : Q) : Q :=
  match n with
  | O => balance
  | S n' => replay_days ledger usage (d + 1) n' (balance + ledger d - usage d)%Q
  end.

(** The usage recorded for [ing] on day [d]: the usage of all its usage
    rows of that day. *)
Definition recorded_usage (actual : list Usage.row) (d : Z) (ing : string) : Q :=
  Qsum (matching actual d ing).

(** The balance of [ing] replayed from the delivery of the transaction [lb]
    up to, and excluding, the day [start], the recorded usage subtracted. *)
Definition replayed_balance (inp : Inputs) (start : Z) (ing : string)
    (lb : Bank.row) : Q :=
  let delivery_date := Bank.txn_date lb + LEAD_TIME_DAYS in
  replay_days
    (fun d => default (0 # 1)%Q (deliveries (all_banks inp) !! (d, ing)))
    (fun d => recorded_usage (actual inp) d ing)
    delivery_date (Z.to_nat (start - delivery_date)) (Bank.qty lb).

(** ** The replay of the estimator, as the script has it

    The dictionary [actual_lookup] of lines 213-220 has one value per date
    and ingredient, that of the last usage row with these: it is the only
    usage of the day that the replay subtracts. *)
Definition last_usage (actual : list Usage.row) (d : Z) (ing : string) : Q :=
  default (0 # 1)%Q (last (matching actual d ing)).

Definition estimated_balance (inp : Inputs) (start : Z) (ing : string)
    (lb : Bank.row) : Q :=
  let delivery_date := Bank.txn_date lb + LEAD_TIME_DAYS in
  replay_days
    (fun d => default (0 # 1)%Q (deliveries (all_banks inp) !! (d, ing)))
    (fun d => last_usage (actual inp) d ing)
    delivery_date (Z.to_nat (start - delivery_date)) (Bank.qty lb).

(** ** The usage policy of the grid, in the words of the specification

    The forecast usage when there is one, else the actual usage when there
    is one, else the median of the actual usage series of the ingredient
    when the series is not empty, else 0. *)

Definition actual_series (actual : list Usage.row) (ing : string) : list Q :=
  Usage.usage <$> filter (fun r => Usage.ingredient r = ing) actual.

Definition resolve_daily_usage (forecast_usage actual_usage : option Q)
    (series : list Q) : Q :=
  match forecast_usage, actual_usage, series with
  | Some f, _, _ => f
  | None, Some a, _ => a
  | None, None, _ :: _ => median series
  | None, None, [] => (0 # 1)%Q
  end.

(** What a left merge leaves in the merged column of a row with key
    [(d, ing)]: a value of a matching row of [t], or nothing when no row
    matches. *)
Definition merged_from (t : list Usage.row) (d : Z) (ing : string)
    (o : option Q) : Prop :=
  match o with
  | Some u => u ∈ matching t d ing
  | None => matching t d ing = []
  end.

(** ** The literal scenario of the planner

    Seven horizon days after the day [D0], 50 used on each, nothing
    delivered, a starting inventory of 120. *)

Definition bun_row (D0 i : Z) : Daily.row :=
  Daily.mk (D0 + i) "Bun" (Some (50 # 1)%Q) None (50 # 1)%Q (0 # 1)%Q (0 # 1)%Q.

Definition bun_grid (D0 : Z) : list Daily.row := bun_row D0 <$> [1; 2; 3; 4; 5; 6; 7].

Definition bun_inventory : gmap string Q := {[ "Bun" := (120 # 1)%Q ]}.

(** ** Sample runs

    A small run with three ingredients: "Bun" was bought twice in the last week, "Lettuce"
    only in the first week, "Salt" only in the second one and is not
    used. *)

Definition demo : Inputs := {|
  bank_week1 := [Bank.mk "Lettuce" (10 # 1) "kg" (1 # 1) "Farm" 0];
  bank_week2 := [Bank.mk "Salt" (5 # 1) "kg" (1 # 4) "Grocer" 8];
  bank_week3 := [Bank.mk "Bun" (100 # 1) "pack" (1 # 2) "Bakery" 14;
                 Bank.mk "Bun" (200 # 1) "unit" (1 # 2) "Bakery" 15];
  actual := [Usage.mk 18 "Bun" (40 # 1); Usage.mk 19 "Bun" (60 # 1)];
  forecast := [Usage.mk 21 "Bun" (50 # 1); Usage.mk 22 "Bun" (50 # 1);
               Usage.mk 21 "Lettuce" (3 # 1)]
|}.

(** A run whose last "Bun" order lands on the first day of the horizon. *)
Definition landing_today : Inputs := {|
  bank_week1 := [];
  bank_week2 := [];
  bank_week3 := [Bank.mk "Bun" (200 # 1) "unit" (1 # 2) "Bakery" 15];
  actual := [];
  forecast := [Usage.mk 18 "Bun" (50 # 1)]
|}.

(** A run in which more "Bun" was used before the horizon than was in
    stock. *)
Definition deficit : Inputs := {|
  bank_week1 := [];
  bank_week2 := [];
  bank_week3 := [Bank.mk "Bun" (10 # 1) "unit" (1 # 2) "Bakery" 15];
  actual := [Usage.mk 18 "Bun" (100 # 1)];
  forecast := [Usage.mk 21 "Bun" (50 # 1)]
|}.

(** A run with two usage rows of "Bun" on one day (one per unit). *)
Definition two_units : Inputs := {|
  bank_week1 := [];
  bank_week2 := [];
  bank_week3 := [Bank.mk "Bun" (200 # 1) "unit" (1 # 2) "Bakery" 15];
  actual := [Usage.mk 19 "Bun" (40 # 1); Usage.mk 19 "Bun" (85 # 1)];
  forecast := [Usage.mk 21 "Bun" (50 # 1)]
|}.

(** ** The grid after the planner *)

(** The [daily] table when the loop of the planner has ended. *)
Definition final_daily (inp : Inputs) (start : Z) : list Daily.row :=
  (plan_loop (latest_buy (bank inp)) (ingredient_units (bank inp))
     (run_current_inventory inp start) (run_ingredients inp)
     (run_daily inp start)).1.

(** The delivery date and the quantity, before rounding, that one pass of
    the loop of the planner records for [ing] (line 298), as a function of
    the grid the loop started from. *)
Definition planned_order (cur_inv : gmap string Q) (daily : list Daily.row)
    (ing : string) : option (Z * Q) :=
  let df := rows_of ing daily in
  let start_inv := default (0 # 1)%Q (cur_inv !! ing) in
  match find_stockout start_inv df with
  | None => None
  | Some stockout_date =>
      let delivery_date := stockout_date - LEAD_TIME_DAYS + LEAD_TIME_DAYS in
      Some (delivery_date,
            order_qty_of (remaining_need delivery_date df)
              (inv_at_delivery_morning delivery_date start_inv df))
  end.

(** What the loop over [ings] adds to the planned delivery of a row. *)
Definition planned_amount (cur_inv : gmap string Q) (daily : list Daily.row)
    (ings : list string) (r : Daily.row) : Q :=
  if decide (Daily.ingredient r ∈ ings)
  then match planned_order cur_inv daily (Daily.ingredient r) with
       | Some (d, q) => if decide (Daily.date r = d) then q else (0 # 1)%Q
       | None => (0 # 1)%Q
       end
  else (0 # 1)%Q.

(** ** Recurring baseline and costs (lines 328-349) *)

Module Recurring.
Record row := mk {
  ingredient : string;
  qty : Q;
  unit : string;
  cost_gbp : Q
}.
End Recurring.

(** The body of the loop over [ingredients]: nothing for an ingredient
    without a latest buy, else the last order repeated on the start date
    when it would land within the horizon. *)
Definition rec_row (latest : gmap string Bank.row) (start : Z) (ing : string)
  : option Recurring.row :=
  match latest !! ing with
  | None => None
  | Some lb =>
      let last_qty := Bank.qty lb in
      let unit_cost := Bank.unit_cost_gbp lb in
      let unit := Bank.unit lb in
      let order_date := start in
      let delivery_date := order_date + LEAD_TIME_DAYS in
      if bool_decide (start <= delivery_date /\ delivery_date <= end_date start)
      then Some (Recurring.mk ing last_qty unit (last_qty * unit_cost)%Q)
      else None
  end.

Definition rec_rows (latest : gmap string Bank.row) (ings : list string)
    (start : Z) : list Recurring.row :=
  omap (rec_row latest start) ings.

Definition recurring_plan (inp : Inputs) (start : Z) : list Recurring.row :=
  rec_rows (latest_buy (bank inp)) (run_ingredients inp) start.

(** [reorder_plan["estimated_cost_gbp"].sum()], 0.0 for an empty plan. *)
Definition dynamic_cost (inp : Inputs) (start : Z) : Q :=
  Qsum (Reorder.estimated_cost_gbp <$> reorder_plan inp start).

Definition recurring_cost (inp : Inputs) (start : Z) : Q :=
  Qsum (Recurring.cost_gbp <$> recurring_plan inp start).

Definition savings (inp : Inputs) (start : Z) : Q :=
  (recurring_cost inp start - dynamic_cost inp start)%Q.

(** ** Inventory table (lines 376-432) *)

(** [deliveries[deliveries["date"] >= start_date]] sorted by ingredient and
    date, first row of the ingredient: its next known delivery. *)
Definition next_delivery (deliv : gmap (Z * string) Q) (start : Z)
    (ing : string) : option (Z * Q) :=
  head (sort_values (fun a b : Z * Q => a.1 <=? b.1)
          ((fun x : Z * string * Q => (x.1.1, x.2)) <$>
             filter (fun x : Z * string * Q => start <= x.1.1 /\ x.1.2 = ing)
               (map_to_list deliv))).

(** [df.sort_values("date")] *)
Definition date_leb (r1 r2 : Daily.row) : bool :=
  Daily.date r1 <=? Daily.date r2.

(** Lines 389-399: the stockout date of every ingredient when nothing is
    ordered, read from the grid the planner left.  The rows of the
    ingredient are sorted by the one key [date]; rows of equal date keep
    the order they have in the grid. *)
Definition stockout_map (cur_inv : gmap string Q) (daily : list Daily.row)
    (ings : list string) : gmap string (option Z) :=
  fold_left
    (fun m ing =>
       <[ing := stockout_of (default (0 # 1)%Q (cur_inv !! ing))
                  (sort_values date_leb (rows_of ing daily))]> m)
    ings ∅.

Module Inventory.
Record row := mk {
  ingredient : string;
  unit : string;
  current_qty_asof_start : Q;
  supplier_last : string;
  last_order_date : option Z;
  last_order_qty : Q;
  next_delivery_date : option Z;
  next_delivery_qty : Q;
  stockout_date_if_no_new_order : option Z
}.
End Inventory.

(** Lines 402-426, the body of the loop over [ingredients]. *)
Definition inv_row (latest : gmap string Bank.row) (units : gmap string string)
    (cur_inv : gmap string Q) (deliv : gmap (Z * string) Q)
    (stockouts : gmap string (option Z)) (start : Z) (ing : string)
  : Inventory.row :=
  let unit := match latest !! ing with
              | Some lb => Bank.unit lb
              | None => unit_of units ing
              end in
  let last_order_date := Bank.txn_date <$> latest !! ing in
  let last_order_qty := match latest !! ing with
                        | Some lb => Bank.qty lb
                        | None => (0 # 1)%Q
                        end in
  let supplier := match latest !! ing with
                  | Some lb => Bank.merchant lb
                  | None => "Unknown"
                  end in
  let nd := next_delivery deliv start ing in
  Inventory.mk ing unit
    (py_round2 (default (0 # 1)%Q (cur_inv !! ing)))
    supplier last_order_date (py_round2 last_order_qty)
    (fst <$> nd)
    (py_round2 (default (0 # 1)%Q (snd <$> nd)))
    (default None (stockouts !! ing)).

Definition inv_rows (inp : Inputs) (start : Z) : list Inventory.row :=
  inv_row (latest_buy (bank inp)) (ingredient_units (bank inp))
    (run_current_inventory inp start) (deliveries (all_banks inp))
    (stockout_map (run_current_inventory inp start) (final_daily inp start)
       (run_ingredients inp))
    start
  <$> run_ingredients inp.

(** A row [r'] of the grid after the loop over [ings], against the row [r]
    it was before: every column but the planned delivery is unchanged, and
    the planned delivery has grown by the planned amount. *)
Definition planned_from (cur_inv : gmap string Q) (daily : list Daily.row)
    (ings : list string) (r' r : Daily.row) : Prop :=
  Daily.date r' = Daily.date r
  /\ Daily.ingredient r' = Daily.ingredient r
  /\ Daily.forecast_usage r' = Daily.forecast_usage r
  /\ Daily.actual_usage r' = Daily.actual_usage r
  /\ Daily.daily_usage r' = Daily.daily_usage r
  /\ Daily.delivery_qty r' = Daily.delivery_qty r
  /\ (Daily.planned_delivery_qty r'
      == Daily.planned_delivery_qty r + planned_amount cur_inv daily ings r)%Q.

(** The quantities, in file order, of the transactions of [ing] that are
    delivered on day [d]. *)
Definition delivered_quantities (banks : list Bank.row) (d : Z) (ing : string)
  : list Q :=
  Bank.qty <$>
    filter (fun r => Bank.txn_date r + LEAD_TIME_DAYS = d /\ Bank.ingredient r = ing)
      banks.

(** ** Usage from the point of sale (lines 47-75)

    [RECIPES] maps a food to the items of its dictionary of ingredients,
    (ingredient, (quantity, unit)), in insertion order.  Reading and
    parsing the recipe file (lines 12-28) is not modelled. *)

Module Sale.
Record row := mk {
  actual_food : string;
  quantity : Q;
  date : Z
}.
End Sale.

(** A usage record, and a row of the table [pos_to_ingredients] returns. *)
Module Pos.
Record row := mk {
  date : Z;
  ingredient : string;
  usage : Q;
  unit : string
}.
End Pos.

(** Lines 51-63: one record per sale and ingredient of the recipe of the
    food sold; a sale of a food without a recipe is skipped. *)
Definition usage_records (recipes : gmap string (list (string * (Q * string))))
    (pos_df : list Sale.row) : list Pos.row :=
  row ← pos_df;
  match recipes !! Sale.actual_food row with
  | None => []
  | Some items =>
      (fun item : string * (Q * string) =>
         Pos.mk (Sale.date row) item.1 (item.2.1 * Sale.quantity row)%Q item.2.2)
        <$> items
  end.

Definition pos_key (r : Pos.row) : Z * string * string :=
  (Pos.date r, Pos.ingredient r, Pos.unit r).

(** Lexicographic "not after" on a (day, string, string) key. *)
Definition key3_leb (k1 k2 : Z * string * string) : bool :=
  if k1.1.1 <? k2.1.1 then true
  else if k2.1.1 <? k1.1.1 then false
  else match String.compare k1.1.2 k2.1.2 with
       | Lt => true
       | Gt => false
       | Eq => String.leb k1.2 k2.2
       end.

(** Lines 65-69: [groupby(["date", "ingredient", "unit"])["usage"].sum()],
    one row per key, in the order of the keys; the empty table when there
    is no record. *)
Definition pos_to_ingredients (recipes : gmap string (list (string * (Q * string))))
    (pos_df : list Sale.row) : list Pos.row :=
  let records := usage_records recipes pos_df in
  (fun k : Z * string * string =>
     Pos.mk k.1.1 k.1.2
       (Qsum (Pos.usage <$> filter (fun r => pos_key r = k) records)) k.2)
    <$> sort_values key3_leb
          (elements (list_to_set (pos_key <$> records) : gset (Z * string * string))).

(** ** The forecast (lines 71-109)

    Days are counted from 1970-01-01. *)

(** 2020-03-10 and 2020-03-16 *)
Definition actual_start : Z := 18331.
Definition actual_end : Z := 18337.

(** 2020-03-17 and 2020-03-23 *)
Definition forecast_start : Z := 18338.
Definition forecast_end : Z := 18344.

(** [series.mean()] *)
Definition mean (l : list Q) : Q :=
  (Qsum l / inject_Z (Z.of_nat (length l)))%Q.

(** Line 83: [actual.groupby("ingredient")["usage"].mean()], one row per
    ingredient, in the order of the ingredients. *)
Definition avg_daily_actual (actual : list Usage.row) : list (string * Q) :=
  (fun ing => (ing, mean (default [] (usage_groups actual !! ing))))
    <$> sorted (elements (dom (usage_groups actual))).

Definition forecast_dates : list Z := date_range forecast_start forecast_end.

Definition variation_factors : list Q :=
  [85 # 100; 11 # 10; 95 # 100; 105 # 100; 115 # 100; 9 # 10; 1 # 1]%Q.

(** Lines 90-99: for every forecast date, of rank [i], and every ingredient
    the average usage times [variation_factors[i]] (the index never
    misses: there are seven dates and seven factors). *)
Definition seasonal_forecast (actual : list Usage.row) : list Usage.row :=
  x ← enumerate forecast_dates;
  row ← avg_daily_actual actual;
  [Usage.mk x.2 row.1 (row.2 * default (0 # 1) (variation_factors !! x.1))%Q].

(** Lines 102-109: the rows of the first seven dates of the forecast file,
    moved onto the forecast dates in order.  (The mapping never misses on
    the rows that are kept.) *)
Definition unique_dates (forecast_df : list Usage.row) : list Z :=
  take 7 (sort_values Z.leb
            (elements (list_to_set (Usage.date <$> forecast_df) : gset Z))).

Definition date_mapping (forecast_df : list Usage.row) : gmap Z Z :=
  list_to_map (zip (unique_dates forecast_df) forecast_dates).

Definition fallback_forecast (forecast_df : list Usage.row) : list Usage.row :=
  (fun r =>
     Usage.mk (default (Usage.date r) (date_mapping forecast_df !! Usage.date r))
       (Usage.ingredient r) (Usage.usage r))
    <$> filter (fun r => Usage.date r ∈ unique_dates forecast_df) forecast_df.

(** ** The script, from its files *)

Record Files := {
  RECIPES : gmap string (list (string * (Q * string)));
  week1bank : list Bank.row;
  week2bank : list Bank.row;
  week3bank : list Bank.row;
  pos_data : list Sale.row;
  forecast_df : list Usage.row
}.

(** Lines 42-43: the sales file and the [date] column of its rows.  The
    [datetime] column of a sales file without rows is not read as
    datetimes and has no [.dt] accessor: the script raises there. *)
Definition dated_pos (f : Files) : option (list Sale.row) :=
  match pos_data f with
  | [] => None
  | rows => Some rows
  end.

(** Line 74, when line 43 has not raised. *)
Definition pos_actual (f : Files) : list Sale.row :=
  filter (fun r => actual_start <= Sale.date r /\ Sale.date r <= actual_end)
    (pos_data f).

(** Line 75; of the table only the date, the ingredient and the usage are
    read afterwards. *)
Definition script_actual (f : Files) : list Usage.row :=
  (fun r => Usage.mk (Pos.date r) (Pos.ingredient r) (Pos.usage r))
    <$> pos_to_ingredients (RECIPES f) (pos_actual f).

(** Lines 82-109 *)
Definition script_forecast (f : Files) : list Usage.row :=
  match script_actual f with
  | [] => fallback_forecast (forecast_df f)
  | _ => seasonal_forecast (script_actual f)
  end.

Definition script_inputs (f : Files) : Inputs := {|
  bank_week1 := week1bank f;
  bank_week2 := week2bank f;
  bank_week3 := week3bank f;
  actual := script_actual f;
  forecast := script_forecast f
|}.

(** Line 152, [forecast["date"].min()]: the first day of the horizon, when
    the script has not raised at line 43 and the forecast has a row. *)
Definition script_start_date (f : Files) : option Z :=
  _ ← dated_pos f; start_date (forecast (script_inputs f)).

Definition script (f : Files) : option (list Reorder.row) :=
  _ ← dated_pos f; run (script_inputs f).

(** A small set of files: burgers sold on two days of the reference week,
    one sale of a food without a recipe and one sale outside the week. *)
Definition shop : Files := {|
  RECIPES := {[ "Burger" := [("Bun", ((1 # 1)%Q, "unit")); ("Patty", ((90 # 1)%Q, "g"))] ]};
  week1bank := [Bank.mk "Salt" (5 # 1) "kg" (1 # 4) "Grocer" 18320];
  week2bank := [];
  week3bank := [Bank.mk "Bun" (30 # 1) "unit" (1 # 2) "Bakery" 18330];
  pos_data := [Sale.mk "Burger" (10 # 1) 18335; Sale.mk "Burger" (20 # 1) 18336;
               Sale.mk "Soup" (3 # 1) 18336; Sale.mk "Burger" (7 # 1) 18300];
  forecast_df := []
|}.

(** The usage of ingredient [ing], in unit [unit], by the sales of day [d]:
    for every sale of the day, in order, and every matching item of the
    recipe of the food sold, the recipe quantity times the quantity sold. *)
Definition sold_usage (recipes : gmap string (list (string * (Q * string))))
    (pos_df : list Sale.row) (d : Z) (ing unit : string) : list Q :=
  row ← pos_df;
  if decide (Sale.date row = d)
  then (fun item : string * (Q * string) => (item.2.1 * Sale.quantity row)%Q)
         <$> filter (fun item : string * (Q * string) => item.1 = ing /\ item.2.2 = unit)
               (default [] (recipes !! Sale.actual_food row))
  else [].

(** ** Forecast tables (lines 351-374) *)

(** A row of [forecast_daily_out]. *)
Module ForecastDay.
Record row := mk {
  date : Z;
  ingredient : string;
  forecast_usage : Q;
  unit : string
}.
End ForecastDay.

(** [sort_values(["date", "ingredient"])] *)
Definition forecast_day_leb (r1 r2 : ForecastDay.row) : bool :=
  if ForecastDay.date r1 <? ForecastDay.date r2 then true
  else if ForecastDay.date r2 <? ForecastDay.date r1 then false
  else String.leb (ForecastDay.ingredient r1) (ForecastDay.ingredient r2).

(** Lines 354-363: the dates and ingredients of the grid, merged once more
    with the forecast, a missing forecast filled with 0.0. *)
Definition forecast_daily_out (inp : Inputs) (start : Z) : list ForecastDay.row :=
  sort_values forecast_day_leb
    ((fun x : Daily.row * option Q =>
        ForecastDay.mk (Daily.date x.1) (Daily.ingredient x.1)
          (default (0 # 1)%Q x.2)
          (unit_of (ingredient_units (bank inp)) (Daily.ingredient x.1)))
       <$> merge_left (fun r => (Daily.date r, Daily.ingredient r))
             (forecast inp) (final_daily inp start)).

(** A row of [forecast_summary_out]. *)
Module Summary.
Record row := mk {
  ingredient : string;
  unit : string;
  total_7d : Q;
  avg_daily : Q;
  peak_day : Q
}.
End Summary.

(** [series.max()]; the series of a group is never empty. *)
Definition series_max (l : list Q) : Q :=
  match l with
  | [] => (0 # 1)%Q
  | x :: xs => fold_left py_max xs x
  end.

Definition summary_key (r : ForecastDay.row) : string * string :=
  (ForecastDay.ingredient r, ForecastDay.unit r).

(** Lexicographic "not after" on an (ingredient, unit) key. *)
Definition key2_leb (k1 k2 : string * string) : bool :=
  match String.compare k1.1 k2.1 with
  | Lt => true
  | Gt => false
  | Eq => String.leb k1.2 k2.2
  end.

(** Lines 365-371: [groupby(["ingredient", "unit"])] with the sum, the mean
    and the max of the forecast usage of the group, one row per key, in
    the order of the keys. *)
Definition forecast_summary_rows (inp : Inputs) (start : Z) : list Summary.row :=
  let out := forecast_daily_out inp start in
  (fun k : string * string =>
     let g := ForecastDay.forecast_usage <$> filter (fun r => summary_key r = k) out in
     Summary.mk k.1 k.2 (Qsum g) (mean g) (series_max g))
    <$> sort_values key2_leb
          (elements (list_to_set (summary_key <$> out) : gset (string * string))).

(** [sort_values("total_7d", ascending=False)]: the larger total first;
    rows of equal total keep their order. *)
Definition summary_leb (r1 r2 : Summary.row) : bool :=
  negb (Qltb (Summary.total_7d r1) (Summary.total_7d r2)).

Definition forecast_summary_out (inp : Inputs) (start : Z) : list Summary.row :=
  sort_values summary_leb (forecast_summary_rows inp start).

(** ** The inventory table, sorted *)

(** Lines 428-432:
    [sort_values(["stockout_date_if_no_new_order", "ingredient"],
    na_position="last")]: the earlier stockout first and the rows without
    a stockout last, the rows of one stockout date, and those without, by
    ingredient. *)
Definition inv_leb (r1 r2 : Inventory.row) : bool :=
  match Inventory.stockout_date_if_no_new_order r1,
        Inventory.stockout_date_if_no_new_order r2 with
  | Some d1, Some d2 =>
      if d1 <? d2 then true
      else if d2 <? d1 then false
      else String.leb (Inventory.ingredient r1) (Inventory.ingredient r2)
  | Some _, None => true
  | None, Some _ => false
  | None, None => String.leb (Inventory.ingredient r1) (Inventory.ingredient r2)
  end.

Definition inventory_table (inp : Inputs) (start : Z) : list Inventory.row :=
  sort_values inv_leb (inv_rows inp start).

(** The printing of the tables (lines 434-474) is not modelled. *)

(** ** The planner on doubles (lines 257-326)

    The quantities of the script are double-precision floats: the result of
    an addition, a subtraction or a multiplication is the double nearest to
    the exact result.  The planner is written here over a rounding [rnd]
    that is applied to the exact result of every such operation.  With the
    identity for [rnd] this is the planner above; with [binary64] it
    computes what the script computes, as long as no operation overflows.
    A comparison of doubles compares their values, and [max] returns one of
    its arguments: neither rounds. *)

Section Rounded.
Variable rnd : Q -> Q.

Definition radd (x y : Q) : Q := rnd (x + y).
Definition rsub (x y : Q) : Q := rnd (x - y).
Definition rmul (x y : Q) : Q := rnd (x * y).

(** [series.sum()], the terms added from left to right. *)
Definition rsum (l : list Q) : Q := fold_left radd l (0 # 1)%Q.

(** [round(x, 2)] of a double: the double nearest to the decimal that is
    nearest to [x]. *)
Definition rround2 (x : Q) : Q := rnd (py_round2 x).

(** Lines 270-276, [inv = inv + delivery_qty - daily_usage]: the sum is
    rounded, then the difference. *)
Definition stockout_step_r (st : Q * option Z) (r : Daily.row) : Q * option Z :=
  let inv := rsub (radd st.1 (Daily.delivery_qty r)) (Daily.daily_usage r) in
  (inv, if Qltb inv (0 # 1) && bool_decide (st.2 = None)
        then Some (Daily.date r) else st.2).

Definition find_stockout_r (start_inv : Q) (df : list Daily.row) : option Z :=
  (fold_left stockout_step_r df (start_inv, None)).2.

(** Lines 286-292 *)
Fixpoint inv_at_delivery_morning_r (delivery_date : Z) (inv : Q)
    (df : list Daily.row) : Q :=
  match df with
  | [] => inv
  | r :: rest =>
      if Daily.date r <? delivery_date
      then inv_at_delivery_morning_r delivery_date
             (rsub (radd inv (Daily.delivery_qty r)) (Daily.daily_usage r)) rest
      else inv
  end.

(** Line 294 *)
Definition remaining_need_r (delivery_date : Z) (df : list Daily.row) : Q :=
  rsum (Daily.daily_usage <$>
          filter (fun r => delivery_date <= Daily.date r) df).

(** Line 295 *)
Definition order_qty_of_r (need inv_morning : Q) : Q :=
  py_max (0 # 1) (rsub need (py_max (0 # 1) inv_morning)).

(** Line 298 *)
Definition record_planned_r (ing : string) (delivery_date : Z) (q : Q)
    (daily : list Daily.row) : list Daily.row :=
  (fun r =>
     if bool_decide (Daily.ingredient r = ing /\ Daily.date r = delivery_date)
     then Daily.mk (Daily.date r) (Daily.ingredient r) (Daily.forecast_usage r)
            (Daily.actual_usage r) (Daily.daily_usage r) (Daily.delivery_qty r)
            (radd (Daily.planned_delivery_qty r) q)
     else r) <$> daily.

Variable latest : gmap string Bank.row.
Variable units : gmap string string.
Variable cur_inv : gmap string Q.

(** Lines 300-314 *)
Definition reorder_row_r (ing : string) (order_date delivery_date : Z)
    (order_qty : Q) (stockout_date : Z) : Reorder.row :=
  let unit := match latest !! ing with
              | Some lb => Bank.unit lb
              | None => unit_of units ing
              end in
  let unit_cost := match latest !! ing with
                   | Some lb => Bank.unit_cost_gbp lb
                   | None => (0 # 1)%Q
                   end in
  let supplier := match latest !! ing with
                  | Some lb => Bank.merchant lb
                  | None => "Unknown"
                  end in
  Reorder.mk ing supplier order_date delivery_date (rround2 order_qty)
    unit unit_cost (rround2 (rmul order_qty unit_cost)) stockout_date.

(** The body of the loop over [ingredients], lines 265-314. *)
Definition plan_step_r (st : list Daily.row * list Reorder.row) (ing : string)
  : list Daily.row * list Reorder.row :=
  let df := rows_of ing st.1 in
  let start_inv := default (0 # 1)%Q (cur_inv !! ing) in
  match find_stockout_r start_inv df with
  | None => st
  | Some stockout_date =>
      let order_date := stockout_date - LEAD_TIME_DAYS in
      let delivery_date := order_date + LEAD_TIME_DAYS in
      let inv_morning := inv_at_delivery_morning_r delivery_date start_inv df in
      let need := remaining_need_r delivery_date df in
      let order_qty := order_qty_of_r need inv_morning in
      (record_planned_r ing delivery_date order_qty st.1,
       (st.2 ++ [reorder_row_r ing order_date delivery_date order_qty stockout_date])%list)
  end.

Definition plan_loop_r (ings : list string) (daily : list Daily.row)
  : list Daily.row * list Reorder.row :=
  fold_left plan_step_r ings (daily, []).

(** Lines 316-321: the recommendations the planner emits for the grid
    [daily], the starting inventories [cur_inv] and the ingredients
    [ings]. *)
Definition reorder_plan_r (ings : list string) (daily : list Daily.row)
  : list Reorder.row :=
  sort_values reorder_leb (plan_loop_r ings daily).2.
End Rounded.

(** The do-nothing replay in rounded arithmetic: the running inventory
    after each row. *)
Fixpoint running_inventory_r (rnd : Q -> Q) (inv : Q) (df : list Daily.row)
  : list Q :=
  match df with
  | [] => []
  | r :: rest =>
      let inv' := rsub rnd (radd rnd inv (Daily.delivery_qty r)) (Daily.daily_usage r) in
      inv' :: running_inventory_r rnd inv' rest
  end.

(** *** Rounding to the nearest double

    [p / q] rounded to the nearest integer, a tie to the even one
    ([0 <= p], [0 < q]). *)
Definition round_half_even (p q : Z) : Z :=
  let k := p / q in
  match 2 * (p mod q) ?= q with
  | Lt => k
  | Gt => k + 1
  | Eq => if Z.even k then k else k + 1
  end.

(** The double nearest to [x], a tie to the one with an even significand:
    53 significant bits at the binary exponent [e] of [x], or the spacing
    [2^-1074] of the subnormal doubles below [2^-1022].  (A result of
    [2^1024] or more, which is an infinity for the script, is not
    modelled.) *)
Definition binary64 (x : Q) : Q :=
  let n := Qnum x in
  let d := Z.pos (Qden x) in
  if n =? 0 then (0 # 1)%Q
  else
    let a := Z.abs n in
    let e0 := Z.log2 a - Z.log2 d in
    let e := if (if 0 <=? e0 then d * 2 ^ e0 <=? a else d <=? a * 2 ^ (- e0))
             then e0 else e0 - 1 in
    let s := Z.max e (-1022) - 52 in
    let m := if 0 <=? s then round_half_even a (d * 2 ^ s)
             else round_half_even (a * 2 ^ (- s)) d in
    let v := Z.sgn n * m in
    Qred (if 0 <=? s then inject_Z (v * 2 ^ s) else v # Z.to_pos (2 ^ (- s))).

(** *** The doubles of the kernel

    The value of a finite double, and the doubles of the small integers
    and of their quotients ([n / d] is the double nearest to the fraction,
    what a decimal literal of the script denotes). *)
Definition float_value (x : PrimFloat.float) : option Q :=
  match FloatOps.Prim2SF x with
  | SpecFloat.S754_zero _ => Some (0 # 1)%Q
  | SpecFloat.S754_finite sg m e =>
      let v := if sg then Z.neg m else Z.pos m in
      Some (Qred (if 0 <=? e then inject_Z (v * 2 ^ e) else v # Z.to_pos (2 ^ (- e))))
  | _ => None
  end.

Fixpoint float_of_nat (n : nat) : PrimFloat.float :=
  match n with
  | O => PrimFloat.zero
  | S k => PrimFloat.add (float_of_nat k) PrimFloat.one
  end.

Definition float_of_ratio (n d : nat) : PrimFloat.float :=
  PrimFloat.div (float_of_nat n) (float_of_nat d).

(** Line 254 as the script computes it: [0.3 + (i % 10) * 0.12] on
    doubles, [k] being [i % 10]. *)
Definition factor_f64 (k : nat) : PrimFloat.float :=
  PrimFloat.add (float_of_ratio 3 10)
    (PrimFloat.mul (float_of_nat k) (float_of_ratio 12 100)).

Definition variation_factor_f64 (i : nat) : PrimFloat.float :=
  factor_f64 (i mod 10).

(** Days 1, 2, ... of one ingredient, nothing delivered and the given
    decimal quantities used, as the doubles (or, with the identity, the
    exact decimals) they are read as. *)
Definition usage_grid (rnd : Q -> Q) (ing : string) (usages : list Q)
  : list Daily.row :=
  (fun x : nat * Q =>
     Daily.mk (Z.of_nat x.1 + 1) ing (Some (rnd x.2)) None (rnd x.2)
       (0 # 1)%Q (0 # 1)%Q)
    <$> enumerate usages.

(** * Properties *)

(** ** Sorting *)

Section SortingFacts.
Context {A : Type} (before : A -> A -> bool).

Lemma insert_sorted_Permutation x l : insert_sorted before x l ≡ₚ x :: l.
Proof.
  induction l as [|y l IH]; simpl; [done|].
  destruct (before x y); [done|].
  rewrite IH. apply Permutation_swap.
Qed.

Lemma sort_values_Permutation l : sort_values before l ≡ₚ l.
Proof.
  induction l as [|x l IH]; simpl; [done|].
  rewrite insert_sorted_Permutation. by f_equiv.
Qed.

Lemma elem_of_sort_values x l : x ∈ sort_values before l <-> x ∈ l.
Proof. by rewrite sort_values_Permutation. Qed.
End SortingFacts.

(** With a total and transitive test the sorted table is sorted. *)

Section SortedFacts.
Context {A : Type} (before : A -> A -> bool).
Hypothesis before_total : forall a b, before a b = false -> before b a = true.
Hypothesis before_trans :
  forall a b c, before a b = true -> before b c = true -> before a c = true.

Lemma insert_sorted_StronglySorted x l :
  StronglySorted (fun a b => before a b = true) l ->
  StronglySorted (fun a b => before a b = true) (insert_sorted before x l).
Proof.
  induction 1 as [|y l Hl IH Hy]; cbn [insert_sorted].
  - by repeat constructor.
  - destruct (before x y) eqn:E.
    + constructor; [by constructor|]. constructor; [done|].
      eapply Forall_impl; [exact Hy|]. intros z Hz. by eapply before_trans.
    + constructor; [done|]. rewrite insert_sorted_Permutation.
      constructor; [by apply before_total | done].
Qed.

Lemma sort_values_StronglySorted l :
  StronglySorted (fun a b => before a b = true) (sort_values before l).
Proof.
  induction l as [|x l IH]; cbn; [constructor|].
  by apply insert_sorted_StronglySorted.
Qed.

(** In a sorted table the last row that satisfies [P] is not before any
    other row that satisfies [P]. *)
Lemma last_filter_StronglySorted (P : A -> Prop) `{!forall x, Decision (P x)} l v x :
  StronglySorted (fun a b => before a b = true) l ->
  last (filter P l) = Some v -> x ∈ l -> P x -> x = v \/ before x v = true.
Proof.
  induction 1 as [|y l Hl IH Hy]; intros Hlast Hx HP.
  - by apply elem_of_nil in Hx.
  - rewrite filter_cons in Hlast. apply elem_of_cons in Hx as [->|Hx].
    + rewrite decide_True in Hlast by done. rewrite last_cons in Hlast.
      destruct (last (filter P l)) as [w|] eqn:E.
      * injection Hlast as ->. right.
        apply last_Some_elem_of, list_elem_of_filter in E as [_ E].
        by eapply Forall_forall in Hy.
      * left. congruence.
    + apply IH; [|done|done].
      destruct (decide (P y)); [|done]. rewrite last_cons in Hlast.
      destruct (last (filter P l)) as [w|] eqn:E; [done|].
      apply last_None in E.
      assert (x ∈ filter P l) as Hin by (by apply list_elem_of_filter).
      rewrite E in Hin. by apply elem_of_nil in Hin.
Qed.
End SortedFacts.

(** ** The order of the sort keys *)

Lemma ascii_compare_refl (a : ascii) : Ascii.compare a a = Eq.
Proof. unfold Ascii.compare. apply N.compare_refl. Qed.

Lemma string_compare_refl (s : string) : String.compare s s = Eq.
Proof.
  induction s as [|a s IH]; [done|]. cbn. by rewrite ascii_compare_refl.
Qed.

Lemma string_compare_lt_trans (a b c : string) :
  String.compare a b = Lt -> String.compare b c = Lt -> String.compare a c = Lt.
Proof.
  revert b c. induction a as [|x a IH]; intros [|y b] [|z c]; cbn; try done.
  unfold Ascii.compare.
  destruct (N.compare_spec (N_of_ascii x) (N_of_ascii y)) as [Hxy|Hxy|Hxy];
    destruct (N.compare_spec (N_of_ascii y) (N_of_ascii z)) as [Hyz|Hyz|Hyz];
    destruct (N.compare_spec (N_of_ascii x) (N_of_ascii z)) as [Hxz|Hxz|Hxz];
    try done; try lia.
  apply IH.
Qed.

Lemma key_leb_true (k1 k2 : string * Z) :
  key_leb k1 k2 = true
  <-> String.compare k1.1 k2.1 = Lt \/ (k1.1 = k2.1 /\ k1.2 <= k2.2).
Proof.
  unfold key_leb. destruct (String.compare k1.1 k2.1) eqn:E.
  - apply String.compare_eq_iff in E. rewrite Z.leb_le. split; [auto|].
    intros [?|[_ ?]]; done.
  - split; auto.
  - split; [done|]. intros [?|[Heq _]]; [done|].
    rewrite Heq, string_compare_refl in E. done.
Qed.

Lemma key_leb_total k1 k2 : key_leb k1 k2 = false -> key_leb k2 k1 = true.
Proof.
  unfold key_leb. rewrite (String.compare_antisym k2.1 k1.1).
  destruct (String.compare k1.1 k2.1); cbn; try done.
  intros H%Z.leb_gt. apply Z.leb_le. lia.
Qed.

Lemma key_leb_trans k1 k2 k3 :
  key_leb k1 k2 = true -> key_leb k2 k3 = true -> key_leb k1 k3 = true.
Proof.
  rewrite !key_leb_true. intros [H1|[H1 H1']] [H2|[H2 H2']].
  - left. by eapply string_compare_lt_trans.
  - left. by rewrite <- H2.
  - left. by rewrite H1.
  - right. split; [congruence | lia].
Qed.

Lemma filter_StronglySorted {A : Type} (R R' : relation A) (P : A -> Prop)
    `{!forall x, Decision (P x)} (l : list A) :
  (forall a b, P a -> P b -> R a b -> R' a b) ->
  StronglySorted R l -> StronglySorted R' (filter P l).
Proof.
  intros HR. induction 1 as [|y l Hl IH Hy]; [constructor|].
  rewrite filter_cons. case_decide; [|done].
  constructor; [done|]. apply Forall_forall.
  intros z [Hz Hin]%list_elem_of_filter. apply HR; [done..|].
  by eapply Forall_forall in Hy.
Qed.

(** The rows of one ingredient in the sorted grid are in chronological
    order. *)
Lemma rows_of_chronological (ing : string) (grid : list Daily.row) :
  StronglySorted (fun a b => Daily.date a <= Daily.date b)
    (rows_of ing (sort_values daily_leb grid)).
Proof.
  unfold rows_of.
  apply (filter_StronglySorted (fun a b => daily_leb a b = true)).
  - intros a b Ha Hb [Hlt|[_ Hle]]%key_leb_true; [|done].
    cbn in Hlt. by rewrite Ha, Hb, string_compare_refl in Hlt.
  - apply sort_values_StronglySorted.
    + intros x y. apply key_leb_total.
    + intros x y z. apply key_leb_trans.
Qed.

(** ** Numbers *)

Lemma Qltb_lt (x y : Q) : Qltb x y = true <-> (x < y)%Q.
Proof.
  unfold Qltb. rewrite Qlt_alt. destruct (x ?= y)%Q; split; congruence.
Qed.

Lemma Qltb_ge (x y : Q) : Qltb x y = false <-> (y <= x)%Q.
Proof.
  rewrite <- not_true_iff_false, Qltb_lt. split.
  - apply Qnot_lt_le.
  - apply Qle_not_lt.
Qed.

Lemma py_max_nonneg (x : Q) : (0 <= py_max (0 # 1) x)%Q.
Proof.
  unfold py_max. destruct (Qltb (0 # 1) x) eqn:E.
  - apply Qlt_le_weak. by apply Qltb_lt.
  - apply Qle_refl.
Qed.

Lemma py_max_pos (x : Q) : (0 < x)%Q -> py_max (0 # 1) x = x.
Proof. intros H. unfold py_max. apply Qltb_lt in H. by rewrite H. Qed.

Lemma Qred_nonneg (x : Q) : (0 <= x)%Q -> (0 <= Qred x)%Q.
Proof. intros H. by rewrite Qred_correct. Qed.

Lemma py_round2_nonneg (x : Q) : (0 <= x)%Q -> (0 <= py_round2 x)%Q.
Proof.
  intros Hx. unfold py_round2. apply Qred_nonneg.
  assert (Hn : 0 <= Qfloor (x * (100 # 1))).
  { change 0 with (Qfloor (inject_Z 0)) at 1. apply Qfloor_resp_le.
    apply Qmult_le_0_compat; [done|]. by unfold Qle. }
  assert (Hk : forall k : Z, 0 <= k -> (0 <= k # 100)%Q).
  { intros k Hk. unfold Qle. simpl. lia. }
  destruct (_ ?= _)%Q; [destruct (Z.even _)| |]; apply Hk; lia.
Qed.

Lemma order_qty_of_nonneg (need inv_morning : Q) :
  (0 <= order_qty_of need inv_morning)%Q.
Proof. apply py_max_nonneg. Qed.

Lemma variation_factor_pos (i : nat) : (0 < variation_factor i)%Q.
Proof.
  unfold variation_factor.
  assert (H : 0 <= Z.of_nat i mod 10) by (apply Z.mod_pos_bound; lia).
  revert H. generalize (Z.of_nat i mod 10). intros z Hz.
  unfold Qlt, Qplus, Qmult, inject_Z. simpl. lia.
Qed.

(** ** Folds that fill a dictionary *)

(** A loop [for k in l: m[k] = f(k)] leaves [f k] under every key of [l]
    and nothing else changed. *)
Lemma lookup_fold_insert {K V : Type} `{!EqDecision K, !Countable K} (f : K -> V) (l : list K)
    (m : gmap K V) (k : K) :
  fold_left (fun acc i => <[i := f i]> acc) l m !! k
  = if decide (k ∈ l) then Some (f k) else m !! k.
Proof.
  revert m. induction l as [|i l IH]; intros m.
  - rewrite decide_False; [done | by intros ?%elem_of_nil].
  - cbn [fold_left]. rewrite IH.
    destruct (decide (k ∈ l)) as [Hl|Hl].
    + rewrite decide_True; [done | by right].
    + destruct (decide (k = i)) as [->|Hne].
      * rewrite decide_True by left. by rewrite lookup_insert_eq.
      * rewrite decide_False by (by intros [?|?]%elem_of_cons).
        by rewrite lookup_insert_ne.
Qed.

(** ** The literal scenario of the planner *)

Lemma bun_rows_of D0 : rows_of "Bun" (bun_grid D0) = bun_grid D0.
Proof. reflexivity. Qed.

Lemma bun_stockout D0 : find_stockout (120 # 1) (bun_grid D0) = Some (D0 + 3).
Proof. reflexivity. Qed.

Lemma bun_inv_at_delivery_morning D0 :
  inv_at_delivery_morning (D0 + 3) (120 # 1) (bun_grid D0) = (20 # 1)%Q.
Proof.
  unfold bun_grid, bun_row. cbn [fmap list_fmap inv_at_delivery_morning Daily.date].
  rewrite !(proj2 (Z.ltb_lt _ _)) by lia.
  rewrite (proj2 (Z.ltb_ge _ _)) by lia. reflexivity.
Qed.

Lemma bun_remaining_need D0 : remaining_need (D0 + 3) (bun_grid D0) = (250 # 1)%Q.
Proof.
  unfold remaining_need, bun_grid, bun_row. cbn [fmap list_fmap].
  rewrite !filter_cons. cbn [Daily.date].
  repeat (first [ rewrite decide_True by lia | rewrite decide_False by lia ]).
  rewrite filter_nil. reflexivity.
Qed.

(** ** C1: the literal scenario *)

(** C1.  Seven horizon days D1..D7 of ingredient "Bun", 50 used and nothing
    delivered on each, a starting inventory of 120 and a lead time of 3
    days: the stockout is detected on D3, the order is dated D0 and delivered
    on D3, the inventory on the morning of the delivery is 20, the remaining
    need is 250, and the planner emits one recommendation, of 230 units,
    costing 115.0 at the unit cost 0.5 of the latest buy. *)
Theorem C1_bun_scenario (D0 : Z) (q : Q) (u m : string) (t : Z) :
  let latest : gmap string Bank.row :=
    {[ "Bun" := Bank.mk "Bun" q u (1 # 2)%Q m t ]} in
  LEAD_TIME_DAYS = 3
  /\ find_stockout (120 # 1) (bun_grid D0) = Some (D0 + 3)
  /\ (D0 + 3) - LEAD_TIME_DAYS = D0
  /\ D0 + LEAD_TIME_DAYS = D0 + 3
  /\ inv_at_delivery_morning (D0 + 3) (120 # 1) (bun_grid D0) = (20 # 1)%Q
  /\ remaining_need (D0 + 3) (bun_grid D0) = (250 # 1)%Q
  /\ order_qty_of (250 # 1) (20 # 1) = (230 # 1)%Q
  /\ (plan_loop latest (ingredient_units []) bun_inventory ["Bun"] (bun_grid D0)).2
     = [Reorder.mk "Bun" m D0 (D0 + 3) (230 # 1)%Q u (1 # 2)%Q (115 # 1)%Q (D0 + 3)].
Proof.
  intros latest.
  split; [reflexivity|].
  split; [apply bun_stockout|].
  split; [unfold LEAD_TIME_DAYS; lia|].
  split; [reflexivity|].
  split; [apply bun_inv_at_delivery_morning|].
  split; [apply bun_remaining_need|].
  split; [reflexivity|].
  unfold plan_loop. cbn [fold_left]. unfold plan_step. cbn [fst snd].
  rewrite bun_rows_of.
  replace (default (0 # 1)%Q (bun_inventory !! "Bun")) with (120 # 1)%Q by reflexivity.
  rewrite bun_stockout.
  replace (D0 + 3 - LEAD_TIME_DAYS + LEAD_TIME_DAYS) with (D0 + 3)
    by (unfold LEAD_TIME_DAYS; lia).
  replace (D0 + 3 - LEAD_TIME_DAYS) with D0 by (unfold LEAD_TIME_DAYS; lia).
  rewrite bun_inv_at_delivery_morning, bun_remaining_need.
  cbn [snd app]. unfold reorder_row.
  replace (latest !! "Bun") with (Some (Bank.mk "Bun" q u (1 # 2)%Q m t))
    by (symmetry; apply lookup_singleton_eq).
  cbn [Bank.unit Bank.unit_cost_gbp Bank.merchant].
  reflexivity.
Qed.

(** ** The loop of the planner *)

Lemma same_reads_refl (r : Daily.row) : same_reads r r.
Proof. by repeat split. Qed.

Lemma record_planned_reads ing d q daily :
  Forall2 same_reads (record_planned ing d q daily) daily.
Proof.
  unfold record_planned. induction daily as [|r daily IH]; [constructor|].
  rewrite fmap_cons. constructor; [|exact IH].
  case_bool_decide; by repeat split.
Qed.

Lemma rows_of_reads ing l l' :
  Forall2 same_reads l l' -> Forall2 same_reads (rows_of ing l) (rows_of ing l').
Proof.
  unfold rows_of. induction 1 as [|r r' l l' Hr Hl IH]; [constructor|].
  rewrite !filter_cons. destruct Hr as (Hd & Hi & Hu & Hq).
  rewrite Hi. case_decide; [constructor|]; done.
Qed.

Lemma stockout_fold_reads st l l' :
  Forall2 same_reads l l' ->
  fold_left stockout_step l st = fold_left stockout_step l' st.
Proof.
  intros Hl. revert st. induction Hl as [|r r' l l' Hr Hl IH]; intros st; [done|].
  cbn [fold_left]. destruct Hr as (Hd & Hi & Hu & Hq).
  unfold stockout_step at 2 4. rewrite Hd, Hu, Hq. apply IH.
Qed.

Lemma find_stockout_reads s l l' :
  Forall2 same_reads l l' -> find_stockout s l = find_stockout s l'.
Proof. intros Hl. unfold find_stockout. by rewrite (stockout_fold_reads _ l l'). Qed.

Lemma inv_at_delivery_morning_reads d s l l' :
  Forall2 same_reads l l' ->
  inv_at_delivery_morning d s l = inv_at_delivery_morning d s l'.
Proof.
  intros Hl. revert s. induction Hl as [|r r' l l' Hr Hl IH]; intros s; [done|].
  cbn [inv_at_delivery_morning]. destruct Hr as (Hd & Hi & Hu & Hq).
  rewrite Hd, Hu, Hq. by rewrite IH.
Qed.

Lemma remaining_need_reads d l l' :
  Forall2 same_reads l l' -> remaining_need d l = remaining_need d l'.
Proof.
  intros Hl. unfold remaining_need. f_equal.
  induction Hl as [|r r' l l' Hr Hl IH]; [done|].
  rewrite !filter_cons. destruct Hr as (Hd & Hi & Hu & Hq).
  rewrite Hd. case_decide; [|done]. rewrite !fmap_cons. by rewrite Hu, IH.
Qed.

Section PlannerFacts.
Variable latest : gmap string Bank.row.
Variable units : gmap string string.
Variable cur_inv : gmap string Q.

Lemma plan_step_spec (daily : list Daily.row) st ing :
  Forall2 same_reads st.1 daily ->
  Forall2 same_reads (plan_step latest units cur_inv st ing).1 daily
  /\ (plan_step latest units cur_inv st ing).2
     = (st.2 ++ option_list (recommendation_of latest units cur_inv daily ing))%list.
Proof.
  intros Hst. unfold plan_step, recommendation_of.
  pose proof (rows_of_reads ing _ _ Hst) as Hdf.
  rewrite (find_stockout_reads _ _ _ Hdf).
  destruct (find_stockout _ (rows_of ing daily)) as [so|]; cbn [fst snd option_list].
  - split.
    + eapply Forall2_trans; [|apply record_planned_reads|exact Hst].
      unfold same_reads. intros x y z Hxy Hyz. destruct_and!.
      repeat split; congruence.
    + by rewrite (remaining_need_reads _ _ _ Hdf),
        (inv_at_delivery_morning_reads _ _ _ _ Hdf).
  - split; [done|]. by rewrite app_nil_r.
Qed.

Lemma plan_fold_spec (daily : list Daily.row) ings st :
  Forall2 same_reads st.1 daily ->
  (fold_left (plan_step latest units cur_inv) ings st).2
  = (st.2 ++ omap (recommendation_of latest units cur_inv daily) ings)%list.
Proof.
  revert st. induction ings as [|ing ings IH]; intros st Hst.
  - cbn. by rewrite app_nil_r.
  - cbn [fold_left]. destruct (plan_step_spec daily st ing Hst) as [H1 H2].
    rewrite (IH _ H1), H2, <- app_assoc. f_equal.
    cbn [omap list_omap].
    by destruct (recommendation_of _ _ _ _ _).
Qed.

(** [reorder_rows] holds, in the order of [ingredients], the
    recommendation of every ingredient that has one. *)
Lemma plan_loop_rows (daily : list Daily.row) ings :
  (plan_loop latest units cur_inv ings daily).2
  = omap (recommendation_of latest units cur_inv daily) ings.
Proof.
  unfold plan_loop. rewrite (plan_fold_spec daily); [done|].
  cbn. apply Forall2_same_length_lookup. split; [done|].
  intros i r r' H1 H2. rewrite H1 in H2. injection H2 as ->. apply same_reads_refl.
Qed.

Lemma recommendation_of_ingredient daily ing r :
  recommendation_of latest units cur_inv daily ing = Some r ->
  Reorder.ingredient r = ing.
Proof.
  unfold recommendation_of. destruct (find_stockout _ _); [|done].
  by intros [= <-].
Qed.

Lemma recommendations_sublist daily ings :
  Reorder.ingredient <$> omap (recommendation_of latest units cur_inv daily) ings
  `sublist_of` ings.
Proof.
  induction ings as [|ing ings IH]; [done|].
  cbn [omap list_omap].
  destruct (recommendation_of _ _ _ _ ing) as [r|] eqn:E.
  - rewrite fmap_cons, (recommendation_of_ingredient _ _ _ E). by constructor.
  - by constructor.
Qed.
End PlannerFacts.

(** ** Stockout detection *)

Lemma stockout_fold_found df inv d :
  (fold_left stockout_step df (inv, Some d)).2 = Some d.
Proof.
  revert inv. induction df as [|r df IH]; intros inv; [done|].
  cbn [fold_left]. unfold stockout_step at 2. cbn [fst snd].
  rewrite bool_decide_eq_false_2 by done. rewrite andb_false_r. apply IH.
Qed.

(** The two stockout detections of the script agree: the date kept by the
    loop without [break] is the first one with a negative balance. *)
Lemma find_stockout_first inv df : find_stockout inv df = stockout_of inv df.
Proof.
  unfold find_stockout. revert inv. induction df as [|r df IH]; intros inv; [done|].
  cbn [fold_left stockout_of]. unfold stockout_step at 2. cbn [fst snd].
  rewrite bool_decide_eq_true_2 by done. rewrite andb_true_r.
  destruct (Qltb _ _).
  - apply stockout_fold_found.
  - apply IH.
Qed.

Lemma stockout_of_None inv df :
  stockout_of inv df = None
  <-> Forall (fun v => ~ (v < 0)%Q) (running_inventory inv df).
Proof.
  revert inv. induction df as [|r df IH]; intros inv; cbn [stockout_of running_inventory].
  - split; [constructor | done].
  - destruct (Qltb _ _) eqn:E.
    + split; [done|]. intros [Hneg _]%Forall_cons. by apply Qltb_lt in E.
    + rewrite IH. split.
      * intros H. constructor; [|done]. apply Qle_not_lt. by apply Qltb_ge.
      * by intros [_ H]%Forall_cons.
Qed.

(** ** The ingredients of a run *)

Lemma sorted_Permutation (l : list string) : sorted l ≡ₚ l.
Proof. apply sort_values_Permutation. Qed.

Lemma elem_of_ingredients fc ac banks (ing : string) :
  ing ∈ ingredients fc ac banks
  <-> ing ∈ Usage.ingredient <$> fc
      \/ ing ∈ Usage.ingredient <$> ac
      \/ ing ∈ Bank.ingredient <$> banks.
Proof.
  unfold ingredients. rewrite sorted_Permutation, elem_of_elements.
  rewrite !elem_of_union, !elem_of_list_to_set. tauto.
Qed.

Lemma NoDup_ingredients fc ac banks : NoDup (ingredients fc ac banks).
Proof.
  unfold ingredients. rewrite sorted_Permutation. apply NoDup_elements.
Qed.

(** ** The recommendations of a run *)

Lemma reorder_rows_eq inp start :
  reorder_rows inp start
  = omap (recommendation_of (latest_buy (bank inp)) (ingredient_units (bank inp))
            (run_current_inventory inp start) (run_daily inp start))
      (run_ingredients inp).
Proof. apply plan_loop_rows. Qed.

Lemma elem_of_reorder_plan inp start r :
  r ∈ reorder_plan inp start
  <-> exists ing, ing ∈ run_ingredients inp
      /\ recommendation_of (latest_buy (bank inp)) (ingredient_units (bank inp))
           (run_current_inventory inp start) (run_daily inp start) ing = Some r.
Proof.
  unfold reorder_plan. rewrite elem_of_sort_values, reorder_rows_eq.
  apply list_elem_of_omap.
Qed.

(** The script plans the horizon that starts on the first forecast date. *)
Lemma run_Some (inp : Inputs) (plan : list Reorder.row) :
  run inp = Some plan
  <-> exists start,
        start_date (forecast inp) = Some start /\ plan = reorder_plan inp start.
Proof.
  unfold run. destruct (start_date (forecast inp)) as [s|]; cbn.
  - split.
    + intros [= <-]. by exists s.
    + by intros (s' & [= <-] & ->).
  - split; [done|]. by intros (s' & ? & _).
Qed.

(** ** C5: one recommendation per ingredient *)

(** C5.  In every run no ingredient has more than one recommendation: the
    ingredient column of the emitted recommendation list has no
    duplicate. *)
Theorem C5_one_recommendation_per_ingredient (inp : Inputs) (start : Z) :
  NoDup (Reorder.ingredient <$> reorder_plan inp start).
Proof.
  unfold reorder_plan. rewrite sort_values_Permutation, reorder_rows_eq.
  eapply sublist_NoDup; [apply NoDup_ingredients|].
  apply recommendations_sublist.
Qed.

(** ** The planner on doubles *)

(** With the identity for the rounding, the rounded planner is the exact
    one. *)
Lemma plan_loop_exact latest units cur_inv ings daily :
  plan_loop_r (fun x => x) latest units cur_inv ings daily
  = plan_loop latest units cur_inv ings daily.
Proof. reflexivity. Qed.

Lemma reorder_plan_exact (inp : Inputs) (start : Z) :
  reorder_plan_r (fun x => x) (latest_buy (bank inp)) (ingredient_units (bank inp))
    (run_current_inventory inp start) (run_ingredients inp) (run_daily inp start)
  = reorder_plan inp start.
Proof. reflexivity. Qed.

Lemma running_inventory_exact inv df :
  running_inventory_r (fun x => x) inv df = running_inventory inv df.
Proof.
  revert inv. induction df as [|r df IH]; intros inv; [done|].
  cbn [running_inventory_r running_inventory]. by rewrite IH.
Qed.

Section RoundedFacts.
Variable rnd : Q -> Q.

Lemma stockout_fold_r_reads st l l' :
  Forall2 same_reads l l' ->
  fold_left (stockout_step_r rnd) l st = fold_left (stockout_step_r rnd) l' st.
Proof.
  intros Hl. revert st. induction Hl as [|r r' l l' Hr Hl IH]; intros st; [done|].
  cbn [fold_left]. destruct Hr as (Hd & Hi & Hu & Hq).
  unfold stockout_step_r at 2 4. by rewrite Hd, Hu, Hq, IH.
Qed.

Lemma find_stockout_r_reads s l l' :
  Forall2 same_reads l l' -> find_stockout_r rnd s l = find_stockout_r rnd s l'.
Proof. intros Hl. unfold find_stockout_r. by rewrite (stockout_fold_r_reads _ l l'). Qed.

Lemma record_planned_r_reads ing d q daily :
  Forall2 same_reads (record_planned_r rnd ing d q daily) daily.
Proof.
  unfold record_planned_r. induction daily as [|r daily IH]; [constructor|].
  rewrite fmap_cons. constructor; [|exact IH].
  case_bool_decide; by repeat split.
Qed.

Lemma stockout_fold_r_found df inv d :
  (fold_left (stockout_step_r rnd) df (inv, Some d)).2 = Some d.
Proof.
  revert inv. induction df as [|r df IH]; intros inv; [done|].
  cbn [fold_left]. unfold stockout_step_r at 2. cbn [fst snd].
  rewrite bool_decide_eq_false_2 by done. rewrite andb_false_r. apply IH.
Qed.

(** The loop of lines 270-276 keeps a date exactly when some running
    inventory of the replay is negative. *)
Lemma find_stockout_r_None inv df :
  find_stockout_r rnd inv df = None
  <-> Forall (fun v => ~ (v < 0)%Q) (running_inventory_r rnd inv df).
Proof.
  unfold find_stockout_r. revert inv.
  induction df as [|r df IH]; intros inv; cbn [fold_left running_inventory_r].
  - split; [constructor | done].
  - unfold stockout_step_r at 2. cbn [fst snd].
    rewrite bool_decide_eq_true_2 by done. rewrite andb_true_r.
    destruct (Qltb _ _) eqn:E.
    + rewrite stockout_fold_r_found. split; [done|].
      intros [Hneg _]%Forall_cons. by apply Qltb_lt in E.
    + rewrite IH. split.
      * intros H. constructor; [|done]. apply Qle_not_lt. by apply Qltb_ge.
      * by intros [_ H]%Forall_cons.
Qed.

Variable latest : gmap string Bank.row.
Variable units : gmap string string.
Variable cur_inv : gmap string Q.

(** A row appended by the loop over [ings] is the row of an ingredient of
    [ings] for which the replay over the grid found a stockout. *)
Lemma plan_fold_r_rows (daily : list Daily.row) ings st r :
  Forall2 same_reads st.1 daily ->
  r ∈ (fold_left (plan_step_r rnd latest units cur_inv) ings st).2 ->
  r ∈ st.2
  \/ (Reorder.ingredient r ∈ ings
      /\ find_stockout_r rnd (default (0 # 1)%Q (cur_inv !! Reorder.ingredient r))
           (rows_of (Reorder.ingredient r) daily) <> None).
Proof.
  revert st. induction ings as [|ing ings IH]; intros st Hst Hr; [by left|].
  cbn [fold_left] in Hr.
  pose proof (rows_of_reads ing _ _ Hst) as Hdf.
  assert (Hstep : Forall2 same_reads (plan_step_r rnd latest units cur_inv st ing).1 daily).
  { unfold plan_step_r.
    destruct (find_stockout_r rnd _ (rows_of ing st.1)); [|exact Hst]. cbn [fst].
    eapply Forall2_trans; [|apply record_planned_r_reads|exact Hst].
    unfold same_reads. intros x1 x2 x3 H12 H23. destruct_and!.
    repeat split; congruence. }
  destruct (IH _ Hstep Hr) as [Hin|[Hin Hso]].
  - unfold plan_step_r in Hin.
    destruct (find_stockout_r rnd _ (rows_of ing st.1)) as [so|] eqn:E; [|by left].
    cbn [snd] in Hin. apply elem_of_app in Hin as [Hin|Hin]; [by left|].
    apply list_elem_of_singleton in Hin. subst r. right.
    cbn [reorder_row_r Reorder.ingredient]. split; [left|].
    rewrite <- (find_stockout_r_reads _ _ _ Hdf), E. done.
  - right. split; [by right | done].
Qed.
End RoundedFacts.

(** ** C6: no stockout, no recommendation *)

(** C6.  Whatever the rounding of the arithmetic (the doubles of the
    script, or none), and whatever the grid and the starting inventories
    the planner is given: an ingredient whose do-nothing replay over its
    rows of the grid, from its starting inventory, never has a negative
    running inventory has no recommendation in the emitted list. *)
Theorem C6_no_stockout_no_recommendation (rnd : Q -> Q)
    (latest : gmap string Bank.row) (units : gmap string string)
    (cur_inv : gmap string Q) (ings : list string) (daily : list Daily.row)
    (ing : string) :
  Forall (fun v => ~ (v < 0)%Q)
    (running_inventory_r rnd (default (0 # 1)%Q (cur_inv !! ing)) (rows_of ing daily)) ->
  forall r, r ∈ reorder_plan_r rnd latest units cur_inv ings daily ->
            Reorder.ingredient r <> ing.
Proof.
  intros Hrun r Hr Heq. unfold reorder_plan_r, plan_loop_r in Hr.
  apply elem_of_sort_values in Hr.
  apply (plan_fold_r_rows rnd latest units cur_inv daily) in Hr.
  - destruct Hr as [Hr|[_ Hso]]; [by apply elem_of_nil in Hr|].
    rewrite Heq in Hso. by apply find_stockout_r_None in Hrun.
  - cbn. apply Forall2_same_length_lookup. split; [done|].
    intros i x y H1 H2. rewrite H1 in H2. injection H2 as ->. apply same_reads_refl.
Qed.

Lemma C6_witness :
  let cur_inv : gmap string Q := {[ "Salt" := binary64 (1 # 1) ]} in
  let daily :=
    usage_grid binary64 "Salt" [1 # 10; 1 # 10; 1 # 10; 1 # 10; 1 # 10; 1 # 10; 1 # 10]%Q in
  Forall (fun v => ~ (v < 0)%Q)
    (running_inventory_r binary64 (default (0 # 1)%Q (cur_inv !! "Salt"))
       (rows_of "Salt" daily))
  /\ forall r, r ∈ reorder_plan_r binary64 ∅ ∅ cur_inv ["Salt"] daily ->
               Reorder.ingredient r <> "Salt".
Proof.
  intros cur_inv daily.
  assert (H : Forall (fun v => ~ (v < 0)%Q)
                (running_inventory_r binary64 (default (0 # 1)%Q (cur_inv !! "Salt"))
                   (rows_of "Salt" daily))).
  { vm_compute running_inventory_r. repeat constructor; intros H; vm_compute in H;
      discriminate H. }
  split; [exact H|].
  exact (C6_no_stockout_no_recommendation binary64 ∅ ∅ cur_inv ["Salt"] daily "Salt" H).
Defined.

(** The replay of the script is the one on doubles.  From 0.3, with 0.1
    used on each of three days, the exact balance is 0 on the third day and
    never negative, and the exact planner recommends nothing; on doubles the
    balance of the third day is [-2^-55], below zero, and the planner
    recommends an order for a stockout on that day. *)
Lemma zero_balance_on_doubles :
  let usages := [1 # 10; 1 # 10; 1 # 10; 0 # 1; 0 # 1; 0 # 1; 0 # 1]%Q in
  Forall (fun v => ~ (v < 0)%Q)
    (running_inventory (3 # 10) (usage_grid (fun x => x) "Salt" usages))
  /\ reorder_plan_r (fun x => x) ∅ ∅ {[ "Salt" := (3 # 10)%Q ]} ["Salt"]
       (usage_grid (fun x => x) "Salt" usages) = []
  /\ running_inventory_r binary64 (binary64 (3 # 10))
       (usage_grid binary64 "Salt" usages) !! 2%nat
     = Some (-1 # 2 ^ 55)%Q
  /\ Reorder.stockout_date_if_no_order
       <$> reorder_plan_r binary64 ∅ ∅ {[ "Salt" := binary64 (3 # 10) ]} ["Salt"]
             (usage_grid binary64 "Salt" usages)
     = [3].
Proof.
  intros usages. split; [|repeat split; vm_compute; reflexivity].
  vm_compute running_inventory.
  repeat constructor; intros H; vm_compute in H; discriminate H.
Qed.

(** [binary64] against the doubles of the kernel, on the operations of this
    example. *)
Lemma binary64_on_example :
  let f3 := float_of_ratio 3 10 in
  let f1 := float_of_ratio 1 10 in
  float_value f3 = Some (binary64 (3 # 10))
  /\ float_value f1 = Some (binary64 (1 # 10))
  /\ float_value (PrimFloat.sub (PrimFloat.sub (PrimFloat.sub f3 f1) f1) f1)
     = Some (rsub binary64
               (rsub binary64 (rsub binary64 (binary64 (3 # 10)) (binary64 (1 # 10)))
                  (binary64 (1 # 10)))
               (binary64 (1 # 10))).
Proof. repeat split; vm_compute; reflexivity. Qed.

(** ** C7: the dates of a recommendation *)

(** C7.  Every emitted recommendation is delivered a lead time after it is
    ordered, is ordered a lead time before the stockout date and is
    delivered on the stockout date, which is the first day of the
    do-nothing replay of its ingredient with a negative balance. *)
Theorem C7_recommendation_dates (inp : Inputs) (start : Z) (r : Reorder.row) :
  r ∈ reorder_plan inp start ->
  Reorder.delivery_date r = Reorder.order_date r + LEAD_TIME_DAYS
  /\ Reorder.order_date r = Reorder.stockout_date_if_no_order r - LEAD_TIME_DAYS
  /\ Reorder.delivery_date r = Reorder.stockout_date_if_no_order r
  /\ stockout_of (start_inv inp start (Reorder.ingredient r))
       (rows_of (Reorder.ingredient r) (run_daily inp start))
     = Some (Reorder.stockout_date_if_no_order r).
Proof.
  intros [ing [_ Hr]]%elem_of_reorder_plan.
  pose proof (recommendation_of_ingredient _ _ _ _ _ _ Hr) as ->.
  unfold recommendation_of in Hr. rewrite <- find_stockout_first. unfold start_inv.
  destruct (find_stockout _ _) as [so|]; [|done].
  injection Hr as <-. cbn. repeat split; lia.
Qed.

Lemma C7_witness :
  let r := Reorder.mk "Bun" "Bakery" 19 22 (260 # 1) "unit" (1 # 2) (130 # 1) 22 in
  r ∈ reorder_plan demo 21
  /\ Reorder.delivery_date r = Reorder.order_date r + LEAD_TIME_DAYS
  /\ Reorder.order_date r = Reorder.stockout_date_if_no_order r - LEAD_TIME_DAYS
  /\ Reorder.delivery_date r = Reorder.stockout_date_if_no_order r
  /\ stockout_of (start_inv demo 21 (Reorder.ingredient r))
       (rows_of (Reorder.ingredient r) (run_daily demo 21))
     = Some (Reorder.stockout_date_if_no_order r).
Proof.
  intros r.
  assert (H : r ∈ reorder_plan demo 21).
  { vm_compute reorder_plan. subst r. right. left. }
  split; [exact H|].
  exact (C7_recommendation_dates demo 21 r H).
Defined.

(** ** C8: the ordered quantity is not negative *)

(** C8.  Every emitted recommendation has an order quantity that is not
    negative: the planner sizes the order as
    max(0, remaining_need - max(0, inventory_at_delivery_morning)), which
    is not negative, and emits it rounded to two decimals. *)
Theorem C8_order_qty_nonneg (inp : Inputs) (start : Z) (r : Reorder.row) :
  r ∈ reorder_plan inp start ->
  let df := rows_of (Reorder.ingredient r) (run_daily inp start) in
  let need := remaining_need (Reorder.delivery_date r) df in
  let inv_morning :=
    inv_at_delivery_morning (Reorder.delivery_date r)
      (start_inv inp start (Reorder.ingredient r)) df in
  let order_qty := py_max (0 # 1) (need - py_max (0 # 1) inv_morning)%Q in
  (0 <= order_qty)%Q
  /\ Reorder.order_qty r = py_round2 order_qty
  /\ (0 <= Reorder.order_qty r)%Q.
Proof.
  intros [ing [_ Hr]]%elem_of_reorder_plan.
  pose proof (recommendation_of_ingredient _ _ _ _ _ _ Hr) as ->.
  unfold recommendation_of in Hr.
  destruct (find_stockout _ _) as [so|]; [|done].
  injection Hr as <-. cbn.
  split; [apply py_max_nonneg|]. split; [reflexivity|].
  apply py_round2_nonneg, order_qty_of_nonneg.
Qed.

Lemma C8_witness :
  let r := Reorder.mk "Bun" "Bakery" 19 22 (260 # 1) "unit" (1 # 2) (130 # 1) 22 in
  r ∈ reorder_plan demo 21 /\ (0 <= Reorder.order_qty r)%Q.
Proof.
  intros r.
  assert (H : r ∈ reorder_plan demo 21).
  { vm_compute reorder_plan. subst r. right. left. }
  split; [exact H|].
  exact (proj2 (proj2 (C8_order_qty_nonneg demo 21 r H))).
Defined.

(** ** The starting inventory *)

Lemma stagger_fold_nonneg base l cur :
  map_Forall (fun _ v => (0 <= v)%Q) cur ->
  map_Forall (fun _ v => (0 <= v)%Q) (fold_left (stagger_step base) l cur).
Proof.
  revert cur. induction l as [|x l IH]; intros cur Hcur; [done|].
  cbn [fold_left]. apply IH. unfold stagger_step.
  apply map_Forall_insert_2; [apply py_max_nonneg | done].
Qed.

Lemma current_inventory_nonneg base ing :
  (0 <= default (0 # 1) (current_inventory base !! ing))%Q.
Proof.
  destruct (current_inventory base !! ing) as [v|] eqn:E; [|done].
  cbn. eapply (stagger_fold_nonneg base _ ∅); [apply map_Forall_empty | exact E].
Qed.

Lemma stagger_fold_other base (keys : list string) (idxs : list nat) cur k :
  k ∉ keys ->
  fold_left (stagger_step base) (zip idxs keys) cur !! k = cur !! k.
Proof.
  revert idxs cur. induction keys as [|x keys IH]; intros idxs cur Hk.
  - by destruct idxs.
  - destruct idxs as [|i idxs]; [done|]. cbn [zip zip_with fold_left].
    apply not_elem_of_cons in Hk as [Hne Hk].
    rewrite IH by done. unfold stagger_step. cbn [fst snd].
    by rewrite lookup_insert_ne.
Qed.

Lemma stagger_fold_lookup base (keys : list string) s cur i k :
  NoDup keys -> keys !! i = Some k ->
  fold_left (stagger_step base) (zip (seq s (length keys)) keys) cur !! k
  = Some (py_max (0 # 1)
            (default (0 # 1) (base !! k) * variation_factor (s + i))%Q).
Proof.
  revert s cur i. induction keys as [|x keys IH]; intros s cur i Hnd Hi; [done|].
  apply NoDup_cons in Hnd as [Hx Hnd].
  cbn [length seq zip zip_with fold_left].
  destruct i as [|i]; cbn in Hi.
  - injection Hi as ->. rewrite stagger_fold_other by done.
    unfold stagger_step. cbn [fst snd]. rewrite lookup_insert_eq.
    by rewrite Nat.add_0_r.
  - rewrite (IH (S s) _ i) by done. by rewrite Nat.add_succ_r.
Qed.

(** The starting inventory of a key of [base_inventory] is its balance,
    scaled by the factor of its rank among the sorted keys and clamped at
    zero. *)
Lemma lookup_current_inventory base (k : string) (b : Q) :
  base !! k = Some b ->
  exists i,
    sorted (elements (dom base)) !! i = Some k
    /\ current_inventory base !! k
       = Some (py_max (0 # 1) (b * variation_factor i)%Q).
Proof.
  intros Hb.
  assert (Hk : k ∈ sorted (elements (dom base))).
  { rewrite sorted_Permutation, elem_of_elements, elem_of_dom. by eexists. }
  apply list_elem_of_lookup in Hk as [i Hi]. exists i. split; [done|].
  unfold current_inventory, enumerate.
  rewrite (stagger_fold_lookup base _ 0%nat ∅ i k); [by rewrite Hb| |done].
  rewrite sorted_Permutation. apply NoDup_elements.
Qed.

(** ** C10: the planner never starts from a negative balance *)

(** C10.  The starting inventory the planner simulates an ingredient from
    is never negative. *)
Theorem C10_start_inv_nonneg (inp : Inputs) (start : Z) (ing : string) :
  (0 <= start_inv inp start ing)%Q.
Proof. apply current_inventory_nonneg. Qed.

(** A replayed balance of -80 leaves the planner a starting inventory
    of 0. *)
Example start_inv_clamps_deficit :
  start_date (forecast deficit) = Some 21
  /\ base_inventory deficit 21 !! "Bun" = Some (-80 # 1)%Q
  /\ start_inv deficit 21 "Bun" = (0 # 1)%Q.
Proof. repeat split; vm_compute; reflexivity. Qed.

(** ** The estimator *)

Lemma lookup_fold_insert_key {V : Type} (key : V -> string) (l : list V)
    (m : gmap string V) (k : string) (v : V) :
  fold_left (fun acc r => <[key r := r]> acc) l m !! k = Some v ->
  m !! k = Some v \/ (v ∈ l /\ key v = k).
Proof.
  revert m. induction l as [|r l IH]; intros m; cbn [fold_left]; [by left|].
  intros [Hm|[Hl Hk]]%IH.
  - destruct (decide (key r = k)) as [<-|Hne].
    + rewrite lookup_insert_eq in Hm. injection Hm as ->. right. split; [left|done].
    + rewrite lookup_insert_ne in Hm by done. by left.
  - right. split; [by right|done].
Qed.

Lemma latest_buy_elem (bank : list Bank.row) (ing : string) (lb : Bank.row) :
  latest_buy bank !! ing = Some lb -> lb ∈ bank /\ Bank.ingredient lb = ing.
Proof.
  unfold latest_buy, bank_sorted.
  intros [Hm|[Hl Hk]]%lookup_fold_insert_key; [done|].
  split; [|done]. by apply elem_of_sort_values in Hl.
Qed.

Lemma lookup_fold_insert_last {V : Type} (key : V -> string) (l : list V)
    (m : gmap string V) (k : string) :
  fold_left (fun acc r => <[key r := r]> acc) l m !! k
  = match last (filter (fun r => key r = k) l) with
    | Some v => Some v
    | None => m !! k
    end.
Proof.
  revert m. induction l as [|r l IH]; intros m; cbn [fold_left]; [done|].
  rewrite IH, filter_cons.
  destruct (decide (key r = k)) as [<-|Hne].
  - rewrite last_cons, lookup_insert_eq. by destruct (last _).
  - by rewrite lookup_insert_ne.
Qed.

Lemma latest_buy_last (bank : list Bank.row) (ing : string) :
  latest_buy bank !! ing
  = last (filter (fun r => Bank.ingredient r = ing) (bank_sorted bank)).
Proof.
  unfold latest_buy. rewrite lookup_fold_insert_last, lookup_empty.
  by destruct (last _).
Qed.

(** The row kept by [latest_buy] is a most recent transaction of the
    ingredient in the bank file. *)
Lemma latest_buy_most_recent (bank : list Bank.row) (ing : string)
    (lb r : Bank.row) :
  latest_buy bank !! ing = Some lb ->
  r ∈ bank -> Bank.ingredient r = ing ->
  Bank.txn_date r <= Bank.txn_date lb.
Proof.
  rewrite latest_buy_last. intros Hlast Hr Hing.
  assert (Hlb : Bank.ingredient lb = ing).
  { by apply last_Some_elem_of, list_elem_of_filter in Hlast as [? _]. }
  assert (Htot : forall x y, bank_leb x y = false -> bank_leb y x = true)
    by (intros x y; apply key_leb_total).
  assert (Htrans : forall x y z,
             bank_leb x y = true -> bank_leb y z = true -> bank_leb x z = true)
    by (intros x y z; apply key_leb_trans).
  destruct (last_filter_StronglySorted bank_leb _ _ lb r
              (sort_values_StronglySorted bank_leb Htot Htrans bank) Hlast)
    as [->|Hle]; [by apply elem_of_sort_values | done | lia |].
  unfold bank_leb in Hle. apply key_leb_true in Hle as [Hlt|[_ Hle]]; [|done].
  cbn in Hlt. by rewrite Hing, Hlb, string_compare_refl in Hlt.
Qed.

Lemma latest_buy_None (bank : list Bank.row) (ing : string) :
  latest_buy bank !! ing = None
  <-> filter (fun r => Bank.ingredient r = ing) bank = [].
Proof.
  rewrite latest_buy_last, last_None. unfold bank_sorted.
  split; intros H; apply Permutation_nil_r; [rewrite <- H|rewrite <- H]; 
    by rewrite sort_values_Permutation.
Qed.

Lemma latest_buy_ingredient (inp : Inputs) (ing : string) (lb : Bank.row) :
  latest_buy (bank inp) !! ing = Some lb -> ing ∈ run_ingredients inp.
Proof.
  intros [Hl <-]%latest_buy_elem. apply elem_of_ingredients. right. right.
  apply list_elem_of_fmap. exists lb. split; [done|].
  unfold all_banks, bank in *. rewrite !elem_of_app. auto.
Qed.

Lemma lookup_base_inventory (inp : Inputs) (start : Z) (ing : string) :
  base_inventory inp start !! ing
  = if decide (ing ∈ run_ingredients inp)
    then Some (inventory_of (latest_buy (bank inp)) (deliveries (all_banks inp))
                 (actual_lookup (actual inp)) start ing)
    else None.
Proof.
  unfold base_inventory, compute_current_inventory.
  rewrite (lookup_fold_insert
             (inventory_of (latest_buy (bank inp)) (deliveries (all_banks inp))
                (actual_lookup (actual inp)) start)).
  by rewrite lookup_empty.
Qed.

Lemma date_range_nil (a b : Z) : b < a -> date_range a b = [].
Proof.
  intros H. unfold date_range. by replace (Z.to_nat (b - a + 1)) with 0%nat by lia.
Qed.

Lemma date_range_cons (a b : Z) : a <= b -> date_range a b = a :: date_range (a + 1) b.
Proof.
  intros H. unfold date_range.
  replace (Z.to_nat (b - a + 1)) with (S (Z.to_nat (b - (a + 1) + 1))) by lia.
  cbn [seq map]. f_equal; [lia|].
  rewrite <- seq_shift, map_map. apply map_ext. intros i. lia.
Qed.

(** The loop over [sim_dates] is the day-by-day replay. *)
Lemma replay_fold_days deliv act ing (n : nat) (a b : Z) (q : Q) :
  n = Z.to_nat (b - a) ->
  fold_left (replay_day deliv act ing) (date_range a (b - 1)) q
  = replay_days (fun d => default (0 # 1)%Q (deliv !! (d, ing)))
      (fun d => default (0 # 1)%Q (act !! (d, ing))) a n q.
Proof.
  revert a q. induction n as [|n IH]; intros a q Hn.
  - rewrite date_range_nil by lia. done.
  - rewrite date_range_cons by lia. cbn [fold_left replay_days].
    rewrite IH by lia. done.
Qed.

Lemma inventory_of_not_landed latest deliv act asof ing lb :
  latest !! ing = Some lb ->
  asof < Bank.txn_date lb + LEAD_TIME_DAYS ->
  inventory_of latest deliv act asof ing = (0 # 1)%Q.
Proof.
  intros Hlb Hlt. unfold inventory_of. rewrite Hlb.
  by rewrite (proj2 (Z.ltb_lt _ _)) by done.
Qed.

Lemma inventory_of_landed latest deliv act asof ing lb :
  latest !! ing = Some lb ->
  Bank.txn_date lb + LEAD_TIME_DAYS <= asof ->
  inventory_of latest deliv act asof ing
  = replay_days (fun d => default (0 # 1)%Q (deliv !! (d, ing)))
      (fun d => default (0 # 1)%Q (act !! (d, ing)))
      (Bank.txn_date lb + LEAD_TIME_DAYS)
      (Z.to_nat (asof - (Bank.txn_date lb + LEAD_TIME_DAYS))) (Bank.qty lb).
Proof.
  intros Hlb Hle. unfold inventory_of. rewrite Hlb.
  rewrite (proj2 (Z.ltb_ge _ _)) by done.
  by apply replay_fold_days.
Qed.

(** An order that lands on the as-of day itself counts as arrived: the
    balance is its quantity. *)
Lemma inventory_of_landing_today latest deliv act asof ing lb :
  latest !! ing = Some lb ->
  asof = Bank.txn_date lb + LEAD_TIME_DAYS ->
  inventory_of latest deliv act asof ing = Bank.qty lb.
Proof.
  intros Hlb ->. rewrite (inventory_of_landed _ _ _ _ _ lb) by (done || lia).
  by rewrite Z.sub_diag.
Qed.

(** ** C2: an order that has not landed leaves no stock *)

(** C2, as the estimator has it.  For every ingredient with a purchase
    transaction in the last bank file: when the delivery date of its most
    recent transaction is strictly after the horizon start, the estimator
    returns the inventory 0 for it. *)
Theorem C2_no_stock_before_delivery (inp : Inputs) (start : Z) (ing : string)
    (lb : Bank.row) :
  latest_buy (bank inp) !! ing = Some lb ->
  start < Bank.txn_date lb + LEAD_TIME_DAYS ->
  base_inventory inp start !! ing = Some (0 # 1)%Q.
Proof.
  intros Hlb Hlt. rewrite lookup_base_inventory.
  rewrite decide_True by (by eapply latest_buy_ingredient).
  by rewrite (inventory_of_not_landed _ _ _ _ _ lb).
Qed.

Lemma C2_witness :
  let lb := Bank.mk "Bun" (200 # 1) "unit" (1 # 2) "Bakery" 15 in
  latest_buy (bank demo) !! "Bun" = Some lb
  /\ 17 < Bank.txn_date lb + LEAD_TIME_DAYS
  /\ base_inventory demo 17 !! "Bun" = Some (0 # 1)%Q.
Proof.
  intros lb.
  assert (H1 : latest_buy (bank demo) !! "Bun" = Some lb) by (vm_compute; reflexivity).
  assert (H2 : 17 < Bank.txn_date lb + LEAD_TIME_DAYS) by (vm_compute; reflexivity).
  split; [exact H1|]. split; [exact H2|].
  exact (C2_no_stock_before_delivery demo 17 "Bun" lb H1 H2).
Defined.

(** The claim with "greater than or equal" fails when the order lands on
    the first day of the horizon: the estimator returns the quantity of the
    order, 200, not 0. *)
Lemma C2_counterexample :
  let lb := Bank.mk "Bun" (200 # 1) "unit" (1 # 2) "Bakery" 15 in
  start_date (forecast landing_today) = Some 18
  /\ latest_buy (bank landing_today) !! "Bun" = Some lb
  /\ 18 <= Bank.txn_date lb + LEAD_TIME_DAYS
  /\ base_inventory landing_today 18 !! "Bun" = Some (200 # 1)%Q
  /\ ~ ((200 # 1) == (0 # 1))%Q.
Proof.
  intros lb. repeat split; try (vm_compute; reflexivity).
  - vm_compute. discriminate.
  - vm_compute. discriminate.
Qed.

(** ** C3: the starting inventory is the staggered balance *)

Lemma matching_unique (t : list Usage.row) (d : Z) (ing : string) :
  NoDup ((fun r => (Usage.date r, Usage.ingredient r)) <$> t) ->
  (length (matching t d ing) <= 1)%nat.
Proof.
  unfold matching. rewrite length_fmap.
  induction t as [|r t IH]; [cbn; lia|].
  rewrite fmap_cons. intros [Hr Hnd]%NoDup_cons. rewrite filter_cons.
  destruct (decide (Usage.date r = d /\ Usage.ingredient r = ing)) as [[<- <-]|Hne];
    [|by apply IH].
  assert (Hnil : filter (fun r0 => Usage.date r0 = Usage.date r
                          /\ Usage.ingredient r0 = Usage.ingredient r) t = []).
  { destruct (filter _ t) as [|x l] eqn:E; [done|]. exfalso. apply Hr.
    assert (Hx : x ∈ filter (fun r0 => Usage.date r0 = Usage.date r
                              /\ Usage.ingredient r0 = Usage.ingredient r) t)
      by (rewrite E; by left).
    apply list_elem_of_filter in Hx as [[Hd Hi] Hx].
    apply list_elem_of_fmap. exists x. split; [by rewrite Hd, Hi | done]. }
  rewrite Hnil. cbn. lia.
Qed.

(** The dictionary of usages keeps, for a date and an ingredient, the usage
    of the last row that has them. *)
Lemma lookup_actual_lookup_fold (l : list Usage.row) (m : gmap (Z * string) Q)
    (d : Z) (ing : string) :
  fold_left
    (fun m r => <[(Usage.date r, Usage.ingredient r) := Usage.usage r]> m) l m
    !! (d, ing)
  = match last (matching l d ing) with
    | Some u => Some u
    | None => m !! (d, ing)
    end.
Proof.
  revert m. induction l as [|r l IH]; intros m; [done|].
  cbn [fold_left]. rewrite IH. unfold matching. rewrite filter_cons.
  destruct (decide (Usage.date r = d /\ Usage.ingredient r = ing)) as [[Hd Hi]|Hne].
  - rewrite fmap_cons, last_cons.
    destruct (last (Usage.usage <$> filter _ l)); [done|].
    by rewrite Hd, Hi, lookup_insert_eq.
  - destruct (last (Usage.usage <$> filter _ l)); [done|].
    rewrite lookup_insert_ne; [done|]. intros [= ? ?]. by apply Hne.
Qed.

Lemma actual_lookup_last (actual : list Usage.row) (d : Z) (ing : string) :
  default (0 # 1)%Q (actual_lookup actual !! (d, ing)) = last_usage actual d ing.
Proof.
  unfold actual_lookup, last_usage. rewrite lookup_actual_lookup_fold, lookup_empty.
  by destruct (last _).
Qed.

Lemma replay_days_ext (ledger usage usage' : Z -> Q) (d : Z) (n : nat) (b : Q) :
  (forall x, usage x = usage' x) ->
  replay_days ledger usage d n b = replay_days ledger usage' d n b.
Proof.
  intros H. revert d b. induction n as [|n IH]; intros d b; [done|].
  cbn [replay_days]. by rewrite H, IH.
Qed.

Lemma replay_days_Qeq (ledger usage usage' : Z -> Q) (d : Z) (n : nat) (b b' : Q) :
  (forall x, (usage x == usage' x)%Q) -> (b == b')%Q ->
  (replay_days ledger usage d n b == replay_days ledger usage' d n b')%Q.
Proof.
  intros H. revert d b b'. induction n as [|n IH]; intros d b b' Hb; [done|].
  cbn [replay_days]. apply IH. rewrite Hb, (H d). reflexivity.
Qed.

(** With at most one usage row for the day, the usage the estimator
    subtracts is the usage recorded. *)
Lemma last_usage_recorded (actual : list Usage.row) (d : Z) (ing : string) :
  (length (matching actual d ing) <= 1)%nat ->
  (last_usage actual d ing == recorded_usage actual d ing)%Q.
Proof.
  unfold last_usage, recorded_usage.
  destruct (matching actual d ing) as [|u [|u' l]].
  - reflexivity.
  - intros _. change (u == 0 + u)%Q. ring.
  - cbn [length]. lia.
Qed.

Lemma base_inventory_estimated (inp : Inputs) (start : Z) (ing : string)
    (lb : Bank.row) :
  latest_buy (bank inp) !! ing = Some lb ->
  Bank.txn_date lb + LEAD_TIME_DAYS <= start ->
  base_inventory inp start !! ing = Some (estimated_balance inp start ing lb).
Proof.
  intros Hlb Hle. rewrite lookup_base_inventory.
  rewrite decide_True by (by eapply latest_buy_ingredient).
  rewrite (inventory_of_landed _ _ _ _ _ lb) by done.
  unfold estimated_balance. f_equal. apply replay_days_ext.
  intros x. apply actual_lookup_last.
Qed.




(** ** C4: the unit of an ingredient *)

Lemma lookup_units_fold (l : list Bank.row) (m : gmap string string) (ing : string) :
  fold_left
    (fun m r =>
       match m !! Bank.ingredient r with
       | Some _ => m
       | None => <[Bank.ingredient r := Bank.unit r]> m
       end) l m !! ing
  = match m !! ing with
    | Some u => Some u
    | None => Bank.unit <$> head (filter (fun r => Bank.ingredient r = ing) l)
    end.
Proof.
  revert m. induction l as [|r l IH]; intros m; cbn [fold_left].
  - by destruct (m !! ing).
  - rewrite IH, filter_cons. clear IH.
    destruct (decide (Bank.ingredient r = ing)) as [<-|Hne].
    + destruct (m !! Bank.ingredient r) as [u|] eqn:E; [by rewrite E|].
      by rewrite lookup_insert_eq.
    + destruct (m !! Bank.ingredient r) as [u|] eqn:E; [done|].
      by rewrite lookup_insert_ne.
Qed.

Lemma lookup_ingredient_units (bank : list Bank.row) (ing : string) :
  ingredient_units bank !! ing
  = Bank.unit <$> head (filter (fun r => Bank.ingredient r = ing) bank).
Proof. unfold ingredient_units. by rewrite lookup_units_fold, lookup_empty. Qed.

(** [ingredient_units.get(ing) or infer_unit(ing)] is [infer_unit(ing)]. *)
Lemma unit_of_infer_unit units ing : unit_of units ing = infer_unit units ing.
Proof.
  unfold unit_of, infer_unit. destruct (units !! ing) as [u|]; [|done].
  by destruct (String.eqb u EmptyString).
Qed.

(** C4, as the unit resolver has it.  The resolved unit of an ingredient is
    the unit of its first row, in file order, of the last bank file when it
    has a row there, and the keyword heuristic is applied exactly when the
    ingredient has no row in the last bank file; a recommendation carries
    the unit of the most recent transaction of the last bank file, and the
    unit of the heuristic when the ingredient has no row there. *)
Theorem C4_unit_of_first_row_of_last_week (inp : Inputs) (ing : string) :
  infer_unit (ingredient_units (bank inp)) ing
  = match head (filter (fun r => Bank.ingredient r = ing) (bank_week3 inp)) with
    | Some r => Bank.unit r
    | None => heuristic_unit ing
    end
  /\ forall (order_date delivery_date : Z) (order_qty : Q) (stockout_date : Z),
       Reorder.unit
         (reorder_row (latest_buy (bank inp)) (ingredient_units (bank inp)) ing
            order_date delivery_date order_qty stockout_date)
       = match latest_buy (bank inp) !! ing with
         | Some lb => Bank.unit lb
         | None => heuristic_unit ing
         end.
Proof.
  split.
  - unfold infer_unit. rewrite lookup_ingredient_units. unfold bank.
    by destruct (head _).
  - intros order_date delivery_date order_qty stockout_date.
    unfold reorder_row. cbn [Reorder.unit].
    destruct (latest_buy (bank inp) !! ing) as [lb|] eqn:E; [done|].
    apply latest_buy_None in E.
    rewrite unit_of_infer_unit. unfold infer_unit.
    by rewrite lookup_ingredient_units, E.
Qed.

(** The claim fails twice in the small run: "Bun" resolves to the unit of
    its first row, "pack", and not to the unit of its most recent
    transaction, "unit"; "Lettuce" has a transaction, in the first week,
    that records "kg", and resolves by the heuristic to "g", which is also
    the unit of its recommendation. *)
Lemma C4_counterexample :
  let bun := Bank.mk "Bun" (200 # 1) "unit" (1 # 2) "Bakery" 15 in
  let lettuce := Bank.mk "Lettuce" (10 # 1) "kg" (1 # 1) "Farm" 0 in
  (latest_buy (all_banks demo) !! "Bun" = Some bun
   /\ infer_unit (ingredient_units (bank demo)) "Bun" = "pack"
   /\ infer_unit (ingredient_units (bank demo)) "Bun" <> Bank.unit bun)
  /\ (latest_buy (all_banks demo) !! "Lettuce" = Some lettuce
      /\ infer_unit (ingredient_units (bank demo)) "Lettuce" = heuristic_unit "Lettuce"
      /\ infer_unit (ingredient_units (bank demo)) "Lettuce" <> Bank.unit lettuce
      /\ Reorder.mk "Lettuce" "Unknown" 18 21 (3 # 1) "g" (0 # 1) (0 # 1) 21
         ∈ reorder_plan demo 21).
Proof.
  intros bun lettuce. repeat split; try (vm_compute; reflexivity).
  - vm_compute. discriminate.
  - vm_compute. discriminate.
  - vm_compute reorder_plan. left.
Qed.

(** ** The daily usage grid *)

Lemma lookup_usage_groups_fold (l : list Usage.row) (m : gmap string (list Q))
    (ing : string) :
  fold_left
    (fun m r =>
       <[Usage.ingredient r :=
           (default [] (m !! Usage.ingredient r) ++ [Usage.usage r])%list]> m)
    l m !! ing
  = match actual_series l ing with
    | [] => m !! ing
    | s => Some (default [] (m !! ing) ++ s)%list
    end.
Proof.
  unfold actual_series.
  revert m. induction l as [|r l IH]; intros m; cbn [fold_left]; [done|].
  rewrite IH, filter_cons. clear IH.
  destruct (decide (Usage.ingredient r = ing)) as [<-|Hne].
  - rewrite lookup_insert_eq, fmap_cons. cbn [default].
    destruct (Usage.usage <$> filter _ l); [done|].
    unfold id. by rewrite <- app_assoc.
  - by rewrite lookup_insert_ne.
Qed.

Lemma lookup_usage_groups (actual : list Usage.row) (ing : string) :
  usage_groups actual !! ing
  = match actual_series actual ing with [] => None | s => Some s end.
Proof.
  unfold usage_groups. rewrite lookup_usage_groups_fold, lookup_empty.
  by destruct (actual_series actual ing).
Qed.

(** [fallback_usage] implements the policy. *)
Lemma fallback_usage_resolve (actual : list Usage.row) (ing : string)
    (fu au : option Q) :
  fallback_usage (typical_daily actual) ing fu au
  = resolve_daily_usage fu au (actual_series actual ing).
Proof.
  unfold fallback_usage, resolve_daily_usage, typical_daily.
  destruct fu as [f|]; [done|]. destruct au as [a|]; [done|].
  rewrite lookup_fmap, lookup_usage_groups.
  by destruct (actual_series actual ing).
Qed.

Lemma elem_of_grid_index (ds : list Z) (ings : list string) d ing :
  (d, ing) ∈ grid_index ds ings <-> d ∈ ds /\ ing ∈ ings.
Proof.
  unfold grid_index. rewrite list_elem_of_bind. split.
  - intros (d' & Hx & Hd). apply list_elem_of_bind in Hx as (ing' & Hx & Hi).
    apply list_elem_of_singleton in Hx. by simplify_eq.
  - intros [Hd Hi]. exists d. split; [|done].
    apply list_elem_of_bind. exists ing. split; [|done]. by left.
Qed.

Lemma elem_of_merge_left {L : Type} (key : L -> Z * string) t (left : list L)
    (x : L) (o : option Q) :
  (x, o) ∈ merge_left key t left
  -> x ∈ left /\ merged_from t (key x).1 (key x).2 o.
Proof.
  unfold merge_left. rewrite list_elem_of_bind. intros (y & Hx & Hy).
  destruct (matching t (key y).1 (key y).2) as [|u us] eqn:E.
  - apply list_elem_of_singleton in Hx. simplify_eq. by split.
  - apply list_elem_of_fmap in Hx as (u' & Hx & Hu). simplify_eq.
    split; [done|]. cbn. by rewrite E.
Qed.

Lemma elem_of_daily_grid ds ings fc ac deliv (r : Daily.row) :
  r ∈ daily_grid ds ings fc ac deliv ->
  Daily.date r ∈ ds
  /\ Daily.ingredient r ∈ ings
  /\ merged_from fc (Daily.date r) (Daily.ingredient r) (Daily.forecast_usage r)
  /\ merged_from ac (Daily.date r) (Daily.ingredient r) (Daily.actual_usage r)
  /\ Daily.daily_usage r
     = fallback_usage (typical_daily ac) (Daily.ingredient r)
         (Daily.forecast_usage r) (Daily.actual_usage r)
  /\ Daily.delivery_qty r
     = default (0 # 1)%Q (deliv !! (Daily.date r, Daily.ingredient r))
  /\ Daily.planned_delivery_qty r = (0 # 1)%Q.
Proof.
  unfold daily_grid. intros ([[[d ing] fu] au] & -> & Hx)%list_elem_of_fmap.
  cbn [Daily.date Daily.ingredient Daily.forecast_usage Daily.actual_usage
       Daily.daily_usage Daily.delivery_qty Daily.planned_delivery_qty].
  assert (Hfa : ((d, ing), fu) ∈ merge_left id fc (grid_index ds ings)
                /\ merged_from ac d ing au).
  { destruct ac as [|a ac].
    - apply list_elem_of_fmap in Hx as (y & Hy & Hin). by simplify_eq.
    - by apply elem_of_merge_left in Hx as [Hx Hau]. }
  destruct Hfa as [Hf Hau].
  apply elem_of_merge_left in Hf as [Hidx Hfu].
  apply elem_of_grid_index in Hidx as [Hd Hi].
  by repeat split.
Qed.

(** ** C9: the usage of a day *)

(** C9.  Every row of the grid is a (horizon date, ingredient) pair whose
    daily usage is its forecast usage when it has one, else its actual
    usage when it has one, else the median of the actual usage series of
    its ingredient when that series is not empty, else 0; the forecast and
    the actual usage of the row are the ones merged from the forecast and
    the actual usage tables. *)
Theorem C9_daily_usage_priority (inp : Inputs) (start : Z) (r : Daily.row) :
  r ∈ run_daily inp start ->
  Daily.daily_usage r
  = resolve_daily_usage (Daily.forecast_usage r) (Daily.actual_usage r)
      (actual_series (actual inp) (Daily.ingredient r))
  /\ Daily.date r ∈ dates start
  /\ Daily.ingredient r ∈ run_ingredients inp
  /\ merged_from (forecast inp) (Daily.date r) (Daily.ingredient r)
       (Daily.forecast_usage r)
  /\ merged_from (actual inp) (Daily.date r) (Daily.ingredient r)
       (Daily.actual_usage r).
Proof.
  unfold run_daily. rewrite elem_of_sort_values.
  intros (Hd & Hi & Hfu & Hau & Hu & _)%elem_of_daily_grid.
  rewrite Hu, fallback_usage_resolve. by repeat split.
Qed.

Lemma C9_witness :
  let r := Daily.mk 23 "Bun" None None (100 # 2) (0 # 1) (0 # 1) in
  r ∈ run_daily demo 21
  /\ Daily.daily_usage r
     = resolve_daily_usage (Daily.forecast_usage r) (Daily.actual_usage r)
         (actual_series (actual demo) (Daily.ingredient r)).
Proof.
  intros r.
  assert (H : r ∈ run_daily demo 21).
  { vm_compute run_daily. subst r. do 2 right. left. }
  split; [exact H|].
  exact (proj1 (C9_daily_usage_priority demo 21 r H)).
Defined.

(** * Further properties of the script *)

(** ** The order of the recommendations *)

Lemma reorder_leb_true (r1 r2 : Reorder.row) :
  reorder_leb r1 r2 = true
  <-> Reorder.order_date r1 < Reorder.order_date r2
      \/ (Reorder.order_date r1 = Reorder.order_date r2
          /\ (Reorder.estimated_cost_gbp r2 <= Reorder.estimated_cost_gbp r1)%Q).
Proof.
  unfold reorder_leb.
  destruct (Z.ltb_spec (Reorder.order_date r1) (Reorder.order_date r2)) as [H1|H1].
  - split; [by left | done].
  - destruct (Z.ltb_spec (Reorder.order_date r2) (Reorder.order_date r1)) as [H2|H2].
    + split; [done|]. intros [?|[? _]]; lia.
    + rewrite Qle_bool_iff. split.
      * intros H. right. split; [lia | done].
      * intros [?|[_ ?]]; [lia | done].
Qed.

Lemma reorder_leb_total r1 r2 : reorder_leb r1 r2 = false -> reorder_leb r2 r1 = true.
Proof.
  intros H. apply reorder_leb_true.
  destruct (Z.lt_trichotomy (Reorder.order_date r1) (Reorder.order_date r2))
    as [Hlt|[Heq|Hgt]].
  - assert (reorder_leb r1 r2 = true) by (apply reorder_leb_true; by left). congruence.
  - right. split; [done|].
    destruct (Qlt_le_dec (Reorder.estimated_cost_gbp r2) (Reorder.estimated_cost_gbp r1))
      as [Hc|Hc]; [|done].
    assert (reorder_leb r1 r2 = true); [|congruence].
    apply reorder_leb_true. right. split; [done|]. by apply Qlt_le_weak.
  - by left.
Qed.

Lemma reorder_leb_trans r1 r2 r3 :
  reorder_leb r1 r2 = true -> reorder_leb r2 r3 = true -> reorder_leb r1 r3 = true.
Proof.
  rewrite !reorder_leb_true. intros [H1|[H1 H1']] [H2|[H2 H2']].
  - left. lia.
  - left. lia.
  - left. lia.
  - right. split; [lia|]. by eapply Qle_trans.
Qed.

Lemma StronglySorted_weaken {A : Type} (R R' : relation A) (l : list A) :
  (forall a b, R a b -> R' a b) -> StronglySorted R l -> StronglySorted R' l.
Proof.
  intros HR. induction 1 as [|x l Hl IH Hx]; constructor; [done|].
  eapply Forall_impl; [exact Hx|]. intros y. apply HR.
Qed.

(** X1.  The emitted recommendation list is ordered by order date, earliest
    first, and among the recommendations of one order date by estimated
    cost, dearest first. *)
Theorem X1_reorder_plan_sorted (inp : Inputs) (start : Z) :
  StronglySorted
    (fun r1 r2 =>
       Reorder.order_date r1 < Reorder.order_date r2
       \/ (Reorder.order_date r1 = Reorder.order_date r2
           /\ (Reorder.estimated_cost_gbp r2 <= Reorder.estimated_cost_gbp r1)%Q))
    (reorder_plan inp start).
Proof.
  unfold reorder_plan.
  eapply StronglySorted_weaken;
    [|apply (sort_values_StronglySorted reorder_leb reorder_leb_total
               reorder_leb_trans)].
  intros a b. apply reorder_leb_true.
Qed.

(** ** Which ingredients are recommended *)

Lemma stockout_of_Some inv df :
  is_Some (stockout_of inv df)
  <-> Exists (fun v => (v < 0)%Q) (running_inventory inv df).
Proof.
  revert inv. induction df as [|r df IH]; intros inv; cbn [stockout_of running_inventory].
  - split; [by intros [? ?] | by intros ?%Exists_nil].
  - rewrite Exists_cons. destruct (Qltb _ _) eqn:E.
    + split; [|by eexists]. intros _. left. by apply Qltb_lt.
    + rewrite IH. split; [by right|]. intros [H|H]; [|done].
      apply Qltb_ge in E. by apply Qle_not_lt in E.
Qed.

Lemma rows_of_ingredient (inp : Inputs) (start : Z) (ing : string) (r : Daily.row) :
  r ∈ rows_of ing (run_daily inp start) ->
  Daily.ingredient r = ing /\ ing ∈ run_ingredients inp.
Proof.
  unfold rows_of, run_daily. intros [Hi Hr]%list_elem_of_filter.
  apply elem_of_sort_values, elem_of_daily_grid in Hr as (_ & Hin & _).
  split; [done|]. by rewrite <- Hi.
Qed.

(** X2.  An ingredient whose do-nothing replay over the horizon has a
    negative running inventory has a recommendation in the emitted list, and
    its stockout date is the first day of that replay with a negative
    balance. *)
Theorem X2_stockout_gets_recommendation (inp : Inputs) (start : Z) (ing : string) :
  Exists (fun v => (v < 0)%Q)
    (running_inventory (start_inv inp start ing) (rows_of ing (run_daily inp start))) ->
  exists r,
    r ∈ reorder_plan inp start
    /\ Reorder.ingredient r = ing
    /\ stockout_of (start_inv inp start ing) (rows_of ing (run_daily inp start))
       = Some (Reorder.stockout_date_if_no_order r).
Proof.
  intros Hneg.
  assert (Hin : ing ∈ run_ingredients inp).
  { destruct (rows_of ing (run_daily inp start)) as [|r0 rest] eqn:E.
    - by apply Exists_nil in Hneg.
    - apply (rows_of_ingredient inp start ing r0). rewrite E. by left. }
  apply stockout_of_Some in Hneg as [sd Hsd].
  destruct (recommendation_of (latest_buy (bank inp)) (ingredient_units (bank inp))
              (run_current_inventory inp start) (run_daily inp start) ing)
    as [r|] eqn:Hr.
  - exists r. split; [apply elem_of_reorder_plan; by exists ing|].
    split; [by eapply recommendation_of_ingredient|].
    rewrite Hsd. unfold recommendation_of in Hr. rewrite find_stockout_first in Hr.
    unfold start_inv in Hsd. rewrite Hsd in Hr. by injection Hr as <-.
  - unfold recommendation_of in Hr. rewrite find_stockout_first in Hr.
    unfold start_inv in Hsd. by rewrite Hsd in Hr.
Qed.

Lemma X2_witness :
  Exists (fun v => (v < 0)%Q)
    (running_inventory (start_inv demo 21 "Bun") (rows_of "Bun" (run_daily demo 21)))
  /\ exists r,
       r ∈ reorder_plan demo 21
       /\ Reorder.ingredient r = "Bun"
       /\ stockout_of (start_inv demo 21 "Bun") (rows_of "Bun" (run_daily demo 21))
          = Some (Reorder.stockout_date_if_no_order r).
Proof.
  assert (H : Exists (fun v => (v < 0)%Q)
                (running_inventory (start_inv demo 21 "Bun")
                   (rows_of "Bun" (run_daily demo 21)))).
  { vm_compute running_inventory. right. left. vm_compute. reflexivity. }
  split; [exact H|].
  exact (X2_stockout_gets_recommendation demo 21 "Bun" H).
Defined.

(** ** Recommendations without a latest buy *)

Lemma py_round2_zero (x : Q) : (x == 0)%Q -> py_round2 x = (0 # 1)%Q.
Proof.
  intros Hx. unfold py_round2.
  assert (Hs : (x * (100 # 1) == 0)%Q) by (rewrite Hx; reflexivity).
  assert (Hn : Qfloor (x * (100 # 1)) = 0).
  { rewrite Hs. reflexivity. }
  rewrite Hn.
  assert (Hc : (x * (100 # 1) - inject_Z 0 ?= 1 # 2)%Q = Lt).
  { apply Qlt_alt. rewrite Hs. reflexivity. }
  rewrite Hc. reflexivity.
Qed.

(** X3.  A recommendation for an ingredient without a transaction in the
    last bank file carries the supplier "Unknown", the unit of the keyword
    heuristic, the unit cost 0 and the estimated cost 0, whatever the
    quantity. *)
Theorem X3_unknown_supplier (inp : Inputs) (start : Z) (r : Reorder.row) :
  r ∈ reorder_plan inp start ->
  latest_buy (bank inp) !! Reorder.ingredient r = None ->
  Reorder.supplier r = "Unknown"
  /\ Reorder.unit r = heuristic_unit (Reorder.ingredient r)
  /\ Reorder.unit_cost_gbp r = (0 # 1)%Q
  /\ Reorder.estimated_cost_gbp r = (0 # 1)%Q.
Proof.
  intros [ing [_ Hr]]%elem_of_reorder_plan.
  pose proof (recommendation_of_ingredient _ _ _ _ _ _ Hr) as ->.
  intros Hnone. unfold recommendation_of in Hr.
  destruct (find_stockout _ _) as [so|]; [|done].
  injection Hr as <-. unfold reorder_row. rewrite Hnone.
  cbn [Reorder.supplier Reorder.unit Reorder.unit_cost_gbp Reorder.estimated_cost_gbp].
  repeat split.
  - apply latest_buy_None in Hnone. rewrite unit_of_infer_unit. unfold infer_unit.
    by rewrite lookup_ingredient_units, Hnone.
  - apply py_round2_zero. apply Qmult_0_r.
Qed.

Lemma X3_witness :
  let r := Reorder.mk "Lettuce" "Unknown" 18 21 (3 # 1) "g" (0 # 1) (0 # 1) 21 in
  r ∈ reorder_plan demo 21
  /\ latest_buy (bank demo) !! Reorder.ingredient r = None
  /\ Reorder.supplier r = "Unknown"
  /\ Reorder.unit r = heuristic_unit (Reorder.ingredient r)
  /\ Reorder.unit_cost_gbp r = (0 # 1)%Q
  /\ Reorder.estimated_cost_gbp r = (0 # 1)%Q.
Proof.
  intros r.
  assert (H1 : r ∈ reorder_plan demo 21) by (vm_compute reorder_plan; left).
  assert (H2 : latest_buy (bank demo) !! Reorder.ingredient r = None)
    by (vm_compute; reflexivity).
  split; [exact H1|]. split; [exact H2|].
  exact (X3_unknown_supplier demo 21 r H1 H2).
Defined.

(** ** The inventory on the morning of the delivery *)

Lemma inv_at_delivery_morning_nonneg (sd : Z) (s : Q) (df : list Daily.row) :
  (0 <= s)%Q -> stockout_of s df = Some sd ->
  (0 <= inv_at_delivery_morning sd s df)%Q.
Proof.
  revert s. induction df as [|r df IH]; intros s Hs; [done|].
  cbn [stockout_of inv_at_delivery_morning].
  destruct (Qltb _ _) eqn:E.
  - intros [= <-]. by rewrite Z.ltb_irrefl.
  - intros Hsd. destruct (Daily.date r <? sd); [|done].
    apply IH; [|done]. by apply Qltb_ge.
Qed.

Lemma py_max_nonneg_id (x : Q) : (0 <= x)%Q -> (py_max (0 # 1) x == x)%Q.
Proof.
  intros Hx. unfold py_max. destruct (Qltb (0 # 1) x) eqn:E; [reflexivity|].
  apply Qltb_ge in E. by apply Qle_antisym.
Qed.

(** X4.  For every emitted recommendation the inventory on the morning of
    the delivery is not negative (the replay stops before the first
    negative day and starts from a clamped balance), so the inner max of
    the sizing formula leaves it unchanged. *)
Theorem X4_inventory_at_delivery_nonneg (inp : Inputs) (start : Z) (r : Reorder.row) :
  r ∈ reorder_plan inp start ->
  let inv_morning :=
    inv_at_delivery_morning (Reorder.delivery_date r)
      (start_inv inp start (Reorder.ingredient r))
      (rows_of (Reorder.ingredient r) (run_daily inp start)) in
  (0 <= inv_morning)%Q /\ (py_max (0 # 1) inv_morning == inv_morning)%Q.
Proof.
  intros [ing [_ Hr]]%elem_of_reorder_plan.
  pose proof (recommendation_of_ingredient _ _ _ _ _ _ Hr) as ->.
  unfold recommendation_of in Hr. rewrite find_stockout_first in Hr.
  destruct (stockout_of _ _) as [so|] eqn:Hso; [|done].
  injection Hr as <-. cbn [Reorder.delivery_date Reorder.ingredient].
  replace (so - LEAD_TIME_DAYS + LEAD_TIME_DAYS) with so by lia.
  assert (H : (0 <= inv_at_delivery_morning so (start_inv inp start ing)
                      (rows_of ing (run_daily inp start)))%Q).
  { apply inv_at_delivery_morning_nonneg; [|exact Hso].
    apply current_inventory_nonneg. }
  split; [exact H | by apply py_max_nonneg_id].
Qed.

Lemma X4_witness :
  let r := Reorder.mk "Bun" "Bakery" 19 22 (260 # 1) "unit" (1 # 2) (130 # 1) 22 in
  r ∈ reorder_plan demo 21
  /\ (0 <= inv_at_delivery_morning (Reorder.delivery_date r)
             (start_inv demo 21 (Reorder.ingredient r))
             (rows_of (Reorder.ingredient r) (run_daily demo 21)))%Q.
Proof.
  intros r.
  assert (H : r ∈ reorder_plan demo 21).
  { vm_compute reorder_plan. subst r. right. left. }
  split; [exact H|].
  exact (proj1 (X4_inventory_at_delivery_nonneg demo 21 r H)).
Defined.
(** ** What the planner writes to the grid *)

Lemma planned_from_reads cur daily ings r' r :
  planned_from cur daily ings r' r -> same_reads r' r.
Proof. intros (? & ? & ? & ? & ? & ? & ?). by repeat split. Qed.

Lemma planned_amount_nil cur daily r : planned_amount cur daily [] r = (0 # 1)%Q.
Proof. unfold planned_amount. rewrite decide_False; [done|]. by intros ?%elem_of_nil. Qed.

Lemma planned_amount_snoc_other cur daily ings ing r :
  Daily.ingredient r <> ing ->
  planned_amount cur daily (ings ++ [ing]) r = planned_amount cur daily ings r.
Proof.
  intros Hne. unfold planned_amount.
  destruct (decide (Daily.ingredient r ∈ ings)) as [Hin|Hin].
  - rewrite decide_True; [done|]. apply elem_of_app. by left.
  - rewrite decide_False; [done|].
    intros [?|?%list_elem_of_singleton]%elem_of_app; done.
Qed.

Lemma planned_amount_snoc_new cur daily ings r :
  Daily.ingredient r ∉ ings ->
  planned_amount cur daily ings r = (0 # 1)%Q
  /\ planned_amount cur daily (ings ++ [Daily.ingredient r]) r
     = match planned_order cur daily (Daily.ingredient r) with
       | Some (d, q) => if decide (Daily.date r = d) then q else (0 # 1)%Q
       | None => (0 # 1)%Q
       end.
Proof.
  intros Hin. unfold planned_amount. rewrite decide_False by done.
  split; [done|]. rewrite decide_True; [done|].
  apply elem_of_app. right. by left.
Qed.

Section PlannedFacts.
Variable latest : gmap string Bank.row.
Variable units : gmap string string.
Variable cur_inv : gmap string Q.
Variable daily : list Daily.row.

Lemma record_planned_from (ings : list string) (ing : string)
    (l' l : list Daily.row) :
  ing ∉ ings ->
  Forall2 (planned_from cur_inv daily ings) l' l ->
  Forall2 (planned_from cur_inv daily (ings ++ [ing]))
    match planned_order cur_inv daily ing with
    | Some (d, q) => record_planned ing d q l'
    | None => l'
    end l.
Proof.
  intros Hnew Hst.
  induction Hst as [|r' r l' l Hr Hl IH].
  - destruct (planned_order cur_inv daily ing) as [[d q]|]; constructor.
  - assert (Hrow :
      forall x, (x = r' \/
                 (Daily.date x = Daily.date r' /\ Daily.ingredient x = Daily.ingredient r'
                  /\ Daily.forecast_usage x = Daily.forecast_usage r'
                  /\ Daily.actual_usage x = Daily.actual_usage r'
                  /\ Daily.daily_usage x = Daily.daily_usage r'
                  /\ Daily.delivery_qty x = Daily.delivery_qty r')) ->
        (Daily.planned_delivery_qty x
         == Daily.planned_delivery_qty r + planned_amount cur_inv daily (ings ++ [ing]) r)%Q ->
        planned_from cur_inv daily (ings ++ [ing]) x r).
    { destruct Hr as (? & ? & ? & ? & ? & ? & ?).
      intros x [->|(? & ? & ? & ? & ? & ?)] Hx; repeat split; congruence. }
    destruct Hr as (Hd & Hi & _ & _ & _ & _ & Hp).
    destruct (planned_order cur_inv daily ing) as [[d q]|] eqn:Hpo.
    + unfold record_planned. rewrite fmap_cons. constructor; [|exact IH].
      case_bool_decide as Hcase.
      * destruct Hcase as [Hing Hdate]. apply Hrow; [right; by repeat split|].
        cbn [Daily.planned_delivery_qty].
        rewrite Hi in Hing. subst ing.
        destruct (planned_amount_snoc_new cur_inv daily ings r Hnew) as [H0 H1].
        rewrite H1, Hpo, Hp, H0. rewrite decide_True by congruence. ring.
      * apply Hrow; [by left|]. rewrite Hp.
        destruct (decide (Daily.ingredient r = ing)) as [<-|Hne].
        -- destruct (planned_amount_snoc_new cur_inv daily ings r Hnew) as [H0 H1].
           rewrite H1, Hpo, H0. rewrite decide_False; [reflexivity|].
           intros Heq. apply Hcase. split; congruence.
        -- by rewrite planned_amount_snoc_other.
    + constructor; [|exact IH]. apply Hrow; [by left|]. rewrite Hp.
      destruct (decide (Daily.ingredient r = ing)) as [<-|Hne].
      * destruct (planned_amount_snoc_new cur_inv daily ings r Hnew) as [H0 H1].
        by rewrite H1, Hpo, H0.
      * by rewrite planned_amount_snoc_other.
Qed.

Lemma plan_step_planned (ings : list string) (ing : string) st :
  ing ∉ ings ->
  Forall2 (planned_from cur_inv daily ings) st.1 daily ->
  Forall2 (planned_from cur_inv daily (ings ++ [ing]))
    (plan_step latest units cur_inv st ing).1 daily.
Proof.
  intros Hnew Hst.
  assert (Hreads : Forall2 same_reads st.1 daily).
  { eapply Forall2_impl; [exact Hst|]. apply planned_from_reads. }
  pose proof (rows_of_reads ing _ _ Hreads) as Hdf.
  assert (Hstep :
    (plan_step latest units cur_inv st ing).1
    = match planned_order cur_inv daily ing with
      | Some (d, q) => record_planned ing d q st.1
      | None => st.1
      end).
  { unfold plan_step, planned_order.
    rewrite (find_stockout_reads _ _ _ Hdf).
    destruct (find_stockout _ (rows_of ing daily)) as [so|]; [|done].
    cbn [fst]. by rewrite (remaining_need_reads _ _ _ Hdf),
      (inv_at_delivery_morning_reads _ _ _ _ Hdf). }
  rewrite Hstep. by apply record_planned_from.
Qed.

Lemma plan_fold_planned (done ings : list string) st :
  NoDup (done ++ ings) ->
  Forall2 (planned_from cur_inv daily done) st.1 daily ->
  Forall2 (planned_from cur_inv daily (done ++ ings))
    (fold_left (plan_step latest units cur_inv) ings st).1 daily.
Proof.
  revert done st. induction ings as [|ing ings IH]; intros done st Hnd Hst.
  - by rewrite app_nil_r.
  - cbn [fold_left].
    assert (Happ : (done ++ ing :: ings)%list = ((done ++ [ing]) ++ ings)%list)
      by (by rewrite <- app_assoc).
    rewrite Happ in Hnd |- *.
    apply IH; [done|].
    apply plan_step_planned; [|done].
    apply NoDup_app in Hnd as (Hnd & _ & _).
    apply NoDup_app in Hnd as (_ & Hnd & _).
    intros Hin. apply (Hnd _ Hin). by left.
Qed.

Lemma plan_loop_planned (ings : list string) :
  NoDup ings ->
  Forall2 (planned_from cur_inv daily ings)
    (plan_loop latest units cur_inv ings daily).1 daily.
Proof.
  intros Hnd. unfold plan_loop.
  apply (plan_fold_planned [] ings (daily, [])); [done|].
  cbn [fst]. apply Forall2_same_length_lookup. split; [done|].
  intros i r r' H1 H2. rewrite H1 in H2. injection H2 as ->.
  repeat split. rewrite planned_amount_nil. ring.
Qed.
End PlannedFacts.
(** ** Sums and non-negative tables *)

Lemma fold_left_Qplus (l : list Q) (a : Q) :
  (fold_left Qplus l a == a + Qsum l)%Q.
Proof.
  unfold Qsum. revert a. induction l as [|x l IH]; intros a; cbn [fold_left].
  - ring.
  - rewrite (IH (a + x)%Q), (IH (0 + x)%Q). ring.
Qed.

Lemma Qsum_cons (x : Q) (l : list Q) : (Qsum (x :: l) == x + Qsum l)%Q.
Proof. unfold Qsum at 1. cbn [fold_left]. rewrite fold_left_Qplus. ring. Qed.

Lemma Qsum_nonneg (l : list Q) : Forall (fun x => (0 <= x)%Q) l -> (0 <= Qsum l)%Q.
Proof.
  induction 1 as [|x l Hx Hl IH]; [done|]. rewrite Qsum_cons. lra.
Qed.

Lemma deliveries_nonneg (banks : list Bank.row) (k : Z * string) (v : Q) :
  (forall r, r ∈ banks -> (0 <= Bank.qty r)%Q) ->
  deliveries banks !! k = Some v -> (0 <= v)%Q.
Proof.
  unfold deliveries. intros Hq.
  assert (Hgen : forall m : gmap (Z * string) Q,
            map_Forall (fun _ v => (0 <= v)%Q) m ->
            map_Forall (fun _ v => (0 <= v)%Q)
              (fold_left
                 (fun m r =>
                    let k := (Bank.txn_date r + LEAD_TIME_DAYS, Bank.ingredient r) in
                    <[k := match m !! k with
                           | Some s => (s + Bank.qty r)%Q
                           | None => Bank.qty r
                           end]> m) banks m)).
  { induction banks as [|r banks IH]; intros m Hm; [done|]. cbn [fold_left].
    apply IH; [intros r' Hr'; apply Hq; by right|].
    apply map_Forall_insert_2; [|done].
    assert (0 <= Bank.qty r)%Q by (apply Hq; by left).
    destruct (m !! _) as [s|] eqn:E; [|done].
    apply Hm in E. cbn in E. lra. }
  intros Hk. by apply (Hgen ∅ (map_Forall_empty _) k v).
Qed.

Lemma median_nonneg (l : list Q) :
  Forall (fun x => (0 <= x)%Q) l -> (0 <= median l)%Q.
Proof.
  intros Hl. unfold median.
  assert (Hs : Forall (fun x => (0 <= x)%Q) (sort_values Qle_bool l)).
  { by rewrite sort_values_Permutation. }
  assert (Hnth : forall k, (0 <= nth k (sort_values Qle_bool l) (0 # 1))%Q).
  { intros k. destruct (nth_in_or_default k (sort_values Qle_bool l) (0 # 1)%Q) as [Hin | ->].
    - rewrite Forall_forall in Hs. apply Hs. by apply list_elem_of_In.
    - done. }
  destruct (Nat.even _).
  - pose proof (Hnth (length (sort_values Qle_bool l) / 2 - 1)%nat).
    pose proof (Hnth (length (sort_values Qle_bool l) / 2)%nat).
    apply Qle_shift_div_l; [reflexivity | lra].
  - apply Hnth.
Qed.

Lemma matching_nonneg (t : list Usage.row) d ing (u : Q) :
  (forall r, r ∈ t -> (0 <= Usage.usage r)%Q) ->
  u ∈ matching t d ing -> (0 <= u)%Q.
Proof.
  intros Ht. unfold matching.
  intros (r & -> & [_ Hr]%list_elem_of_filter)%list_elem_of_fmap. by apply Ht.
Qed.

Lemma typical_daily_nonneg (actual : list Usage.row) (ing : string) :
  (forall r, r ∈ actual -> (0 <= Usage.usage r)%Q) ->
  (0 <= default (0 # 1) (typical_daily actual !! ing))%Q.
Proof.
  intros Ha. unfold typical_daily. rewrite lookup_fmap, lookup_usage_groups.
  destruct (actual_series actual ing) as [|x s] eqn:E; [done|].
  cbn. apply median_nonneg. rewrite <- E. unfold actual_series.
  apply Forall_forall.
  intros u (r & -> & [_ Hr]%list_elem_of_filter)%list_elem_of_fmap. by apply Ha.
Qed.

Lemma run_daily_nonneg (inp : Inputs) (start : Z) (r : Daily.row) :
  (forall x, x ∈ forecast inp -> (0 <= Usage.usage x)%Q) ->
  (forall x, x ∈ actual inp -> (0 <= Usage.usage x)%Q) ->
  (forall x, x ∈ all_banks inp -> (0 <= Bank.qty x)%Q) ->
  r ∈ run_daily inp start ->
  (0 <= Daily.daily_usage r)%Q /\ (0 <= Daily.delivery_qty r)%Q
  /\ Daily.planned_delivery_qty r = (0 # 1)%Q.
Proof.
  intros Hf Ha Hb. unfold run_daily. rewrite elem_of_sort_values.
  intros (_ & _ & Hfu & Hau & Hu & Hd & Hp)%elem_of_daily_grid.
  split; [|split; [|done]].
  - rewrite Hu. unfold fallback_usage.
    destruct (Daily.forecast_usage r) as [f|];
      [exact (matching_nonneg _ _ _ _ Hf Hfu)|].
    destruct (Daily.actual_usage r) as [a|];
      [exact (matching_nonneg _ _ _ _ Ha Hau)|].
    by apply typical_daily_nonneg.
  - rewrite Hd. destruct (deliveries _ !! _) as [v|] eqn:E; [|done].
    cbn. by eapply deliveries_nonneg.
Qed.

(** ** The need from a day on *)

Lemma remaining_need_all (sd : Z) (df : list Daily.row) :
  Forall (fun r => sd <= Daily.date r) df ->
  remaining_need sd df = Qsum (Daily.daily_usage <$> df).
Proof.
  intros H. unfold remaining_need. f_equal. f_equal.
  induction H as [|r df Hr Hdf IH]; [done|].
  rewrite filter_cons, decide_True by done. by rewrite IH.
Qed.

Lemma py_max_ge (x : Q) : (x <= py_max (0 # 1) x)%Q.
Proof.
  unfold py_max. destruct (Qltb _ _) eqn:E; [lra|]. by apply Qltb_ge in E.
Qed.

(** ** The grid after the planner, row by row *)

Lemma Forall2_filter_both {A B : Type} (R : A -> B -> Prop)
    (P : A -> Prop) (P' : B -> Prop)
    `{!forall x, Decision (P x), !forall y, Decision (P' y)} (l : list A) (k : list B) :
  (forall x y, R x y -> (P x <-> P' y)) ->
  Forall2 R l k -> Forall2 R (filter P l) (filter P' k).
Proof.
  intros HP. induction 1 as [|x y l k Hxy Hlk IH]; [constructor|].
  rewrite !filter_cons. pose proof (HP x y Hxy) as Hiff.
  destruct (decide (P x)), (decide (P' y)); try tauto. by constructor.
Qed.

Lemma Forall2_Forall_transfer {A B : Type} (R : A -> B -> Prop)
    (P : B -> Prop) (P' : A -> Prop) (l : list A) (k : list B) :
  (forall x y, R x y -> P y -> P' x) ->
  Forall2 R l k -> Forall P k -> Forall P' l.
Proof.
  intros HP. induction 1 as [|x y l k Hxy Hlk IH]; [constructor|].
  intros [Hy Hk]%Forall_cons. constructor; [by eapply HP | by apply IH].
Qed.

Lemma Forall2_chronological {A : Type} (R : A -> Daily.row -> Prop)
    (date : A -> Z) (l : list A) (k : list Daily.row) :
  (forall x y, R x y -> date x = Daily.date y) ->
  Forall2 R l k ->
  StronglySorted (fun a b => Daily.date a <= Daily.date b) k ->
  StronglySorted (fun a b => date a <= date b) l.
Proof.
  intros Hd. induction 1 as [|x y l k Hxy Hlk IH]; [constructor|].
  intros [Hk Hy]%StronglySorted_inv. constructor; [by apply IH|].
  eapply Forall2_Forall_transfer; [|exact Hlk|exact Hy].
  intros a b Hab Hb. cbn in *. rewrite (Hd _ _ Hxy), (Hd _ _ Hab). done.
Qed.

Lemma stockout_of_reads s l l' :
  Forall2 same_reads l l' -> stockout_of s l = stockout_of s l'.
Proof. intros H. rewrite <- !find_stockout_first. by apply find_stockout_reads. Qed.

Lemma final_daily_planned (inp : Inputs) (start : Z) :
  Forall2
    (planned_from (run_current_inventory inp start) (run_daily inp start)
       (run_ingredients inp))
    (final_daily inp start) (run_daily inp start).
Proof. apply plan_loop_planned, NoDup_ingredients. Qed.

Lemma final_rows_planned (inp : Inputs) (start : Z) (ing : string) :
  Forall2
    (planned_from (run_current_inventory inp start) (run_daily inp start)
       (run_ingredients inp))
    (rows_of ing (final_daily inp start)) (rows_of ing (run_daily inp start)).
Proof.
  unfold rows_of. apply Forall2_filter_both; [|apply final_daily_planned].
  intros x y (_ & Hi & _). by rewrite Hi.
Qed.

Lemma planned_amount_run (inp : Inputs) (start : Z) (r : Daily.row) :
  r ∈ run_daily inp start ->
  planned_amount (run_current_inventory inp start) (run_daily inp start)
    (run_ingredients inp) r
  = match planned_order (run_current_inventory inp start) (run_daily inp start)
            (Daily.ingredient r) with
    | Some (d, q) => if decide (Daily.date r = d) then q else (0 # 1)%Q
    | None => (0 # 1)%Q
    end.
Proof.
  intros Hr. unfold planned_amount. rewrite decide_True; [done|].
  unfold run_daily in Hr. by apply elem_of_sort_values, elem_of_daily_grid in Hr as (_ & Hin & _).
Qed.

Lemma run_daily_planned_zero (inp : Inputs) (start : Z) (r : Daily.row) :
  r ∈ run_daily inp start -> Daily.planned_delivery_qty r = (0 # 1)%Q.
Proof.
  unfold run_daily. rewrite elem_of_sort_values.
  by intros (_ & _ & _ & _ & _ & _ & Hp)%elem_of_daily_grid.
Qed.

(** X5.  The loop of the planner changes nothing in the grid but the
    planned delivery: row by row, the grid it leaves has the dates,
    ingredients, usages and ledger deliveries it started from, and the
    planned delivery of a row is the quantity ordered for its ingredient
    (before rounding) when the row is at the delivery date of that order,
    and 0 on every other row. *)
Theorem X5_planner_writes_planned_delivery_only (inp : Inputs) (start : Z) :
  Forall2
    (fun r' r =>
       Daily.date r' = Daily.date r
       /\ Daily.ingredient r' = Daily.ingredient r
       /\ Daily.forecast_usage r' = Daily.forecast_usage r
       /\ Daily.actual_usage r' = Daily.actual_usage r
       /\ Daily.daily_usage r' = Daily.daily_usage r
       /\ Daily.delivery_qty r' = Daily.delivery_qty r
       /\ (Daily.planned_delivery_qty r'
           == match planned_order (run_current_inventory inp start)
                      (run_daily inp start) (Daily.ingredient r) with
              | Some (d, q) => if decide (Daily.date r = d) then q else 0 # 1
              | None => 0 # 1
              end)%Q)
    (final_daily inp start) (run_daily inp start).
Proof.
  pose proof (final_daily_planned inp start) as H.
  apply Forall2_same_length_lookup. split; [by eapply Forall2_length|].
  intros i r' r Hr' Hr.
  pose proof (Forall2_lookup_lr _ _ _ _ _ _ H Hr' Hr) as (? & ? & ? & ? & ? & ? & Hp).
  repeat split; try done.
  assert (Hin : r ∈ run_daily inp start) by (by eapply list_elem_of_lookup_2).
  rewrite Hp, (planned_amount_run inp start r Hin).
  rewrite (run_daily_planned_zero inp start r Hin). ring.
Qed.

(** ** The stockout column of the inventory table *)

Lemma sort_values_sorted_id {A : Type} (before : A -> A -> bool) (l : list A) :
  StronglySorted (fun a b => before a b = true) l -> sort_values before l = l.
Proof.
  induction 1 as [|x l Hl IH Hx]; [done|].
  cbn [sort_values foldr]. fold (sort_values before l). rewrite IH.
  destruct l as [|y l]; [done|]. cbn [insert_sorted].
  apply Forall_cons in Hx as [Hxy _]. by rewrite Hxy.
Qed.

Lemma final_rows_sorted_by_date (inp : Inputs) (start : Z) (ing : string) :
  sort_values date_leb (rows_of ing (final_daily inp start))
  = rows_of ing (final_daily inp start).
Proof.
  apply sort_values_sorted_id.
  eapply StronglySorted_weaken;
    [|eapply (Forall2_chronological _ Daily.date);
       [|apply final_rows_planned|apply rows_of_chronological]].
  - intros a b Hab. unfold date_leb. by apply Z.leb_le.
  - by intros x y (? & _).
Qed.

Lemma final_rows_reads (inp : Inputs) (start : Z) (ing : string) :
  Forall2 same_reads (rows_of ing (final_daily inp start))
    (rows_of ing (run_daily inp start)).
Proof.
  eapply Forall2_impl; [apply final_rows_planned|]. apply planned_from_reads.
Qed.

Lemma lookup_stockout_map (inp : Inputs) (start : Z) (ing : string) :
  stockout_map (run_current_inventory inp start) (final_daily inp start)
    (run_ingredients inp) !! ing
  = if decide (ing ∈ run_ingredients inp)
    then Some (stockout_of (start_inv inp start ing)
                 (rows_of ing (run_daily inp start)))
    else None.
Proof.
  unfold stockout_map.
  rewrite (lookup_fold_insert
             (fun ing => stockout_of
                 (default (0 # 1)%Q (run_current_inventory inp start !! ing))
                 (sort_values date_leb (rows_of ing (final_daily inp start))))).
  rewrite lookup_empty. case_decide; [|done].
  rewrite final_rows_sorted_by_date.
  by rewrite (stockout_of_reads _ _ _ (final_rows_reads inp start ing)).
Qed.

Lemma filter_recommendations latest units cur daily (ings : list string) (ing : string) :
  NoDup ings ->
  filter (fun r => Reorder.ingredient r = ing)
    (omap (recommendation_of latest units cur daily) ings)
  = if decide (ing ∈ ings)
    then option_list (recommendation_of latest units cur daily ing)
    else [].
Proof.
  induction 1 as [|x ings Hx Hnd IH]; [done|].
  cbn [omap list_omap].
  assert (Hhead : forall r, recommendation_of latest units cur daily x = Some r ->
            Reorder.ingredient r = x)
    by (intros r; apply recommendation_of_ingredient).
  destruct (decide (ing = x)) as [->|Hne].
  - rewrite decide_True by left.
    assert (Hrest : filter (fun r => Reorder.ingredient r = x)
                      (omap (recommendation_of latest units cur daily) ings) = []).
    { fold (omap (recommendation_of latest units cur daily) ings) in IH.
      rewrite IH. by rewrite decide_False. }
    destruct (recommendation_of latest units cur daily x) as [r|] eqn:E.
    + rewrite filter_cons, decide_True by (by apply Hhead).
      fold (omap (recommendation_of latest units cur daily) ings).
      by rewrite Hrest.
    + fold (omap (recommendation_of latest units cur daily) ings). by rewrite Hrest.
  - assert (Hdec : (if decide (ing ∈ x :: ings)
                    then option_list (recommendation_of latest units cur daily ing)
                    else [])
                   = (if decide (ing ∈ ings)
                      then option_list (recommendation_of latest units cur daily ing)
                      else [])).
    { destruct (decide (ing ∈ ings)) as [Hin|Hin].
      - rewrite decide_True; [done | by right].
      - rewrite decide_False; [done|]. by intros [?|?]%elem_of_cons. }
    rewrite Hdec, <- IH.
    destruct (recommendation_of latest units cur daily x) as [r|] eqn:E; [|done].
    rewrite filter_cons, decide_False; [done|]. rewrite (Hhead r eq_refl). done.
Qed.

Lemma filter_reorder_plan (inp : Inputs) (start : Z) (ing : string) :
  ing ∈ run_ingredients inp ->
  filter (fun r => Reorder.ingredient r = ing) (reorder_plan inp start)
  = option_list
      (recommendation_of (latest_buy (bank inp)) (ingredient_units (bank inp))
         (run_current_inventory inp start) (run_daily inp start) ing).
Proof.
  intros Hin.
  assert (Hperm :
    filter (fun r => Reorder.ingredient r = ing) (reorder_plan inp start)
    ≡ₚ filter (fun r => Reorder.ingredient r = ing) (reorder_rows inp start)).
  { unfold reorder_plan. by rewrite sort_values_Permutation. }
  rewrite reorder_rows_eq, filter_recommendations in Hperm by apply NoDup_ingredients.
  rewrite decide_True in Hperm by done.
  destruct (recommendation_of _ _ _ _ ing) as [r|]; cbn [option_list] in *.
  - by apply Permutation_singleton_r in Hperm.
  - by apply Permutation_nil_r in Hperm.
Qed.

(** ** The recurring baseline *)

Lemma rec_row_Some (latest : gmap string Bank.row) (start : Z) (ing : string) :
  rec_row latest start ing
  = (fun lb => Recurring.mk ing (Bank.qty lb) (Bank.unit lb)
                 (Bank.qty lb * Bank.unit_cost_gbp lb)%Q) <$> latest !! ing.
Proof.
  unfold rec_row. destruct (latest !! ing) as [lb|]; [|done].
  rewrite bool_decide_eq_true_2; [done|].
  unfold end_date, LEAD_TIME_DAYS, RECURRENCE_DAYS. lia.
Qed.

(** X8.  The recurring baseline repeats the last order of every ingredient
    bought in the last bank file, once each and of no other ingredient: the
    order placed on the first day of the horizon always lands within the
    horizon, so the test of the landing date excludes nothing.  The cost of
    a baseline row is the last quantity times the last unit cost. *)
Theorem X8_recurring_baseline_rows (inp : Inputs) (start : Z) :
  NoDup (Recurring.ingredient <$> recurring_plan inp start)
  /\ forall row,
       row ∈ recurring_plan inp start
       <-> exists lb,
             latest_buy (bank inp) !! Recurring.ingredient row = Some lb
             /\ row = Recurring.mk (Recurring.ingredient row) (Bank.qty lb)
                        (Bank.unit lb) (Bank.qty lb * Bank.unit_cost_gbp lb)%Q.
Proof.
  unfold recurring_plan, rec_rows. split.
  - eapply sublist_NoDup; [apply (NoDup_ingredients (forecast inp) (actual inp)
                                    (all_banks inp))|].
    fold (run_ingredients inp).
    induction (run_ingredients inp) as [|ing ings IH]; [done|].
    cbn [omap list_omap]. rewrite rec_row_Some.
    destruct (latest_buy (bank inp) !! ing) as [lb|]; cbn.
    + by constructor.
    + by constructor.
  - intros row. rewrite list_elem_of_omap. split.
    + intros (ing & Hin & Hrow). rewrite rec_row_Some in Hrow.
      destruct (latest_buy (bank inp) !! ing) as [lb|] eqn:E; [|done].
      injection Hrow as <-. cbn. by exists lb.
    + intros (lb & Hlb & Hrow). exists (Recurring.ingredient row). split.
      * by eapply latest_buy_ingredient.
      * rewrite rec_row_Some, Hlb. cbn. by rewrite <- Hrow.
Qed.

(** ** Costs *)

Lemma estimated_cost_nonneg (inp : Inputs) (start : Z) (r : Reorder.row) :
  (forall x, x ∈ bank inp -> (0 <= Bank.unit_cost_gbp x)%Q) ->
  r ∈ reorder_plan inp start ->
  (0 <= Reorder.estimated_cost_gbp r)%Q.
Proof.
  intros Hc [ing [_ Hr]]%elem_of_reorder_plan.
  unfold recommendation_of in Hr.
  destruct (find_stockout _ _) as [so|]; [|done].
  injection Hr as <-. unfold reorder_row. cbn [Reorder.estimated_cost_gbp].
  apply py_round2_nonneg, Qmult_le_0_compat; [apply order_qty_of_nonneg|].
  destruct (latest_buy (bank inp) !! ing) as [lb|] eqn:E; [|done].
  apply Hc. by apply latest_buy_elem in E as [? _].
Qed.

(** X9.  When no unit cost of the last bank file is negative, the spend of
    the dynamic plan is not negative, so the savings reported against the
    recurring baseline never exceed the baseline spend. *)
Theorem X9_savings_bounded_by_baseline (inp : Inputs) (start : Z) :
  (forall x, x ∈ bank inp -> (0 <= Bank.unit_cost_gbp x)%Q) ->
  (0 <= dynamic_cost inp start)%Q
  /\ (savings inp start <= recurring_cost inp start)%Q.
Proof.
  intros Hc.
  assert (H : (0 <= dynamic_cost inp start)%Q).
  { unfold dynamic_cost. apply Qsum_nonneg, Forall_fmap, Forall_forall.
    intros r Hr. by apply (estimated_cost_nonneg inp start). }
  split; [done|]. unfold savings. lra.
Qed.

Lemma X9_witness :
  (forall x, x ∈ bank demo -> (0 <= Bank.unit_cost_gbp x)%Q)
  /\ (0 <= dynamic_cost demo 21)%Q
  /\ (savings demo 21 <= recurring_cost demo 21)%Q.
Proof.
  assert (H : forall x, x ∈ bank demo -> (0 <= Bank.unit_cost_gbp x)%Q).
  { intros x Hx. unfold bank, demo in Hx. cbn [bank_week3] in Hx.
    rewrite !elem_of_cons in Hx.
    destruct Hx as [->|[->|Hx]]; [vm_compute; discriminate..|].
    by apply elem_of_nil in Hx. }
  split; [exact H|].
  exact (X9_savings_bounded_by_baseline demo 21 H).
Defined.

(** ** Ingredients that were not bought in the last week *)

(** X10.  An ingredient of the run without a transaction in the last bank
    file is given the current inventory 0 by the estimator, whatever the
    earlier bank files and the ledger hold for it, and the planner starts
    it from 0. *)
Theorem X10_not_bought_last_week (inp : Inputs) (start : Z) (ing : string) :
  ing ∈ run_ingredients inp ->
  filter (fun r => Bank.ingredient r = ing) (bank_week3 inp) = [] ->
  base_inventory inp start !! ing = Some (0 # 1)%Q
  /\ start_inv inp start ing = (0 # 1)%Q.
Proof.
  intros Hin Hnone.
  assert (Hb : base_inventory inp start !! ing = Some (0 # 1)%Q).
  { rewrite lookup_base_inventory, decide_True by done.
    unfold inventory_of. apply latest_buy_None in Hnone. unfold bank.
    by rewrite Hnone. }
  split; [done|].
  destruct (lookup_current_inventory _ _ _ Hb) as (i & _ & Hcur).
  unfold start_inv, run_current_inventory. rewrite Hcur. reflexivity.
Qed.

Lemma X10_witness :
  "Lettuce" ∈ run_ingredients demo
  /\ filter (fun r => Bank.ingredient r = "Lettuce") (bank_week3 demo) = []
  /\ base_inventory demo 21 !! "Lettuce" = Some (0 # 1)%Q
  /\ start_inv demo 21 "Lettuce" = (0 # 1)%Q.
Proof.
  assert (H1 : "Lettuce" ∈ run_ingredients demo).
  { vm_compute run_ingredients. right. left. }
  assert (H2 : filter (fun r => Bank.ingredient r = "Lettuce") (bank_week3 demo) = [])
    by (vm_compute; reflexivity).
  split; [exact H1|]. split; [exact H2|].
  exact (X10_not_bought_last_week demo 21 "Lettuce" H1 H2).
Defined.

(** ** The delivery ledger *)

Lemma lookup_deliveries_fold (banks : list Bank.row) (m : gmap (Z * string) Q)
    (d : Z) (ing : string) :
  fold_left
    (fun m r =>
       let k := (Bank.txn_date r + LEAD_TIME_DAYS, Bank.ingredient r) in
       <[k := match m !! k with
              | Some s => (s + Bank.qty r)%Q
              | None => Bank.qty r
              end]> m) banks m !! (d, ing)
  = match m !! (d, ing), delivered_quantities banks d ing with
    | Some s, qs => Some (fold_left Qplus qs s)
    | None, [] => None
    | None, q :: qs => Some (fold_left Qplus qs q)
    end.
Proof.
  unfold delivered_quantities.
  revert m. induction banks as [|r banks IH]; intros m; cbn [fold_left].
  - by destruct (m !! (d, ing)).
  - rewrite IH, filter_cons. clear IH.
    destruct (decide (Bank.txn_date r + LEAD_TIME_DAYS = d /\ Bank.ingredient r = ing))
      as [[<- <-]|Hne].
    + rewrite lookup_insert_eq, fmap_cons.
      by destruct (m !! (Bank.txn_date r + LEAD_TIME_DAYS, Bank.ingredient r)).
    + rewrite lookup_insert_ne; [done|]. intros [= ? ?]. by apply Hne.
Qed.

Lemma lookup_deliveries (banks : list Bank.row) (d : Z) (ing : string) :
  deliveries banks !! (d, ing)
  = match delivered_quantities banks d ing with
    | [] => None
    | q :: qs => Some (fold_left Qplus qs q)
    end.
Proof. unfold deliveries. by rewrite lookup_deliveries_fold, lookup_empty. Qed.

Lemma deliveries_Qsum (banks : list Bank.row) (d : Z) (ing : string) :
  (default (0 # 1) (deliveries banks !! (d, ing))
   == Qsum (delivered_quantities banks d ing))%Q.
Proof.
  rewrite lookup_deliveries.
  destruct (delivered_quantities banks d ing) as [|q qs]; [reflexivity|].
  cbn [default]. rewrite Qsum_cons, fold_left_Qplus. reflexivity.
Qed.

(** X11.  The delivery ledger holds, for a day and an ingredient, the sum
    in file order of the quantities of all the transactions of the
    ingredient made a lead time before that day, and holds nothing when
    there is no such transaction. *)
Theorem X11_ledger_sums_deliveries (banks : list Bank.row) (d : Z) (ing : string) :
  deliveries banks !! (d, ing)
  = match delivered_quantities banks d ing with
    | [] => None
    | q :: qs => Some (fold_left Qplus qs q)
    end
  /\ (default (0 # 1) (deliveries banks !! (d, ing))
      == Qsum (delivered_quantities banks d ing))%Q.
Proof. split; [apply lookup_deliveries | apply deliveries_Qsum]. Qed.

(** ** The last order in the estimated balance *)

(** X12.  The estimator counts the last order twice once it has landed.
    The replay starts from the quantity of the order; its first day is the
    landing day, and the ledger delivery it adds on that day is a sum that
    has the quantity of the order among its terms. *)
Theorem X12_last_order_counted_twice (inp : Inputs) (start : Z) (ing : string)
    (lb : Bank.row) :
  latest_buy (bank inp) !! ing = Some lb ->
  Bank.txn_date lb + LEAD_TIME_DAYS < start ->
  let landing := Bank.txn_date lb + LEAD_TIME_DAYS in
  let ledger := deliveries (all_banks inp) in
  let usage := actual_lookup (actual inp) in
  exists q qs,
    delivered_quantities (all_banks inp) landing ing = q :: qs
    /\ Bank.qty lb ∈ q :: qs
    /\ ledger !! (landing, ing) = Some (fold_left Qplus qs q)
    /\ base_inventory inp start !! ing
       = Some (fold_left (replay_day ledger usage ing)
                 (date_range (landing + 1) (start - 1))
                 (Bank.qty lb + fold_left Qplus qs q
                  - default (0 # 1) (usage !! (landing, ing)))%Q).
Proof.
  intros Hlb Hlt landing ledger usage. subst ledger usage.
  assert (Hin : Bank.qty lb ∈ delivered_quantities (all_banks inp) landing ing).
  { pose proof Hlb as [Hin Hing]%latest_buy_elem.
    unfold delivered_quantities. apply list_elem_of_fmap. exists lb. split; [done|].
    apply list_elem_of_filter. split; [done|].
    unfold all_banks, bank in *. rewrite !elem_of_app. auto. }
  pose proof (lookup_deliveries (all_banks inp) landing ing) as Hled.
  destruct (delivered_quantities (all_banks inp) landing ing) as [|q qs] eqn:E;
    [by apply elem_of_nil in Hin|].
  exists q, qs. split; [done|]. split; [done|]. split; [exact Hled|].
  rewrite lookup_base_inventory.
  rewrite decide_True by (by eapply latest_buy_ingredient).
  f_equal. unfold inventory_of. rewrite Hlb.
  rewrite (proj2 (Z.ltb_ge _ _)) by lia.
  fold landing. rewrite (date_range_cons landing) by (unfold landing; lia).
  cbn [fold_left]. unfold replay_day at 2.
  by rewrite Hled.
Qed.

Lemma X12_witness :
  let lb := Bank.mk "Bun" (200 # 1) "unit" (1 # 2) "Bakery" 15 in
  latest_buy (bank demo) !! "Bun" = Some lb
  /\ Bank.txn_date lb + LEAD_TIME_DAYS < 21
  /\ exists q qs,
       delivered_quantities (all_banks demo) 18 "Bun" = q :: qs
       /\ Bank.qty lb ∈ q :: qs
       /\ deliveries (all_banks demo) !! (18, "Bun") = Some (fold_left Qplus qs q)
       /\ base_inventory demo 21 !! "Bun"
          = Some (fold_left
                    (replay_day (deliveries (all_banks demo))
                       (actual_lookup (actual demo)) "Bun")
                    (date_range (18 + 1) (21 - 1))
                    (Bank.qty lb + fold_left Qplus qs q
                     - default (0 # 1) (actual_lookup (actual demo) !! (18%Z, "Bun")))%Q).
Proof.
  intros lb.
  assert (H1 : latest_buy (bank demo) !! "Bun" = Some lb) by (vm_compute; reflexivity).
  assert (H2 : Bank.txn_date lb + LEAD_TIME_DAYS < 21) by (vm_compute; reflexivity).
  split; [exact H1|]. split; [exact H2|].
  exact (X12_last_order_counted_twice demo 21 "Bun" lb H1 H2).
Defined.

(** ** The shape of the grid *)

Lemma merge_left_unique {L : Type} (key : L -> Z * string) (t : list Usage.row)
    (left : list L) :
  NoDup ((fun r => (Usage.date r, Usage.ingredient r)) <$> t) ->
  merge_left key t left
  = (fun x => (x, head (matching t (key x).1 (key x).2))) <$> left.
Proof.
  intros Hnd. unfold merge_left.
  induction left as [|x left IH]; [done|].
  cbn [mbind list_bind]. fold (mbind (M := list)
    (fun x => match matching t (key x).1 (key x).2 with
              | [] => [(x, None)]
              | us => (fun u => (x, Some u)) <$> us
              end) left) in *.
  rewrite IH, fmap_cons.
  pose proof (matching_unique t (key x).1 (key x).2 Hnd) as Hlen.
  destruct (matching t (key x).1 (key x).2) as [|u [|u' us]]; [done|done|].
  cbn in Hlen. lia.
Qed.

Lemma NoDup_grid_index (ds : list Z) (ings : list string) :
  NoDup ds -> NoDup ings -> NoDup (grid_index ds ings).
Proof.
  intros Hds Hings. unfold grid_index.
  induction Hds as [|d ds Hd Hds IH]; [constructor|].
  cbn [mbind list_bind]. apply NoDup_app. split; [|split].
  - clear -Hings. induction Hings as [|i ings Hi Hings IH]; [constructor|].
    cbn [mbind list_bind app]. constructor; [|done].
    intros (i' & Hx & Hin)%list_elem_of_bind.
    apply list_elem_of_singleton in Hx. by simplify_eq.
  - intros [d' i'] (i1 & Hx & Hi1)%list_elem_of_bind Hin.
    apply list_elem_of_singleton in Hx. simplify_eq.
    apply (elem_of_grid_index ds ings) in Hin as [Hin _]. done.
  - exact IH.
Qed.

Lemma length_grid_index (ds : list Z) (ings : list string) :
  length (grid_index ds ings) = (length ds * length ings)%nat.
Proof.
  unfold grid_index. induction ds as [|d ds IH]; [done|].
  cbn [mbind list_bind]. rewrite length_app, IH. cbn [length Nat.mul]. f_equal.
  clear. induction ings as [|i ings IH]; [done|]. cbn. by rewrite IH.
Qed.

Lemma NoDup_date_range (a b : Z) : NoDup (date_range a b).
Proof.
  unfold date_range. apply NoDup_fmap_2; [|apply NoDup_seq].
  intros i j Hij. lia.
Qed.

Lemma daily_grid_keys ds ings fc ac deliv :
  NoDup ((fun r => (Usage.date r, Usage.ingredient r)) <$> fc) ->
  NoDup ((fun r => (Usage.date r, Usage.ingredient r)) <$> ac) ->
  (fun r => (Daily.date r, Daily.ingredient r)) <$> daily_grid ds ings fc ac deliv
  = grid_index ds ings.
Proof.
  intros Hfc Hac. unfold daily_grid. rewrite (merge_left_unique id fc _ Hfc).
  assert (Hwith :
    match ac with
    | [] => (fun x => (x, None)) <$>
              ((fun x => (x, head (matching fc (id x).1 (id x).2))) <$> grid_index ds ings)
    | _ => merge_left fst ac
             ((fun x => (x, head (matching fc (id x).1 (id x).2))) <$> grid_index ds ings)
    end
    = (fun x => (x, head (matching ac (fst x).1 (fst x).2))) <$>
        ((fun x => (x, head (matching fc (id x).1 (id x).2))) <$> grid_index ds ings)).
  { destruct ac as [|a ac]; [done|]. by apply merge_left_unique. }
  rewrite Hwith, <- !list_fmap_compose.
  rewrite <- (list_fmap_id (grid_index ds ings)) at 2.
  apply list_fmap_ext. by intros i [d ing] _.
Qed.

(** X13.  When the forecast and the actual usage have at most one row per
    date and ingredient, the grid has exactly one row for every date of the
    seven days of the horizon and every ingredient of the run, and no
    other row. *)
Theorem X13_one_row_per_day_and_ingredient (inp : Inputs) (start : Z) :
  NoDup ((fun r => (Usage.date r, Usage.ingredient r)) <$> forecast inp) ->
  NoDup ((fun r => (Usage.date r, Usage.ingredient r)) <$> actual inp) ->
  (fun r => (Daily.date r, Daily.ingredient r)) <$> run_daily inp start
    ≡ₚ grid_index (dates start) (run_ingredients inp)
  /\ NoDup ((fun r => (Daily.date r, Daily.ingredient r)) <$> run_daily inp start)
  /\ length (run_daily inp start) = (7 * length (run_ingredients inp))%nat.
Proof.
  intros Hfc Hac.
  assert (Hperm : (fun r => (Daily.date r, Daily.ingredient r)) <$> run_daily inp start
                  ≡ₚ grid_index (dates start) (run_ingredients inp)).
  { unfold run_daily. rewrite sort_values_Permutation. by rewrite daily_grid_keys. }
  split; [exact Hperm|]. split.
  - rewrite Hperm. apply NoDup_grid_index; [apply NoDup_date_range | apply NoDup_ingredients].
  - rewrite <- (length_fmap (fun r => (Daily.date r, Daily.ingredient r))), Hperm.
    rewrite length_grid_index. f_equal.
    unfold dates, date_range, end_date, RECURRENCE_DAYS.
    rewrite length_map, length_seq. lia.
Qed.

Lemma X13_witness :
  NoDup ((fun r => (Usage.date r, Usage.ingredient r)) <$> forecast demo)
  /\ NoDup ((fun r => (Usage.date r, Usage.ingredient r)) <$> actual demo)
  /\ length (run_daily demo 21) = (7 * length (run_ingredients demo))%nat.
Proof.
  assert (H1 : NoDup ((fun r => (Usage.date r, Usage.ingredient r)) <$> forecast demo))
    by (apply (bool_decide_unpack _); vm_compute; exact I).
  assert (H2 : NoDup ((fun r => (Usage.date r, Usage.ingredient r)) <$> actual demo))
    by (apply (bool_decide_unpack _); vm_compute; exact I).
  split; [exact H1|]. split; [exact H2|].
  exact (proj2 (proj2 (X13_one_row_per_day_and_ingredient demo 21 H1 H2))).
Defined.

(** ** The stockout column of the inventory table, one row per day *)

Lemma NoDup_fmap_eq {A B : Type} (f : A -> B) (l : list A) (x y : A) :
  NoDup (f <$> l) -> x ∈ l -> y ∈ l -> f x = f y -> x = y.
Proof.
  intros Hnd [i Hi]%list_elem_of_lookup [j Hj]%list_elem_of_lookup Hxy.
  assert (i = j) as ->.
  { eapply NoDup_lookup; [exact Hnd| |].
    - by rewrite list_lookup_fmap, Hi.
    - rewrite list_lookup_fmap, Hj. cbn. by rewrite Hxy. }
  congruence.
Qed.

Lemma run_daily_keys_NoDup (inp : Inputs) (start : Z) :
  NoDup ((fun r => (Usage.date r, Usage.ingredient r)) <$> forecast inp) ->
  NoDup ((fun r => (Usage.date r, Usage.ingredient r)) <$> actual inp) ->
  NoDup ((fun r => (Daily.date r, Daily.ingredient r)) <$> run_daily inp start).
Proof.
  intros Hfc Hac. unfold run_daily.
  rewrite sort_values_Permutation, daily_grid_keys by done.
  apply NoDup_grid_index; [apply NoDup_date_range | apply NoDup_ingredients].
Qed.

Lemma final_rows_distinct_dates (inp : Inputs) (start : Z) (ing : string) :
  NoDup ((fun r => (Usage.date r, Usage.ingredient r)) <$> forecast inp) ->
  NoDup ((fun r => (Usage.date r, Usage.ingredient r)) <$> actual inp) ->
  NoDup (Daily.date <$> rows_of ing (final_daily inp start)).
Proof.
  intros Hfc Hac.
  assert (Hkeys : (fun r => (Daily.date r, Daily.ingredient r)) <$> final_daily inp start
                  = (fun r => (Daily.date r, Daily.ingredient r)) <$> run_daily inp start).
  { pose proof (final_daily_planned inp start) as H.
    induction H as [|x y l k (Hd & Hi & _) _ IH]; [done|].
    rewrite !fmap_cons. by rewrite Hd, Hi, IH. }
  pose proof (run_daily_keys_NoDup inp start Hfc Hac) as Hnd.
  rewrite <- Hkeys in Hnd. clear Hkeys.
  apply NoDup_fmap_2_strong.
  - intros x y [Hx Hxin]%list_elem_of_filter [Hy Hyin]%list_elem_of_filter Hxy.
    apply (NoDup_fmap_eq _ _ x y Hnd Hxin Hyin). cbn. by rewrite Hxy, Hx, Hy.
  - unfold rows_of. apply NoDup_filter. by eapply NoDup_fmap_1.
Qed.

(** X7.  When the forecast and the actual usage have at most one row per
    date and ingredient, the rows of an ingredient in the grid the planner
    leaves have distinct dates, so that sorting them by date has one
    possible result, and the inventory table and the recommendations agree
    on stockouts: the stockout date in the row of an ingredient is the
    stockout date of the recommendation for that ingredient, and there is
    none when the ingredient has no recommendation. *)
Theorem X7_inventory_table_stockout (inp : Inputs) (start : Z) (row : Inventory.row) :
  NoDup ((fun r => (Usage.date r, Usage.ingredient r)) <$> forecast inp) ->
  NoDup ((fun r => (Usage.date r, Usage.ingredient r)) <$> actual inp) ->
  row ∈ inv_rows inp start ->
  let rows := rows_of (Inventory.ingredient row) (final_daily inp start) in
  (forall l, l ≡ₚ rows ->
             StronglySorted (fun a b => Daily.date a <= Daily.date b) l ->
             l = rows)
  /\ Inventory.stockout_date_if_no_new_order row
     = Reorder.stockout_date_if_no_order <$>
         head (filter (fun r => Reorder.ingredient r = Inventory.ingredient row)
                 (reorder_plan inp start)).
Proof.
  intros Hfc Hac Hrow rows. split.
  - intros l Hperm Hl.
    apply (StronglySorted_unique_strong (fun a b => Daily.date a <= Daily.date b));
      [|exact Hl| |exact Hperm].
    + intros x1 x2 Hx1 Hx2 H12 H21. rewrite Hperm in Hx1.
      apply (NoDup_fmap_eq Daily.date rows);
        [by apply final_rows_distinct_dates|done|done|lia].
    + subst rows.
      eapply (Forall2_chronological _ Daily.date);
        [|apply final_rows_planned|apply rows_of_chronological].
      by intros x y (? & _).
  - clear rows. revert Hrow.
    unfold inv_rows. intros (ing & -> & Hin)%list_elem_of_fmap.
    unfold inv_row. cbn [Inventory.stockout_date_if_no_new_order Inventory.ingredient].
    rewrite lookup_stockout_map, decide_True by done. cbn [default].
    rewrite filter_reorder_plan by done.
    unfold recommendation_of. rewrite find_stockout_first. unfold start_inv.
    by destruct (stockout_of _ _).
Qed.

Lemma X7_witness :
  let row := Inventory.mk "Bun" "unit" (90 # 1) "Bakery" (Some 15) (200 # 1)
               None (0 # 1) (Some 22) in
  NoDup ((fun r => (Usage.date r, Usage.ingredient r)) <$> forecast demo)
  /\ NoDup ((fun r => (Usage.date r, Usage.ingredient r)) <$> actual demo)
  /\ row ∈ inv_rows demo 21
  /\ Inventory.stockout_date_if_no_new_order row
     = Reorder.stockout_date_if_no_order <$>
         head (filter (fun r => Reorder.ingredient r = Inventory.ingredient row)
                 (reorder_plan demo 21)).
Proof.
  intros row.
  assert (H1 : NoDup ((fun r => (Usage.date r, Usage.ingredient r)) <$> forecast demo))
    by (apply (bool_decide_unpack _); vm_compute; exact I).
  assert (H2 : NoDup ((fun r => (Usage.date r, Usage.ingredient r)) <$> actual demo))
    by (apply (bool_decide_unpack _); vm_compute; exact I).
  assert (H : row ∈ inv_rows demo 21).
  { vm_compute inv_rows. subst row. left. }
  split; [exact H1|]. split; [exact H2|]. split; [exact H|].
  exact (proj2 (X7_inventory_table_stockout demo 21 row H1 H2 H)).
Defined.

(** ** The staggering factor *)

(** X14.  On the doubles of the script the staggering factor
    0.3 + (i % 10) * 0.12 repeats every ten ranks and lies between the
    double 0.3 and its value at rank 9.  That value is not 1.38: it is the
    next double above the double 1.38, 6214967485771285 / 2^52
    (1.3800000000000001), and it is above 138/100.  The factor of every rank
    is within 2^-52 of the exact 0.3 + 0.12 (i mod 10). *)
Theorem X14_staggering_range (i : nat) :
  variation_factor_f64 (i + 10) = variation_factor_f64 i
  /\ PrimFloat.leb (float_of_ratio 3 10) (variation_factor_f64 i) = true
  /\ PrimFloat.leb (variation_factor_f64 i) (variation_factor_f64 9) = true
  /\ PrimFloat.ltb (float_of_ratio 138 100) (variation_factor_f64 9) = true
  /\ float_value (variation_factor_f64 9)
     = Some (6214967485771285 # 4503599627370496)%Q
  /\ (138 # 100 < 6214967485771285 # 4503599627370496)%Q
  /\ exists v,
       float_value (variation_factor_f64 i) = Some v
       /\ (- (1 # 2 ^ 52) <= v - variation_factor i)%Q
       /\ (v - variation_factor i <= 1 # 2 ^ 52)%Q.
Proof.
  assert (Hmod : ((i + 10) mod 10 = i mod 10)%nat).
  { replace (i + 10)%nat with (i + 1 * 10)%nat by lia. apply Nat.Div0.mod_add. }
  split; [unfold variation_factor_f64; by rewrite Hmod|].
  assert (Hexact : variation_factor i = variation_factor (i mod 10)).
  { unfold variation_factor. rewrite Nat2Z.inj_mod.
    by rewrite Z.mod_mod by lia. }
  rewrite Hexact. unfold variation_factor_f64.
  assert (Hlt : (i mod 10 < 10)%nat) by (apply Nat.mod_upper_bound; lia).
  revert Hlt. generalize (i mod 10)%nat. intros k Hk.
  do 10 (destruct k as [|k];
         [repeat split; try (vm_compute; reflexivity);
          eexists; split; [vm_compute; reflexivity|];
          split; vm_compute; discriminate|]).
  lia.
Qed.

(** ** The next known delivery *)

Section HeadOfSorted.
Context {A : Type} (before : A -> A -> bool).
Hypothesis before_total : forall a b, before a b = false -> before b a = true.
Hypothesis before_trans :
  forall a b c, before a b = true -> before b c = true -> before a c = true.

Lemma head_sort_values (l : list A) (x : A) :
  head (sort_values before l) = Some x ->
  x ∈ l /\ forall y, y ∈ l -> y = x \/ before x y = true.
Proof.
  intros Hhead.
  pose proof (sort_values_StronglySorted before before_total before_trans l) as Hs.
  pose proof (sort_values_Permutation before l) as Hperm.
  destruct (sort_values before l) as [|z s]; [done|]. injection Hhead as ->.
  split; [rewrite <- Hperm; by left|].
  intros y Hy. rewrite <- Hperm in Hy. apply elem_of_cons in Hy as [->|Hy]; [by left|].
  right. apply StronglySorted_inv in Hs as [_ Hx].
  by eapply Forall_forall in Hx.
Qed.
End HeadOfSorted.

Lemma next_delivery_Some (deliv : gmap (Z * string) Q) (start : Z)
    (ing : string) (d : Z) (q : Q) :
  next_delivery deliv start ing = Some (d, q) ->
  start <= d
  /\ deliv !! (d, ing) = Some q
  /\ forall d' q', deliv !! (d', ing) = Some q' -> start <= d' -> d <= d'.
Proof.
  unfold next_delivery. intros Hhead.
  apply head_sort_values in Hhead as [Hin Hmin].
  - apply list_elem_of_fmap in Hin as ([[d0 i0] q0] & [= -> ->] & Hin).
    apply list_elem_of_filter in Hin as [[Hge Hi] Hin]. cbn in Hge, Hi. subst i0.
    apply elem_of_map_to_list in Hin.
    split; [done|]. split; [done|].
    intros d' q' Hd' Hge'.
    destruct (Hmin (d', q')) as [[= -> _]|Hle].
    + apply list_elem_of_fmap. exists (d', ing, q'). split; [done|].
      apply list_elem_of_filter. split; [done|]. by apply elem_of_map_to_list.
    + lia.
    + cbn in Hle. by apply Z.leb_le.
  - intros a b H%Z.leb_gt. apply Z.leb_le. lia.
  - intros a b c H1%Z.leb_le H2%Z.leb_le. apply Z.leb_le. lia.
Qed.

Lemma next_delivery_None (deliv : gmap (Z * string) Q) (start : Z) (ing : string) :
  next_delivery deliv start ing = None ->
  forall d' q', deliv !! (d', ing) = Some q' -> d' < start.
Proof.
  unfold next_delivery. intros Hhead d' q' Hd'.
  destruct (Z.lt_ge_cases d' start) as [|Hge]; [done|]. exfalso.
  assert (Hin : (d', q') ∈ sort_values (fun a b : Z * Q => a.1 <=? b.1)
            ((fun x : Z * string * Q => (x.1.1, x.2)) <$>
               filter (fun x : Z * string * Q => start <= x.1.1 /\ x.1.2 = ing)
                 (map_to_list deliv))).
  { apply elem_of_sort_values, list_elem_of_fmap. exists (d', ing, q').
    split; [done|]. apply list_elem_of_filter. split; [done|].
    by apply elem_of_map_to_list. }
  destruct (sort_values _ _) as [|x l]; [by apply elem_of_nil in Hin | done].
Qed.

(** X15.  The inventory table shows, for every ingredient of the run, the
    earliest ledger delivery of the ingredient on or after the horizon
    start, with the quantity the ledger holds for that day rounded to two
    decimals; it shows no date, and the quantity 0, exactly when the ledger
    has no delivery of the ingredient on or after the horizon start. *)
Theorem X15_next_delivery_earliest (inp : Inputs) (start : Z) (row : Inventory.row) :
  row ∈ inv_rows inp start ->
  let ledger := deliveries (all_banks inp) in
  let ing := Inventory.ingredient row in
  match Inventory.next_delivery_date row with
  | Some d =>
      start <= d
      /\ (exists q, ledger !! (d, ing) = Some q
                    /\ Inventory.next_delivery_qty row = py_round2 q)
      /\ forall d' q', ledger !! (d', ing) = Some q' -> start <= d' -> d <= d'
  | None =>
      (forall d' q', ledger !! (d', ing) = Some q' -> d' < start)
      /\ Inventory.next_delivery_qty row = py_round2 (0 # 1)
  end.
Proof.
  unfold inv_rows. intros (ing & -> & Hin)%list_elem_of_fmap.
  unfold inv_row.
  cbn [Inventory.ingredient Inventory.next_delivery_date Inventory.next_delivery_qty].
  destruct (next_delivery (deliveries (all_banks inp)) start ing) as [[d q]|] eqn:E;
    cbn [fmap option_fmap option_map fst snd default].
  - apply next_delivery_Some in E as (H1 & H2 & H3).
    split; [done|]. split; [by exists q | done].
  - split; [by apply next_delivery_None | done].
Qed.

Lemma X15_witness :
  let row := Inventory.mk "Bun" "unit" (0 # 1) "Bakery" (Some 15) (200 # 1)
               (Some 17) (100 # 1) (Some 23) in
  row ∈ inv_rows demo 17
  /\ 17 <= 17
  /\ (exists q, deliveries (all_banks demo) !! (17, "Bun") = Some q
                /\ Inventory.next_delivery_qty row = py_round2 q)
  /\ forall d' q', deliveries (all_banks demo) !! (d', "Bun") = Some q' ->
                   17 <= d' -> 17 <= d'.
Proof.
  intros row.
  assert (H : row ∈ inv_rows demo 17).
  { vm_compute inv_rows. subst row. left. }
  split; [exact H|].
  exact (X15_next_delivery_earliest demo 17 row H).
Defined.

(** ** The size of an order *)

Lemma py_round2_comp (x y : Q) : (x == y)%Q -> py_round2 x = py_round2 y.
Proof.
  intros Hxy. unfold py_round2.
  assert (Hs : (x * (100 # 1) == y * (100 # 1))%Q) by (by rewrite Hxy).
  assert (Hn : Qfloor (x * (100 # 1)) = Qfloor (y * (100 # 1))) by (by rewrite Hs).
  rewrite Hn.
  assert (Hc : (x * (100 # 1) - inject_Z (Qfloor (y * (100 # 1))) ?= 1 # 2)%Q
               = (y * (100 # 1) - inject_Z (Qfloor (y * (100 # 1))) ?= 1 # 2)%Q)
    by (by rewrite Hs).
  by rewrite Hc.
Qed.

Lemma stockout_below_usage (s : Q) (df : list Daily.row) (sd : Z) :
  Forall (fun r => (0 <= Daily.daily_usage r)%Q /\ (0 <= Daily.delivery_qty r)%Q) df ->
  stockout_of s df = Some sd ->
  (s < Qsum (Daily.daily_usage <$> df))%Q.
Proof.
  intros Hdf. revert s. induction Hdf as [|r df [Hu Hd] Hdf IH]; intros s; [done|].
  cbn [stockout_of]. rewrite fmap_cons, Qsum_cons.
  assert (Hrest : (0 <= Qsum (Daily.daily_usage <$> df))%Q).
  { apply Qsum_nonneg, Forall_fmap. eapply Forall_impl; [exact Hdf|]. by intros x [? _]. }
  destruct (Qltb _ _) eqn:E.
  - intros _. apply Qltb_lt in E. lra.
  - intros Hsd. specialize (IH _ Hsd). lra.
Qed.

Lemma inv_below_need (s : Q) (df : list Daily.row) (sd : Z) :
  StronglySorted (fun a b => Daily.date a <= Daily.date b) df ->
  Forall (fun r => (0 <= Daily.daily_usage r)%Q /\ (0 <= Daily.delivery_qty r)%Q) df ->
  stockout_of s df = Some sd ->
  (inv_at_delivery_morning sd s df < remaining_need sd df)%Q.
Proof.
  intros Hsorted. revert s.
  induction Hsorted as [|r df Hsorted IH Hr]; intros s Hdf Hsd; [done|].
  destruct (Z.ltb_spec (Daily.date r) sd) as [Hlt|Hge].
  - cbn [inv_at_delivery_morning]. rewrite (proj2 (Z.ltb_lt _ _) Hlt).
    unfold remaining_need. rewrite filter_cons, decide_False by lia.
    apply Forall_cons in Hdf as [_ Hdf]. cbn [stockout_of] in Hsd.
    destruct (Qltb _ _); [injection Hsd as Hd; lia|].
    by apply IH.
  - cbn [inv_at_delivery_morning]. rewrite (proj2 (Z.ltb_ge _ _) Hge).
    rewrite (remaining_need_all sd (r :: df)).
    + by eapply stockout_below_usage.
    + constructor; [done|]. eapply Forall_impl; [exact Hr|]. intros x Hx. cbn in Hx. lia.
Qed.



(** * The script from its files *)

(** ** Usage from the point of sale *)

Lemma usage_records_app recipes (p1 p2 : list Sale.row) :
  usage_records recipes (p1 ++ p2)
  = (usage_records recipes p1 ++ usage_records recipes p2)%list.
Proof. unfold usage_records. apply bind_app. Qed.

Lemma usage_records_cons recipes (row : Sale.row) (p : list Sale.row) :
  usage_records recipes (row :: p)
  = (usage_records recipes [row] ++ usage_records recipes p)%list.
Proof. apply (usage_records_app recipes [row] p). Qed.

Lemma usage_records_unknown recipes (row : Sale.row) :
  recipes !! Sale.actual_food row = None -> usage_records recipes [row] = [].
Proof. intros H. unfold usage_records. cbn. by rewrite H. Qed.

(** X17.  A sale of a food that has no recipe is ignored: the usage table
    is the one of the other sales. *)
Theorem X17_unknown_food_ignored recipes (p1 p2 : list Sale.row) (row : Sale.row) :
  recipes !! Sale.actual_food row = None ->
  pos_to_ingredients recipes (p1 ++ row :: p2)
  = pos_to_ingredients recipes (p1 ++ p2).
Proof.
  intros H. unfold pos_to_ingredients.
  assert (Hrec : usage_records recipes (p1 ++ row :: p2)
                 = usage_records recipes (p1 ++ p2)).
  { rewrite !usage_records_app, (usage_records_cons recipes row p2).
    by rewrite usage_records_unknown. }
  by rewrite Hrec.
Qed.

Lemma X17_witness :
  RECIPES shop !! Sale.actual_food (Sale.mk "Soup" (3 # 1) 18336) = None
  /\ pos_to_ingredients (RECIPES shop)
       ([Sale.mk "Burger" (10 # 1) 18335; Sale.mk "Burger" (20 # 1) 18336]
          ++ Sale.mk "Soup" (3 # 1) 18336 :: [Sale.mk "Burger" (7 # 1) 18300])
     = pos_to_ingredients (RECIPES shop)
         ([Sale.mk "Burger" (10 # 1) 18335; Sale.mk "Burger" (20 # 1) 18336]
            ++ [Sale.mk "Burger" (7 # 1) 18300]).
Proof.
  assert (H : RECIPES shop !! Sale.actual_food (Sale.mk "Soup" (3 # 1) 18336) = None)
    by (vm_compute; reflexivity).
  split; [exact H|].
  exact (X17_unknown_food_ignored (RECIPES shop) _ _ _ H).
Defined.

Lemma records_usage recipes (p : list Sale.row) (d : Z) (ing unit : string) :
  Pos.usage <$> filter (fun r => pos_key r = (d, ing, unit)) (usage_records recipes p)
  = sold_usage recipes p d ing unit.
Proof.
  induction p as [|row p IH]; [done|].
  rewrite usage_records_cons, filter_app, fmap_app, IH.
  unfold sold_usage at 2. cbn [mbind list_bind]. f_equal.
  unfold usage_records. cbn [mbind list_bind]. rewrite app_nil_r.
  destruct (recipes !! Sale.actual_food row) as [items|]; cbn [default].
  - unfold id. destruct (decide (Sale.date row = d)) as [Hd|Hd].
    + induction items as [|item items IHi]; [done|].
      rewrite fmap_cons, !filter_cons. unfold pos_key at 1.
      cbn [Pos.date Pos.ingredient Pos.unit].
      destruct (decide (item.1 = ing /\ item.2.2 = unit)) as [[Hi Hu]|Hne].
      * rewrite decide_True by (by rewrite Hd, Hi, Hu). rewrite !fmap_cons. by rewrite IHi.
      * rewrite decide_False; [done|]. intros [= _ ? ?]. by apply Hne.
    + induction items as [|item items IHi]; [done|].
      rewrite fmap_cons, filter_cons. unfold pos_key at 1.
      cbn [Pos.date Pos.ingredient Pos.unit].
      rewrite decide_False; [done|]. by intros [= ? _ _].
  - by case_decide.
Qed.

Lemma pos_to_ingredients_keys recipes (p : list Sale.row) :
  pos_key <$> pos_to_ingredients recipes p
  = sort_values key3_leb
      (elements (list_to_set (pos_key <$> usage_records recipes p)
                 : gset (Z * string * string))).
Proof.
  unfold pos_to_ingredients. rewrite <- list_fmap_compose.
  rewrite <- (list_fmap_id (sort_values _ _)) at 2.
  apply list_fmap_ext. by intros i [[d ing] u] _.
Qed.

Lemma elem_of_usage_records recipes (p : list Sale.row) (r : Pos.row) :
  r ∈ usage_records recipes p ->
  exists row, row ∈ p /\ Sale.date row = Pos.date r.
Proof.
  unfold usage_records. intros (row & Hr & Hrow)%list_elem_of_bind.
  exists row. split; [done|].
  destruct (recipes !! Sale.actual_food row) as [items|]; [|by apply elem_of_nil in Hr].
  by apply list_elem_of_fmap in Hr as (item & -> & _).
Qed.

Lemma pos_to_ingredients_sale recipes (p : list Sale.row) (r : Pos.row) :
  r ∈ pos_to_ingredients recipes p ->
  exists row, row ∈ p /\ Sale.date row = Pos.date r.
Proof.
  intros Hr.
  assert (Hk : pos_key r ∈ pos_key <$> pos_to_ingredients recipes p)
    by (apply list_elem_of_fmap; by exists r).
  rewrite pos_to_ingredients_keys, elem_of_sort_values, elem_of_elements,
    elem_of_list_to_set in Hk.
  apply list_elem_of_fmap in Hk as (r0 & Hkey & Hr0).
  apply elem_of_usage_records in Hr0 as (row & Hrow & Hd).
  exists row. split; [done|]. rewrite Hd.
  unfold pos_key in Hkey. by injection Hkey as -> _ _.
Qed.

(** X18.  The usage table has one row per date, ingredient and unit, and
    the usage of a row is the sum, over the sales of its date and the items
    of their recipes with its ingredient and unit, of the recipe quantity
    times the quantity sold; every row comes from a sale of its date. *)
Theorem X18_usage_table_totals recipes (p : list Sale.row) :
  NoDup (pos_key <$> pos_to_ingredients recipes p)
  /\ forall r, r ∈ pos_to_ingredients recipes p ->
       Pos.usage r
       = Qsum (sold_usage recipes p (Pos.date r) (Pos.ingredient r) (Pos.unit r))
       /\ exists row, row ∈ p /\ Sale.date row = Pos.date r.
Proof.
  split.
  - rewrite pos_to_ingredients_keys, sort_values_Permutation. apply NoDup_elements.
  - intros r Hr. split; [|by apply (pos_to_ingredients_sale recipes)].
    unfold pos_to_ingredients in Hr.
    apply list_elem_of_fmap in Hr as ([[d ing] u] & -> & _).
    cbn [Pos.usage Pos.date Pos.ingredient Pos.unit fst snd].
    by rewrite records_usage.
Qed.

Lemma X18_witness :
  let r := Pos.mk 18336 "Patty" (1800 # 1) "g" in
  r ∈ pos_to_ingredients (RECIPES shop) (pos_actual shop)
  /\ Pos.usage r
     = Qsum (sold_usage (RECIPES shop) (pos_actual shop) (Pos.date r)
               (Pos.ingredient r) (Pos.unit r)).
Proof.
  intros r.
  assert (H : r ∈ pos_to_ingredients (RECIPES shop) (pos_actual shop)).
  { vm_compute pos_to_ingredients. subst r. do 3 right. left. }
  split; [exact H|].
  exact (proj1 (proj2 (X18_usage_table_totals (RECIPES shop) (pos_actual shop)) r H)).
Defined.

(** ** The first day of the horizon *)

Lemma fold_min_spec (xs : list Z) (a : Z) :
  fold_left Z.min xs a ∈ a :: xs
  /\ forall x, x ∈ a :: xs -> fold_left Z.min xs a <= x.
Proof.
  revert a. induction xs as [|y xs IH]; intros a; cbn [fold_left].
  - split; [by left|]. intros x ->%list_elem_of_singleton. lia.
  - destruct (IH (Z.min a y)) as [Hin Hle]. split.
    + apply elem_of_cons in Hin as [Heq|Hin].
      * rewrite Heq. destruct (Z.min_spec a y) as [[_ ->]|[_ ->]]; [by left|].
        right. by left.
      * right. by right.
    + intros x [->|[->|Hx]%elem_of_cons]%elem_of_cons.
      * etrans; [apply Hle; by left|]. lia.
      * etrans; [apply Hle; by left|]. lia.
      * apply Hle. by right.
Qed.

Lemma start_date_spec (l : list Usage.row) :
  match start_date l with
  | None => l = []
  | Some m => (exists r, r ∈ l /\ Usage.date r = m)
              /\ forall r, r ∈ l -> m <= Usage.date r
  end.
Proof.
  destruct l as [|r0 l]; [done|]. cbn [start_date].
  destruct (fold_min_spec (Usage.date <$> l) (Usage.date r0)) as [Hin Hle].
  split.
  - rewrite <- fmap_cons in Hin. apply list_elem_of_fmap in Hin as (r & Hr & Hin).
    by exists r.
  - intros r Hr. apply Hle. rewrite <- fmap_cons. apply list_elem_of_fmap. by exists r.
Qed.

Lemma start_date_first (l : list Usage.row) (d : Z) :
  (exists r, r ∈ l /\ Usage.date r = d) ->
  (forall r, r ∈ l -> d <= Usage.date r) ->
  start_date l = Some d.
Proof.
  intros (r & Hr & Hd) Hmin. pose proof (start_date_spec l) as H.
  destruct (start_date l) as [m|].
  - destruct H as [(r' & Hr' & Hm) Hle]. f_equal.
    specialize (Hle r Hr). specialize (Hmin r' Hr'). lia.
  - subst l. by apply elem_of_nil in Hr.
Qed.

(** ** The seasonal forecast *)

Lemma elem_of_enumerate_from {A : Type} (l : list A) (s i : nat) (x : A) :
  (i, x) ∈ zip (seq s (length l)) l <-> exists j, i = (s + j)%nat /\ l !! j = Some x.
Proof.
  revert s. induction l as [|y l IH]; intros s; cbn [length seq zip zip_with].
  - split; [by intros ?%elem_of_nil | by intros (j & _ & ?)].
  - rewrite elem_of_cons, IH. split.
    + intros [[= -> ->]|(j & -> & Hj)].
      * exists 0%nat. split; [lia | done].
      * exists (S j). split; [lia | done].
    + intros ([|j] & -> & Hj).
      * left. cbn in Hj. injection Hj as ->. f_equal. lia.
      * right. exists j. split; [lia | done].
Qed.

Lemma elem_of_enumerate {A : Type} (l : list A) (i : nat) (x : A) :
  (i, x) ∈ enumerate l <-> l !! i = Some x.
Proof.
  unfold enumerate. rewrite elem_of_enumerate_from. split.
  - by intros (j & -> & Hj).
  - intros H. by exists i.
Qed.

Lemma elem_of_avg_daily_actual (actual : list Usage.row) (ing : string) (a : Q) :
  (ing, a) ∈ avg_daily_actual actual
  <-> actual_series actual ing <> [] /\ a = mean (actual_series actual ing).
Proof.
  unfold avg_daily_actual. rewrite list_elem_of_fmap. split.
  - intros (ing' & [= <- ->] & Hin).
    rewrite sorted_Permutation, elem_of_elements, elem_of_dom in Hin.
    destruct Hin as [s Hs]. rewrite Hs. rewrite lookup_usage_groups in Hs.
    destruct (actual_series actual ing) as [|x l]; [done|].
    injection Hs as <-. done.
  - intros [Hne ->]. exists ing.
    pose proof (lookup_usage_groups actual ing) as Hs.
    destruct (actual_series actual ing) as [|x l] eqn:E; [done|].
    rewrite Hs. split; [done|].
    rewrite sorted_Permutation, elem_of_elements, elem_of_dom. by eexists.
Qed.

Lemma elem_of_seasonal_forecast (actual : list Usage.row) (r : Usage.row) :
  r ∈ seasonal_forecast actual
  <-> exists i,
        forecast_dates !! i = Some (Usage.date r)
        /\ actual_series actual (Usage.ingredient r) <> []
        /\ Usage.usage r
           = (mean (actual_series actual (Usage.ingredient r))
              * default (0 # 1) (variation_factors !! i))%Q.
Proof.
  unfold seasonal_forecast. rewrite list_elem_of_bind. split.
  - intros ([i d] & (row & Hr & Hrow)%list_elem_of_bind & Hi).
    apply list_elem_of_singleton in Hr. subst r. cbn.
    apply elem_of_enumerate in Hi. destruct row as [ing a].
    apply elem_of_avg_daily_actual in Hrow as [Hne ->]. by exists i.
  - intros (i & Hi & Hne & Hu). exists (i, Usage.date r). split.
    + apply list_elem_of_bind.
      exists (Usage.ingredient r, mean (actual_series actual (Usage.ingredient r))).
      split; [|by apply elem_of_avg_daily_actual].
      apply list_elem_of_singleton. destruct r as [d ing u]. cbn in *. by rewrite Hu.
    + by apply elem_of_enumerate.
Qed.

Lemma forecast_dates_lookup (i : nat) (d : Z) :
  forecast_dates !! i = Some d <-> (i < 7)%nat /\ d = forecast_start + Z.of_nat i.
Proof.
  unfold forecast_dates, date_range.
  replace (Z.to_nat (forecast_end - forecast_start + 1)) with 7%nat by reflexivity.
  rewrite list_lookup_fmap. split.
  - intros H. destruct (seq 0 7 !! i) as [j|] eqn:E; [|done].
    apply lookup_seq in E as [-> ?]. cbn in H. injection H as <-. split; [done|]. lia.
  - intros [Hi ->]. rewrite (lookup_seq_lt 0 7 i Hi). cbn. f_equal; lia.
Qed.

Lemma actual_series_nonempty (actual : list Usage.row) (r : Usage.row) :
  r ∈ actual -> actual_series actual (Usage.ingredient r) <> [].
Proof.
  intros Hr Hnil. unfold actual_series in Hnil.
  assert (Hin : Usage.usage r ∈ Usage.usage <$>
            filter (fun r0 => Usage.ingredient r0 = Usage.ingredient r) actual).
  { apply list_elem_of_fmap. exists r. split; [done|]. by apply list_elem_of_filter. }
  rewrite Hnil in Hin. by apply elem_of_nil in Hin.
Qed.

Lemma seasonal_start (actual : list Usage.row) :
  actual <> [] -> start_date (seasonal_forecast actual) = Some forecast_start.
Proof.
  intros Hne. destruct actual as [|r0 actual]; [done|].
  apply start_date_first.
  - exists (Usage.mk forecast_start (Usage.ingredient r0)
              (mean (actual_series (r0 :: actual) (Usage.ingredient r0))
               * default (0 # 1) (variation_factors !! 0%nat))%Q).
    split; [|done]. apply elem_of_seasonal_forecast. exists 0%nat.
    cbn [Usage.date Usage.ingredient Usage.usage].
    split; [reflexivity|]. split; [|done]. apply actual_series_nonempty. by left.
  - intros r (i & Hi & _)%elem_of_seasonal_forecast.
    apply forecast_dates_lookup in Hi as [_ ->]. lia.
Qed.

(** ** The forecast from the forecast file *)

Lemma Zleb_total (a b : Z) : (a <=? b) = false -> (b <=? a) = true.
Proof. intros H%Z.leb_gt. apply Z.leb_le. lia. Qed.

Lemma Zleb_trans (a b c : Z) : (a <=? b) = true -> (b <=? c) = true -> (a <=? c) = true.
Proof. intros H1%Z.leb_le H2%Z.leb_le. apply Z.leb_le. lia. Qed.

Lemma sorted_dates_spec (df : list Usage.row) :
  let s := sort_values Z.leb
             (elements (list_to_set (Usage.date <$> df) : gset Z)) in
  NoDup s
  /\ StronglySorted Z.le s
  /\ forall d, d ∈ s <-> d ∈ Usage.date <$> df.
Proof.
  intros s. split; [|split].
  - unfold s. rewrite sort_values_Permutation. apply NoDup_elements.
  - eapply StronglySorted_weaken;
      [|apply (sort_values_StronglySorted Z.leb Zleb_total Zleb_trans)].
    intros a b. apply Z.leb_le.
  - intros d. unfold s. by rewrite elem_of_sort_values, elem_of_elements, elem_of_list_to_set.
Qed.

Lemma unique_dates_spec (df : list Usage.row) :
  NoDup (unique_dates df)
  /\ StronglySorted Z.le (unique_dates df)
  /\ (length (unique_dates df) <= 7)%nat
  /\ (forall d, d ∈ unique_dates df -> d ∈ Usage.date <$> df)
  /\ (forall d, d ∈ Usage.date <$> df -> d ∉ unique_dates df ->
        length (unique_dates df) = 7%nat
        /\ forall d', d' ∈ unique_dates df -> d' < d).
Proof.
  destruct (sorted_dates_spec df) as (Hnd & Hs & Hin).
  unfold unique_dates.
  set (s := sort_values Z.leb (elements (list_to_set (Usage.date <$> df) : gset Z))) in *.
  rewrite <- (take_drop 7 s) in Hnd, Hs.
  apply NoDup_app in Hnd as (Hnd1 & Hdisj & _).
  apply StronglySorted_app in Hs as (Hle & Hs1 & _).
  split; [done|]. split; [done|]. split; [rewrite length_take; lia|]. split.
  - intros d Hd. apply Hin. rewrite <- (take_drop 7 s). apply elem_of_app. by left.
  - intros d Hd Hnot. apply Hin in Hd. rewrite <- (take_drop 7 s) in Hd.
    apply elem_of_app in Hd as [Hd|Hd]; [done|]. split.
    + rewrite length_take. apply Nat.min_l.
      destruct (decide (7 <= length s)%nat) as [?|Hlt]; [done|].
      rewrite drop_ge in Hd by lia. by apply elem_of_nil in Hd.
    + intros d' Hd'. specialize (Hle d' d Hd' Hd).
      assert (d' <> d) by (intros ->; by apply (Hdisj d)). lia.
Qed.

Lemma lookup_date_mapping (df : list Usage.row) (d d' : Z) :
  date_mapping df !! d = Some d'
  <-> exists k, unique_dates df !! k = Some d
      /\ d' = forecast_start + Z.of_nat k.
Proof.
  destruct (unique_dates_spec df) as (Hnd & _ & Hlen & _).
  unfold date_mapping.
  rewrite <- elem_of_list_to_map.
  - rewrite elem_of_lookup_zip_with. split.
    + intros (k & x & y & [= -> ->] & Hx & Hy).
      apply forecast_dates_lookup in Hy as [_ ->]. by exists k.
    + intros (k & Hk & ->). exists k, d, (forecast_start + Z.of_nat k).
      split; [done|]. split; [done|]. apply forecast_dates_lookup. split; [|done].
      apply lookup_lt_Some in Hk. lia.
  - rewrite fst_zip; [done|]. by replace (length forecast_dates) with 7%nat by reflexivity.
Qed.

Lemma elem_of_fallback_forecast (df : list Usage.row) (r : Usage.row) :
  r ∈ fallback_forecast df
  <-> exists r0 k,
        r0 ∈ df
        /\ unique_dates df !! k = Some (Usage.date r0)
        /\ r = Usage.mk (forecast_start + Z.of_nat k) (Usage.ingredient r0)
                 (Usage.usage r0).
Proof.
  unfold fallback_forecast. rewrite list_elem_of_fmap. split.
  - intros (r0 & -> & [Hd Hr0]%list_elem_of_filter).
    apply list_elem_of_lookup in Hd as [k Hk]. exists r0, k.
    split; [done|]. split; [done|].
    assert (Hm : date_mapping df !! Usage.date r0 = Some (forecast_start + Z.of_nat k))
      by (apply lookup_date_mapping; by exists k).
    by rewrite Hm.
  - intros (r0 & k & Hr0 & Hk & ->). exists r0. split.
    + assert (Hm : date_mapping df !! Usage.date r0 = Some (forecast_start + Z.of_nat k))
        by (apply lookup_date_mapping; by exists k).
      by rewrite Hm.
    + apply list_elem_of_filter. split; [|done]. by eapply list_elem_of_lookup_2.
Qed.

(** X19.  The first seven distinct dates of the forecast file, earliest
    first, are kept and moved onto the seven forecast dates in that order:
    a row of the forecast is a row of the file whose date is the k-th of
    them, dated k days after the forecast start; a date of the file that is
    left out is later than seven kept dates. *)
Theorem X19_fallback_forecast_dates (df : list Usage.row) :
  (forall r,
     r ∈ fallback_forecast df
     <-> exists r0 k,
           r0 ∈ df
           /\ unique_dates df !! k = Some (Usage.date r0)
           /\ r = Usage.mk (forecast_start + Z.of_nat k) (Usage.ingredient r0)
                    (Usage.usage r0))
  /\ NoDup (unique_dates df)
  /\ StronglySorted Z.le (unique_dates df)
  /\ (length (unique_dates df) <= 7)%nat
  /\ (forall d, d ∈ unique_dates df -> d ∈ Usage.date <$> df)
  /\ (forall d, d ∈ Usage.date <$> df -> d ∉ unique_dates df ->
        length (unique_dates df) = 7%nat
        /\ forall d', d' ∈ unique_dates df -> d' < d).
Proof.
  split; [apply elem_of_fallback_forecast | apply unique_dates_spec].
Qed.

Lemma unique_dates_head (df : list Usage.row) :
  df <> [] -> exists d r0, unique_dates df !! 0%nat = Some d /\ r0 ∈ df /\ Usage.date r0 = d.
Proof.
  intros Hne. destruct (sorted_dates_spec df) as (_ & _ & Hin).
  unfold unique_dates.
  destruct (sort_values Z.leb (elements (list_to_set (Usage.date <$> df) : gset Z)))
    as [|d s] eqn:E.
  - destruct df as [|r0 df]; [done|]. exfalso.
    assert (H : Usage.date r0 ∈ ([] : list Z)).
    { apply Hin. rewrite fmap_cons. by left. }
    by apply elem_of_nil in H.
  - assert (Hd : d ∈ Usage.date <$> df) by (apply Hin; by left).
    apply list_elem_of_fmap in Hd as (r0 & -> & Hr0). by exists (Usage.date r0), r0.
Qed.

Lemma fallback_start (df : list Usage.row) :
  df <> [] -> start_date (fallback_forecast df) = Some forecast_start.
Proof.
  intros Hne. apply start_date_first.
  - destruct (unique_dates_head df Hne) as (d & r0 & Hd & Hr0 & <-).
    exists (Usage.mk forecast_start (Usage.ingredient r0) (Usage.usage r0)).
    split; [|done]. apply elem_of_fallback_forecast. exists r0, 0%nat.
    split; [done|]. split; [done|]. done.
  - intros r (r0 & k & _ & _ & ->)%elem_of_fallback_forecast. cbn. lia.
Qed.

Lemma fallback_nil : fallback_forecast [] = [].
Proof. reflexivity. Qed.

(** X20.  On a sales file without rows the script raises at line 43 and
    there is no horizon.  Otherwise the horizon of the script starts on the
    forecast start date, 2020-03-17: both the seasonal forecast and the
    forecast taken from the forecast file have their earliest row on that
    day.  Only when there is neither actual usage nor a forecast file row is
    there no forecast, and then no horizon. *)
Theorem X20_horizon_start (f : Files) :
  script_start_date f
  = match pos_data f with
    | [] => None
    | _ :: _ =>
        match script_actual f, forecast_df f with
        | [], [] => None
        | _, _ => Some forecast_start
        end
    end.
Proof.
  unfold script_start_date, dated_pos.
  destruct (pos_data f) as [|row rows] eqn:Ep; [done|]. cbn [mbind option_bind].
  cbn [forecast script_inputs]. unfold script_forecast.
  destruct (script_actual f) as [|a ac] eqn:Ea.
  - destruct (forecast_df f) as [|r df] eqn:Ed; [done|].
    by apply fallback_start.
  - by apply seasonal_start.
Qed.

(** ** The grid of the script *)

Lemma script_actual_window (f : Files) (r : Usage.row) :
  r ∈ script_actual f -> actual_start <= Usage.date r <= actual_end.
Proof.
  unfold script_actual. intros (p & -> & Hp)%list_elem_of_fmap.
  apply pos_to_ingredients_sale in Hp as (row & Hrow & <-).
  unfold pos_actual in Hrow. by apply list_elem_of_filter in Hrow as [? _].
Qed.

Lemma matching_elem (t : list Usage.row) (d : Z) (ing : string) (u : Q) :
  u ∈ matching t d ing
  <-> exists r, r ∈ t /\ Usage.date r = d /\ Usage.ingredient r = ing /\ Usage.usage r = u.
Proof.
  unfold matching. rewrite list_elem_of_fmap. split.
  - intros (r & -> & [[Hd Hi] Hr]%list_elem_of_filter). by exists r.
  - intros (r & Hr & Hd & Hi & <-). exists r. split; [done|].
    by apply list_elem_of_filter.
Qed.

Lemma matching_nil (t : list Usage.row) (d : Z) (ing : string) :
  (forall r, r ∈ t -> Usage.date r = d -> Usage.ingredient r = ing -> False) ->
  matching t d ing = [].
Proof.
  intros H. destruct (matching t d ing) as [|u l] eqn:E; [done|]. exfalso.
  assert (Hu : u ∈ matching t d ing) by (rewrite E; by left).
  apply matching_elem in Hu as (r & Hr & Hd & Hi & _). by eapply H.
Qed.

Lemma elem_of_dates (start d : Z) :
  d ∈ dates start <-> start <= d <= start + 6.
Proof.
  unfold dates, date_range, end_date, RECURRENCE_DAYS.
  replace (Z.to_nat (start + (7 - 1) - start + 1)) with 7%nat by lia.
  rewrite list_elem_of_fmap. split.
  - intros (i & -> & Hi). apply elem_of_seq in Hi. lia.
  - intros Hd. exists (Z.to_nat (d - start)). split; [lia|]. apply elem_of_seq. lia.
Qed.

Lemma no_actual_in_grid (inp : Inputs) (start : Z) (r : Daily.row) :
  (forall a, a ∈ actual inp -> Usage.date a < start) ->
  r ∈ run_daily inp start -> Daily.actual_usage r = None.
Proof.
  intros Hbefore. unfold run_daily. rewrite elem_of_sort_values.
  intros (Hd & _ & _ & Hau & _)%elem_of_daily_grid.
  destruct (Daily.actual_usage r) as [u|]; [|done]. exfalso.
  cbn in Hau. apply matching_elem in Hau as (a & Ha & Hda & _).
  apply Hbefore in Ha. apply elem_of_dates in Hd. lia.
Qed.

(** X21.  In the script the actual usage never reaches the grid: the usage
    table covers the reference week, which ends the day before the horizon
    starts, so no row of the grid has an actual usage and the daily usage
    of a row is its forecast usage, else the median of the ingredient,
    else 0. *)
Theorem X21_no_actual_usage_in_grid (f : Files) (r : Daily.row) :
  r ∈ run_daily (script_inputs f) forecast_start ->
  Daily.actual_usage r = None
  /\ Daily.daily_usage r
     = match Daily.forecast_usage r with
       | Some u => u
       | None =>
           match actual_series (script_actual f) (Daily.ingredient r) with
           | [] => (0 # 1)%Q
           | s => median s
           end
       end.
Proof.
  intros Hr.
  assert (Hau : Daily.actual_usage r = None).
  { apply (no_actual_in_grid (script_inputs f) forecast_start); [|done].
    intros a Ha. cbn [actual script_inputs] in Ha.
    apply script_actual_window in Ha. unfold actual_end, forecast_start in *. lia. }
  split; [done|].
  unfold run_daily in Hr.
  apply elem_of_sort_values, elem_of_daily_grid in Hr as (_ & _ & _ & _ & Hu & _).
  rewrite Hu, fallback_usage_resolve, Hau. cbn [actual script_inputs].
  unfold resolve_daily_usage. destruct (Daily.forecast_usage r); [done|].
  by destruct (actual_series _ _).
Qed.

Lemma X21_witness :
  let r := Daily.mk 18338 "Salt" None None (0 # 1) (0 # 1) (0 # 1) in
  r ∈ run_daily (script_inputs shop) forecast_start
  /\ Daily.actual_usage r = None.
Proof.
  intros r.
  assert (H : r ∈ run_daily (script_inputs shop) forecast_start).
  { vm_compute run_daily. subst r. do 14 right. left. }
  split; [exact H|].
  exact (proj1 (X21_no_actual_usage_in_grid shop r H)).
Defined.

(** ** Ingredients without usage *)

Lemma stockout_of_covered (s : Q) (df : list Daily.row) :
  Forall (fun r => (Daily.daily_usage r <= Daily.delivery_qty r)%Q) df ->
  (0 <= s)%Q -> stockout_of s df = None.
Proof.
  intros Hdf. revert s. induction Hdf as [|r df Hr Hdf IH]; intros s Hs; [done|].
  cbn [stockout_of].
  assert (H : (0 <= s + Daily.delivery_qty r - Daily.daily_usage r)%Q) by lra.
  pose proof H as H'. apply Qltb_ge in H'. rewrite H'. by apply IH.
Qed.

(** X22.  An ingredient that has no forecast row and no actual usage row
    (it is only in the bank files) is never recommended, whatever its
    inventory, when no purchased quantity is negative: its daily usage is 0
    on every day of the horizon. *)
Theorem X22_unused_ingredient_not_recommended (inp : Inputs) (start : Z)
    (ing : string) :
  ing ∉ (Usage.ingredient <$> forecast inp) ->
  ing ∉ (Usage.ingredient <$> actual inp) ->
  (forall x, x ∈ all_banks inp -> (0 <= Bank.qty x)%Q) ->
  (forall r, r ∈ run_daily inp start -> Daily.ingredient r = ing ->
             Daily.daily_usage r = (0 # 1)%Q)
  /\ forall r, r ∈ reorder_plan inp start -> Reorder.ingredient r <> ing.
Proof.
  intros Hf Ha Hb.
  assert (Husage : forall r, r ∈ run_daily inp start -> Daily.ingredient r = ing ->
                     Daily.daily_usage r = (0 # 1)%Q /\ (0 <= Daily.delivery_qty r)%Q).
  { intros r Hr Hi. unfold run_daily in Hr.
    apply elem_of_sort_values, elem_of_daily_grid in Hr
      as (_ & _ & Hfu & Hau & Hu & Hd & _).
    split.
    - rewrite Hu, fallback_usage_resolve. unfold resolve_daily_usage.
      destruct (Daily.forecast_usage r) as [u|].
      { exfalso. cbn in Hfu. apply matching_elem in Hfu as (x & Hx & _ & Hxi & _).
        apply Hf, list_elem_of_fmap. exists x. split; [congruence | done]. }
      destruct (Daily.actual_usage r) as [u|].
      { exfalso. cbn in Hau. apply matching_elem in Hau as (x & Hx & _ & Hxi & _).
        apply Ha, list_elem_of_fmap. exists x. split; [congruence | done]. }
      destruct (actual_series (actual inp) (Daily.ingredient r)) as [|u l] eqn:E; [done|].
      exfalso. assert (Hin : u ∈ actual_series (actual inp) (Daily.ingredient r))
        by (rewrite E; by left).
      unfold actual_series in Hin.
      apply list_elem_of_fmap in Hin as (x & _ & [Hxi Hx]%list_elem_of_filter).
      apply Ha, list_elem_of_fmap. exists x. split; [congruence | done].
    - rewrite Hd. destruct (deliveries _ !! _) as [v|] eqn:E; [|done].
      cbn. by eapply deliveries_nonneg. }
  split; [intros r Hr Hi; by apply Husage|].
  intros r [ing' [_ Hr]]%elem_of_reorder_plan Heq.
  pose proof (recommendation_of_ingredient _ _ _ _ _ _ Hr) as Hing.
  rewrite Heq in Hing. subst ing'.
  unfold recommendation_of in Hr. rewrite find_stockout_first in Hr.
  rewrite stockout_of_covered in Hr; [done| |apply current_inventory_nonneg].
  apply Forall_forall. intros x [Hxi Hx]%list_elem_of_filter.
  destruct (Husage x Hx Hxi) as [-> ?]. done.
Qed.

Lemma X22_witness :
  ("Salt" ∉ (Usage.ingredient <$> forecast demo))
  /\ ("Salt" ∉ (Usage.ingredient <$> actual demo))
  /\ (forall x, x ∈ all_banks demo -> (0 <= Bank.qty x)%Q)
  /\ forall r, r ∈ reorder_plan demo 21 -> Reorder.ingredient r <> "Salt".
Proof.
  assert (H1 : "Salt" ∉ (Usage.ingredient <$> forecast demo)).
  { apply (bool_decide_unpack _). vm_compute. exact I. }
  assert (H2 : "Salt" ∉ (Usage.ingredient <$> actual demo)).
  { apply (bool_decide_unpack _). vm_compute. exact I. }
  assert (H3 : forall x, x ∈ all_banks demo -> (0 <= Bank.qty x)%Q).
  { intros x Hx. unfold all_banks, demo in Hx.
    cbn [bank_week1 bank_week2 bank_week3 app] in Hx.
    rewrite !elem_of_cons in Hx.
    destruct Hx as [->|[->|[->|[->|Hx]]]]; [vm_compute; discriminate..|].
    by apply elem_of_nil in Hx. }
  split; [exact H1|]. split; [exact H2|]. split; [exact H3|].
  exact (proj2 (X22_unused_ingredient_not_recommended demo 21 "Salt" H1 H2 H3)).
Defined.

(** ** The seasonal grid *)

Lemma dates_forecast_start : dates forecast_start = forecast_dates.
Proof. reflexivity. Qed.

Lemma merged_from_seasonal (ac : list Usage.row) (d : Z) (ing : string)
    (o : option Q) :
  d ∈ dates forecast_start ->
  actual_series ac ing <> [] ->
  merged_from (seasonal_forecast ac) d ing o ->
  exists i, (i < 7)%nat
    /\ d = forecast_start + Z.of_nat i
    /\ o = Some (mean (actual_series ac ing)
                 * default (0 # 1) (variation_factors !! i))%Q.
Proof.
  intros Hd Hne Hm. rewrite dates_forecast_start in Hd.
  apply list_elem_of_lookup in Hd as [i Hi].
  pose proof Hi as Hi'. apply forecast_dates_lookup in Hi' as [Hlt ->].
  exists i. split; [done|]. split; [done|].
  destruct o as [u|]; cbn in Hm.
  - apply matching_elem in Hm as (r & Hr & Hrd & Hri & <-).
    apply elem_of_seasonal_forecast in Hr as (j & Hj & _ & Hu).
    apply forecast_dates_lookup in Hj as [_ Hj]. rewrite Hrd in Hj.
    assert (j = i) as -> by lia. by rewrite Hu, Hri.
  - exfalso.
    assert (Hin : (mean (actual_series ac ing)
                   * default (0 # 1) (variation_factors !! i))%Q
                  ∈ matching (seasonal_forecast ac) (forecast_start + Z.of_nat i) ing).
    { apply matching_elem.
      exists (Usage.mk (forecast_start + Z.of_nat i) ing
                (mean (actual_series ac ing)
                 * default (0 # 1) (variation_factors !! i))%Q).
      split; [|done]. apply elem_of_seasonal_forecast. by exists i. }
    rewrite Hm in Hin. by apply elem_of_nil in Hin.
Qed.

(** X23.  On its seasonal path (there is actual usage in the reference
    week) the script gives every ingredient that was used in that week, on
    the i-th day of the horizon, the daily usage that is its average usage
    over the rows of the usage table times the i-th variation factor. *)
Theorem X23_seasonal_daily_usage (f : Files) (r : Daily.row) :
  script_actual f <> [] ->
  r ∈ run_daily (script_inputs f) forecast_start ->
  actual_series (script_actual f) (Daily.ingredient r) <> [] ->
  exists i, (i < 7)%nat
    /\ Daily.date r = forecast_start + Z.of_nat i
    /\ Daily.daily_usage r
       = (mean (actual_series (script_actual f) (Daily.ingredient r))
          * default (0 # 1) (variation_factors !! i))%Q.
Proof.
  intros Hne Hr Hs. unfold run_daily in Hr.
  apply elem_of_sort_values, elem_of_daily_grid in Hr as (Hd & _ & Hfu & _ & Hu & _).
  cbn [forecast actual script_inputs] in Hfu, Hu. unfold script_forecast in Hfu.
  destruct (script_actual f) as [|a ac] eqn:E; [done|].
  destruct (merged_from_seasonal _ _ _ _ Hd Hs Hfu) as (i & Hi & Hdi & Hfo).
  exists i. split; [done|]. split; [done|].
  rewrite Hu, Hfo. reflexivity.
Qed.

Lemma X23_witness :
  let r := Daily.mk 18339 "Bun" (Some (330 # 20)) None (330 # 20) (0 # 1) (0 # 1) in
  script_actual shop <> []
  /\ r ∈ run_daily (script_inputs shop) forecast_start
  /\ actual_series (script_actual shop) (Daily.ingredient r) <> []
  /\ exists i, (i < 7)%nat
       /\ Daily.date r = forecast_start + Z.of_nat i
       /\ Daily.daily_usage r
          = (mean (actual_series (script_actual shop) (Daily.ingredient r))
             * default (0 # 1) (variation_factors !! i))%Q.
Proof.
  intros r.
  assert (H1 : script_actual shop <> []) by (vm_compute; discriminate).
  assert (H2 : r ∈ run_daily (script_inputs shop) forecast_start).
  { vm_compute run_daily. subst r. right. left. }
  assert (H3 : actual_series (script_actual shop) (Daily.ingredient r) <> [])
    by (vm_compute; discriminate).
  split; [exact H1|]. split; [exact H2|]. split; [exact H3|].
  exact (X23_seasonal_daily_usage shop r H1 H2 H3).
Defined.

(** ** One row per day and ingredient *)

Lemma merge_left_single {L : Type} (key : L -> Z * string) (t : list Usage.row)
    (left : list L) :
  Forall (fun x => (length (matching t (key x).1 (key x).2) <= 1)%nat) left ->
  merge_left key t left
  = (fun x => (x, head (matching t (key x).1 (key x).2))) <$> left.
Proof.
  unfold merge_left. induction 1 as [|x left Hx Hleft IH]; [done|].
  cbn [mbind list_bind]. fold (mbind (M := list)
    (fun x => match matching t (key x).1 (key x).2 with
              | [] => [(x, None)]
              | us => (fun u => (x, Some u)) <$> us
              end) left) in *.
  rewrite IH, fmap_cons.
  destruct (matching t (key x).1 (key x).2) as [|u [|u' us]]; [done|done|].
  cbn in Hx. lia.
Qed.

Lemma daily_grid_keys_single ds ings fc ac deliv :
  (forall d ing, d ∈ ds -> (length (matching fc d ing) <= 1)%nat) ->
  (forall d ing, d ∈ ds -> (length (matching ac d ing) <= 1)%nat) ->
  (fun r => (Daily.date r, Daily.ingredient r)) <$> daily_grid ds ings fc ac deliv
  = grid_index ds ings.
Proof.
  intros Hfc Hac. unfold daily_grid.
  assert (Hidx : forall x, x ∈ grid_index ds ings -> x.1 ∈ ds).
  { intros [d ing] Hx. by apply elem_of_grid_index in Hx as [? _]. }
  rewrite (merge_left_single id fc).
  2:{ apply Forall_forall. intros x Hx. apply Hfc. by apply Hidx. }
  assert (Hwith :
    match ac with
    | [] => (fun x => (x, None)) <$>
              ((fun x => (x, head (matching fc (id x).1 (id x).2))) <$> grid_index ds ings)
    | _ => merge_left fst ac
             ((fun x => (x, head (matching fc (id x).1 (id x).2))) <$> grid_index ds ings)
    end
    = (fun x => (x, head (matching ac (fst x).1 (fst x).2))) <$>
        ((fun x => (x, head (matching fc (id x).1 (id x).2))) <$> grid_index ds ings)).
  { destruct ac as [|a ac]; [done|]. apply merge_left_single.
    apply Forall_fmap, Forall_forall. intros x Hx. cbn. apply Hac. by apply Hidx. }
  rewrite Hwith, <- !list_fmap_compose.
  rewrite <- (list_fmap_id (grid_index ds ings)) at 2.
  apply list_fmap_ext. by intros i [d ing] _.
Qed.

Lemma keys_of_product {A B : Type} (l : list A) (k : list B)
    (g : A -> B -> Usage.row) (da : A -> Z) (ib : B -> string) :
  (forall a b, Usage.date (g a b) = da a /\ Usage.ingredient (g a b) = ib b) ->
  (fun r => (Usage.date r, Usage.ingredient r)) <$> (a ← l; b ← k; [g a b])
  = grid_index (da <$> l) (ib <$> k).
Proof.
  intros Hg. unfold grid_index. induction l as [|a l IH]; [done|].
  rewrite fmap_cons. cbn [mbind list_bind]. rewrite fmap_app. f_equal; [|exact IH].
  clear IH. induction k as [|b k IHk]; [done|].
  rewrite fmap_cons. cbn [mbind list_bind app fmap list_fmap].
  destruct (Hg a b) as [-> ->]. f_equal. exact IHk.
Qed.

Lemma seasonal_forecast_keys (ac : list Usage.row) :
  NoDup ((fun r => (Usage.date r, Usage.ingredient r)) <$> seasonal_forecast ac).
Proof.
  unfold seasonal_forecast.
  rewrite (keys_of_product _ _
             (fun (x : nat * Z) (row : string * Q) =>
                Usage.mk x.2 row.1
                  (row.2 * default (0 # 1) (variation_factors !! x.1))%Q)
             snd fst) by done.
  apply NoDup_grid_index.
  - apply (bool_decide_unpack _). vm_compute. exact I.
  - assert (Hfst : fst <$> avg_daily_actual ac
                   = sorted (elements (dom (usage_groups ac)))).
    { unfold avg_daily_actual. rewrite <- list_fmap_compose.
      rewrite <- (list_fmap_id (sorted _)) at 2.
      apply list_fmap_ext. by intros i x _. }
    rewrite Hfst, sorted_Permutation. apply NoDup_elements.
Qed.

Lemma seasonal_matching_single (ac : list Usage.row) (d : Z) (ing : string) :
  (length (matching (seasonal_forecast ac) d ing) <= 1)%nat.
Proof. apply matching_unique, seasonal_forecast_keys. Qed.

(** X24.  On its seasonal path the grid of the script has exactly one row
    for every day of the horizon and every ingredient of the run: seven
    rows per ingredient. *)
Theorem X24_seasonal_grid_one_row_each (f : Files) :
  script_actual f <> [] ->
  (fun r => (Daily.date r, Daily.ingredient r))
    <$> run_daily (script_inputs f) forecast_start
    ≡ₚ grid_index (dates forecast_start) (run_ingredients (script_inputs f))
  /\ NoDup ((fun r => (Daily.date r, Daily.ingredient r))
              <$> run_daily (script_inputs f) forecast_start)
  /\ length (run_daily (script_inputs f) forecast_start)
     = (7 * length (run_ingredients (script_inputs f)))%nat.
Proof.
  intros Hne.
  assert (Hperm : (fun r => (Daily.date r, Daily.ingredient r))
                    <$> run_daily (script_inputs f) forecast_start
                  ≡ₚ grid_index (dates forecast_start)
                       (run_ingredients (script_inputs f))).
  { unfold run_daily. rewrite sort_values_Permutation.
    rewrite daily_grid_keys_single; [done| |].
    - intros d ing _. cbn [forecast script_inputs]. unfold script_forecast.
      destruct (script_actual f) as [|a ac]; [done|]. apply seasonal_matching_single.
    - intros d ing Hd. cbn [actual script_inputs].
      rewrite matching_nil; [cbn; lia|].
      intros r Hr Hrd _. apply script_actual_window in Hr.
      apply elem_of_dates in Hd. unfold actual_end, forecast_start in *. lia. }
  split; [exact Hperm|]. split.
  - rewrite Hperm. apply NoDup_grid_index; [apply NoDup_date_range | apply NoDup_ingredients].
  - rewrite <- (length_fmap (fun r => (Daily.date r, Daily.ingredient r))), Hperm.
    rewrite length_grid_index. f_equal.
Qed.

Lemma X24_witness :
  script_actual shop <> []
  /\ length (run_daily (script_inputs shop) forecast_start)
     = (7 * length (run_ingredients (script_inputs shop)))%nat.
Proof.
  assert (H : script_actual shop <> []) by (vm_compute; discriminate).
  split; [exact H|].
  exact (proj2 (proj2 (X24_seasonal_grid_one_row_each shop H))).
Defined.

(** * The tables that are printed *)

(** ** The forecast summary *)

Lemma grid_index_column (ds : list Z) (ings : list string) (ing : string) :
  NoDup ings -> ing ∈ ings ->
  filter (fun x : Z * string => x.2 = ing) (grid_index ds ings)
  = (fun d => (d, ing)) <$> ds.
Proof.
  intros Hnd Hin. unfold grid_index.
  induction ds as [|d ds IH]; [done|].
  cbn [mbind list_bind]. rewrite filter_app, fmap_cons.
  fold (mbind (M := list) (fun d => ing0 ← ings; [(d, ing0)]) ds). rewrite IH.
  f_equal. clear IH. revert Hin.
  induction Hnd as [|i ings Hi Hnd IH]; intros Hin; [by apply elem_of_nil in Hin|].
  cbn [mbind list_bind app]. rewrite filter_cons. cbn [snd].
  destruct (decide (i = ing)) as [->|Hne].
  - f_equal. clear IH Hin Hnd. induction ings as [|j ings IH]; [done|].
    cbn [mbind list_bind app]. rewrite filter_cons. cbn [snd].
    rewrite decide_False.
    + apply IH. intros H. apply Hi. by right.
    + intros ->. apply Hi. by left.
  - apply IH. apply elem_of_cons in Hin as [->|Hin]; [done|done].
Qed.

Lemma final_daily_keys (inp : Inputs) (start : Z) :
  (fun r => (Daily.date r, Daily.ingredient r)) <$> final_daily inp start
  = (fun r => (Daily.date r, Daily.ingredient r)) <$> run_daily inp start.
Proof.
  pose proof (final_daily_planned inp start) as H.
  induction H as [|x y l k (Hd & Hi & _) _ IH]; [done|].
  rewrite !fmap_cons. by rewrite Hd, Hi, IH.
Qed.

Lemma script_grid_keys (f : Files) :
  script_actual f <> [] ->
  (fun r => (Daily.date r, Daily.ingredient r))
    <$> run_daily (script_inputs f) forecast_start
  ≡ₚ grid_index (dates forecast_start) (run_ingredients (script_inputs f)).
Proof.
  intros Hne. unfold run_daily. rewrite sort_values_Permutation.
  rewrite daily_grid_keys_single; [done| |].
  - intros d ing _. cbn [forecast script_inputs]. unfold script_forecast.
    destruct (script_actual f) as [|a ac]; [done|]. apply seasonal_matching_single.
  - intros d ing Hd. cbn [actual script_inputs].
    rewrite matching_nil; [cbn; lia|].
    intros r Hr Hrd _. apply script_actual_window in Hr.
    apply elem_of_dates in Hd. unfold actual_end, forecast_start in *. lia.
Qed.

Lemma merged_from_head (t : list Usage.row) (d : Z) (ing : string) :
  merged_from t d ing (head (matching t d ing)).
Proof.
  unfold merged_from. destruct (matching t d ing) as [|u l]; [done|]. cbn. left.
Qed.

(** The forecast of the [i]-th day of the horizon for an ingredient, on the
    seasonal path: the average usage times the factor of the day for an
    ingredient that was used, nothing for another. *)
Lemma seasonal_value (ac : list Usage.row) (ing : string) (i : nat) :
  (i < 7)%nat ->
  head (matching (seasonal_forecast ac) (forecast_start + Z.of_nat i) ing)
  = match actual_series ac ing with
    | [] => None
    | s => Some (mean s * default (0 # 1) (variation_factors !! i))%Q
    end.
Proof.
  intros Hi.
  destruct (actual_series ac ing) as [|x s] eqn:E.
  - rewrite matching_nil; [done|].
    intros r (j & _ & Hne & _)%elem_of_seasonal_forecast _ Hing.
    rewrite Hing in Hne. by rewrite E in Hne.
  - assert (Hne : actual_series ac ing <> []) by (by rewrite E).
    assert (Hd : forecast_start + Z.of_nat i ∈ dates forecast_start).
    { rewrite dates_forecast_start. apply list_elem_of_lookup. exists i.
      by apply forecast_dates_lookup. }
    destruct (merged_from_seasonal ac _ ing _ Hd Hne (merged_from_head _ _ _))
      as (j & _ & Hj & ->).
    assert (j = i) as -> by lia. by rewrite E.
Qed.

Lemma forecast_daily_out_rows (f : Files) :
  script_actual f <> [] ->
  forecast_daily_out (script_inputs f) forecast_start
  ≡ₚ (fun x : Z * string =>
        ForecastDay.mk x.1 x.2
          (default (0 # 1)%Q
             (head (matching (seasonal_forecast (script_actual f)) x.1 x.2)))
          (unit_of (ingredient_units (week3bank f)) x.2))
       <$> grid_index (dates forecast_start) (run_ingredients (script_inputs f)).
Proof.
  intros Hne. unfold forecast_daily_out. rewrite sort_values_Permutation.
  rewrite <- (script_grid_keys f Hne), <- final_daily_keys.
  assert (Hfc : forecast (script_inputs f) = seasonal_forecast (script_actual f)).
  { cbn [forecast script_inputs]. unfold script_forecast.
    by destruct (script_actual f). }
  rewrite Hfc, merge_left_single.
  2:{ apply Forall_forall. intros x _. apply seasonal_matching_single. }
  rewrite <- !list_fmap_compose. done.
Qed.

Lemma seasonal_week_values (ac : list Usage.row) (ing : string) :
  (fun x : Z * string =>
     default (0 # 1)%Q (head (matching (seasonal_forecast ac) x.1 x.2)))
    <$> ((fun d => (d, ing)) <$> dates forecast_start)
  = match actual_series ac ing with
    | [] => replicate 7 (0 # 1)%Q
    | s => (fun v => mean s * v)%Q <$> variation_factors
    end.
Proof.
  rewrite <- list_fmap_compose.
  assert (Hd : dates forecast_start
               = (fun i => forecast_start + Z.of_nat i) <$> seq 0 7) by reflexivity.
  rewrite Hd, <- list_fmap_compose.
  assert (Hv : forall i, i ∈ seq 0 7 ->
            default (0 # 1)%Q
              (head (matching (seasonal_forecast ac) (forecast_start + Z.of_nat i) ing))
            = match actual_series ac ing with
              | [] => (0 # 1)%Q
              | s => (mean s * default (0 # 1) (variation_factors !! i))%Q
              end).
  { intros i [_ Hi]%elem_of_seq. rewrite seasonal_value by lia.
    by destruct (actual_series ac ing). }
  transitivity ((fun i => match actual_series ac ing with
                          | [] => (0 # 1)%Q
                          | s => (mean s * default (0 # 1) (variation_factors !! i))%Q
                          end) <$> seq 0 7).
  - apply list_fmap_ext. intros k i Hk. apply Hv. by eapply list_elem_of_lookup_2.
  - by destruct (actual_series ac ing).
Qed.

Lemma filter_of_fmap {A B : Type} (f : A -> B) (P : B -> Prop)
    `{!forall y, Decision (P y)} (l : list A) :
  filter P (f <$> l) = f <$> filter (fun x => P (f x)) l.
Proof.
  induction l as [|x l IH]; [done|].
  rewrite fmap_cons, !filter_cons, IH. by destruct (decide (P (f x))).
Qed.

Lemma summary_keys (f : Files) (k : string * string) :
  script_actual f <> [] ->
  k ∈ summary_key <$> forecast_daily_out (script_inputs f) forecast_start
  <-> k.1 ∈ run_ingredients (script_inputs f)
      /\ k.2 = unit_of (ingredient_units (week3bank f)) k.1.
Proof.
  intros Hne. rewrite (forecast_daily_out_rows f Hne), <- list_fmap_compose.
  rewrite list_elem_of_fmap. split.
  - by intros ([d ing] & -> & [_ Hin]%elem_of_grid_index).
  - destruct k as [ing u]. cbn. intros [Hin ->]. exists (forecast_start, ing).
    split; [done|]. apply elem_of_grid_index. split; [|done].
    apply elem_of_dates. unfold end_date, RECURRENCE_DAYS. lia.
Qed.

Lemma summary_ingredients (f : Files) :
  script_actual f <> [] ->
  Summary.ingredient <$> forecast_summary_out (script_inputs f) forecast_start
  ≡ₚ run_ingredients (script_inputs f).
Proof.
  intros Hne. unfold forecast_summary_out, forecast_summary_rows.
  rewrite sort_values_Permutation, <- list_fmap_compose.
  rewrite sort_values_Permutation.
  apply NoDup_Permutation.
  - apply NoDup_fmap_2_strong; [|apply NoDup_elements].
    intros [i u] [j v] Hx Hy Hxy. cbn in Hxy. subst j.
    apply elem_of_elements, elem_of_list_to_set in Hx, Hy.
    apply (summary_keys f _ Hne) in Hx as [_ Hu], Hy as [_ Hv].
    cbn in Hu, Hv. by rewrite Hu, Hv.
  - apply NoDup_ingredients.
  - intros ing. rewrite list_elem_of_fmap. split.
    + intros (k & -> & Hk).
      apply elem_of_elements, elem_of_list_to_set in Hk.
      by apply (summary_keys f _ Hne) in Hk as [Hin _].
    + intros Hin. exists (ing, unit_of (ingredient_units (week3bank f)) ing).
      split; [done|]. apply elem_of_elements, elem_of_list_to_set.
      by apply (summary_keys f _ Hne).
Qed.

Lemma string_leb_total (a b : string) : String.leb a b = false -> String.leb b a = true.
Proof.
  unfold String.leb. rewrite (String.compare_antisym a b).
  by destruct (String.compare b a).
Qed.

Lemma string_leb_trans (a b c : string) :
  String.leb a b = true -> String.leb b c = true -> String.leb a c = true.
Proof.
  unfold String.leb.
  destruct (String.compare a b) eqn:E1; [|
    |done].
  - apply String.compare_eq_iff in E1 as ->. done.
  - destruct (String.compare b c) eqn:E2; [| |done].
    + apply String.compare_eq_iff in E2 as <-. by rewrite E1.
    + by rewrite (string_compare_lt_trans a b c E1 E2).
Qed.

Lemma forecast_day_leb_total r1 r2 :
  forecast_day_leb r1 r2 = false -> forecast_day_leb r2 r1 = true.
Proof.
  unfold forecast_day_leb.
  destruct (Z.ltb_spec (ForecastDay.date r1) (ForecastDay.date r2)); [done|].
  destruct (Z.ltb_spec (ForecastDay.date r2) (ForecastDay.date r1)); [done|].
  apply string_leb_total.
Qed.

Lemma forecast_day_leb_trans r1 r2 r3 :
  forecast_day_leb r1 r2 = true -> forecast_day_leb r2 r3 = true ->
  forecast_day_leb r1 r3 = true.
Proof.
  unfold forecast_day_leb.
  destruct (Z.ltb_spec (ForecastDay.date r1) (ForecastDay.date r2)),
    (Z.ltb_spec (ForecastDay.date r2) (ForecastDay.date r1)),
    (Z.ltb_spec (ForecastDay.date r2) (ForecastDay.date r3)),
    (Z.ltb_spec (ForecastDay.date r3) (ForecastDay.date r2)),
    (Z.ltb_spec (ForecastDay.date r1) (ForecastDay.date r3)),
    (Z.ltb_spec (ForecastDay.date r3) (ForecastDay.date r1));
    try done; try lia.
  apply string_leb_trans.
Qed.

Lemma forecast_day_leb_date r1 r2 :
  forecast_day_leb r1 r2 = true -> ForecastDay.date r1 <= ForecastDay.date r2.
Proof.
  unfold forecast_day_leb.
  destruct (Z.ltb_spec (ForecastDay.date r1) (ForecastDay.date r2)); [lia|].
  destruct (Z.ltb_spec (ForecastDay.date r2) (ForecastDay.date r1)); [done | lia].
Qed.

(** The rows of an ingredient in the daily forecast table, on the seasonal
    path: one per day of the horizon, in the order of the days. *)
Lemma summary_group_rows (f : Files) (ing : string) :
  script_actual f <> [] ->
  ing ∈ run_ingredients (script_inputs f) ->
  filter (fun r => summary_key r
                   = (ing, unit_of (ingredient_units (week3bank f)) ing))
    (forecast_daily_out (script_inputs f) forecast_start)
  = (fun x : Z * string =>
       ForecastDay.mk x.1 x.2
         (default (0 # 1)%Q
            (head (matching (seasonal_forecast (script_actual f)) x.1 x.2)))
         (unit_of (ingredient_units (week3bank f)) x.2))
      <$> ((fun d => (d, ing)) <$> dates forecast_start).
Proof.
  intros Hne Hin.
  set (h := fun x : Z * string =>
              ForecastDay.mk x.1 x.2
                (default (0 # 1)%Q
                   (head (matching (seasonal_forecast (script_actual f)) x.1 x.2)))
                (unit_of (ingredient_units (week3bank f)) x.2)).
  assert (Hperm :
    filter (fun r => summary_key r
                     = (ing, unit_of (ingredient_units (week3bank f)) ing))
      (forecast_daily_out (script_inputs f) forecast_start)
    ≡ₚ h <$> ((fun d => (d, ing)) <$> dates forecast_start)).
  { rewrite (forecast_daily_out_rows f Hne). fold h.
    rewrite filter_of_fmap.
    rewrite (list_filter_iff _ (fun x : Z * string => x.2 = ing)).
    2:{ intros [d i]. unfold summary_key, h. cbn.
        split; [by intros [= ->] | by intros ->]. }
    by rewrite grid_index_column by (done || apply NoDup_ingredients). }
  apply (StronglySorted_unique_strong
           (fun a b => ForecastDay.date a <= ForecastDay.date b));
    [| | |exact Hperm].
  - intros x1 x2 Hx1 Hx2 H12 H21. rewrite Hperm in Hx1.
    apply list_elem_of_fmap in Hx1 as (y1 & -> & (d1 & -> & _)%list_elem_of_fmap).
    apply list_elem_of_fmap in Hx2 as (y2 & -> & (d2 & -> & _)%list_elem_of_fmap).
    unfold h in *. cbn in H12, H21. by replace d2 with d1 by lia.
  - apply (filter_StronglySorted (fun a b => forecast_day_leb a b = true)).
    + intros a b _ _. apply forecast_day_leb_date.
    + apply sort_values_StronglySorted.
      * apply forecast_day_leb_total.
      * apply forecast_day_leb_trans.
  - rewrite <- list_fmap_compose.
    apply (StronglySorted_fmap _ Z.lt); [intros x y Hxy; cbn; lia|].
    change (dates forecast_start)
      with [18338; 18339; 18340; 18341; 18342; 18343; 18344].
    repeat constructor; lia.
Qed.

(** X25.  On the seasonal path the forecast summary has exactly one row
    for every ingredient of the run, with the unit of the ingredient.  The
    total, the daily average and the peak of an ingredient that was used in
    the reference week are the sum, the mean and the maximum of its seven
    daily forecasts, the average usage times the variation factor of the
    day, in the order of the days; for the other ingredients of the run
    they are those of seven zeros. *)
Theorem X25_forecast_summary_seasonal (f : Files) :
  script_actual f <> [] ->
  Summary.ingredient <$> forecast_summary_out (script_inputs f) forecast_start
    ≡ₚ run_ingredients (script_inputs f)
  /\ forall row,
       row ∈ forecast_summary_out (script_inputs f) forecast_start ->
       let week :=
         match actual_series (script_actual f) (Summary.ingredient row) with
         | [] => replicate 7 (0 # 1)%Q
         | s => (fun v => mean s * v)%Q <$> variation_factors
         end in
       Summary.unit row
       = unit_of (ingredient_units (week3bank f)) (Summary.ingredient row)
       /\ Summary.total_7d row = Qsum week
       /\ Summary.avg_daily row = mean week
       /\ Summary.peak_day row = series_max week.
Proof.
  intros Hne. split; [by apply summary_ingredients|]. intros row Hrow.
  unfold forecast_summary_out in Hrow.
  apply elem_of_sort_values in Hrow. unfold forecast_summary_rows in Hrow.
  apply list_elem_of_fmap in Hrow as (k & -> & Hk).
  apply elem_of_sort_values, elem_of_elements, elem_of_list_to_set in Hk.
  apply (summary_keys f _ Hne) in Hk as [Hin Hu]. destruct k as [ing u].
  cbn in Hin, Hu. subst u.
  cbn [Summary.ingredient Summary.unit Summary.total_7d Summary.avg_daily
       Summary.peak_day fst snd].
  rewrite (summary_group_rows f ing Hne Hin), <- list_fmap_compose.
  rewrite <- (seasonal_week_values (script_actual f) ing), <- list_fmap_compose.
  done.
Qed.

Lemma X25_witness :
  script_actual shop <> []
  /\ Summary.ingredient <$> forecast_summary_out (script_inputs shop) forecast_start
     ≡ₚ run_ingredients (script_inputs shop).
Proof.
  assert (H1 : script_actual shop <> []) by (vm_compute; discriminate).
  split; [exact H1|].
  exact (proj1 (X25_forecast_summary_seasonal shop H1)).
Defined.

(** ** The order of the inventory table *)

Lemma inv_leb_total r1 r2 : inv_leb r1 r2 = false -> inv_leb r2 r1 = true.
Proof.
  unfold inv_leb.
  destruct (Inventory.stockout_date_if_no_new_order r1) as [d1|],
           (Inventory.stockout_date_if_no_new_order r2) as [d2|]; try done.
  - destruct (Z.ltb_spec d1 d2); [done|].
    destruct (Z.ltb_spec d2 d1); [done|]. apply string_leb_total.
  - apply string_leb_total.
Qed.

Lemma inv_leb_trans r1 r2 r3 :
  inv_leb r1 r2 = true -> inv_leb r2 r3 = true -> inv_leb r1 r3 = true.
Proof.
  unfold inv_leb.
  destruct (Inventory.stockout_date_if_no_new_order r1) as [d1|],
           (Inventory.stockout_date_if_no_new_order r2) as [d2|],
           (Inventory.stockout_date_if_no_new_order r3) as [d3|]; try done.
  - destruct (Z.ltb_spec d1 d2), (Z.ltb_spec d2 d1), (Z.ltb_spec d2 d3),
      (Z.ltb_spec d3 d2), (Z.ltb_spec d1 d3), (Z.ltb_spec d3 d1);
      try done; try lia.
    apply string_leb_trans.
  - apply string_leb_trans.
Qed.

(** X26.  The inventory table has exactly one row for every ingredient of
    the run.  The ingredients that run out come first, the earliest
    stockout first and by name within one stockout date; the ingredients
    that do not run out come last, by name. *)
Theorem X26_inventory_table_order (inp : Inputs) (start : Z) :
  Inventory.ingredient <$> inventory_table inp start ≡ₚ run_ingredients inp
  /\ StronglySorted
       (fun r1 r2 =>
          match Inventory.stockout_date_if_no_new_order r1,
                Inventory.stockout_date_if_no_new_order r2 with
          | Some d1, Some d2 =>
              d1 < d2
              \/ (d1 = d2
                  /\ String.compare (Inventory.ingredient r1)
                       (Inventory.ingredient r2) <> Gt)
          | Some _, None => True
          | None, Some _ => False
          | None, None =>
              String.compare (Inventory.ingredient r1) (Inventory.ingredient r2) <> Gt
          end)
       (inventory_table inp start).
Proof.
  split.
  - unfold inventory_table, inv_rows.
    rewrite sort_values_Permutation, <- list_fmap_compose.
    by rewrite list_fmap_id.
  - eapply StronglySorted_weaken;
      [|apply (sort_values_StronglySorted inv_leb inv_leb_total inv_leb_trans)].
    intros r1 r2. unfold inv_leb, String.leb.
    destruct (Inventory.stockout_date_if_no_new_order r1) as [d1|],
             (Inventory.stockout_date_if_no_new_order r2) as [d2|]; try done.
    + destruct (Z.ltb_spec d1 d2); [by left|].
      destruct (Z.ltb_spec d2 d1); [done|].
      intros H'. right. split; [lia|]. by destruct (String.compare _ _).
    + intros H'. by destruct (String.compare _ _).
Qed.
